(** * Scale-bar addition tool: a Rocq model of the two scripts

    The repository holds two sibling command-line scripts:

    - [add_scale_bar_IX71.py]      (module [IX71]):  the scope-specific
      pipeline for OLYMPUS IX71 captures (.tif, 1920x1440, six calibrations);
    - [_scale_bar_gcode_images.py] (module [Gcode]): the generic pipeline
      (.png, one fixed calibration, no size check).

    Both are modelled as programs in a small state-and-exception monad over
    an explicit operating-system / imaging-library environment ([World]).
    Python values are modelled as follows: [str] as [string], [int] as [Z],
    [float] as the primitive binary64 [float], [None]-or-value as [option],
    a numpy image array as its shape, its channel count, its element type
    and a total function from row, column and channel to the sample. *)

From Stdlib Require Import ZArith List String Ascii Bool Lia.
From Stdlib Require Import PrimFloat FloatOps SpecFloat.
From Stdlib Require Import DecimalString.
Import ListNotations.

Open Scope string_scope.
Open Scope Z_scope.

(* Decimal float literals such as [1.6] denote, as in Python, the nearest
   binary64 value. *)
Set Warnings "-inexact-float".

(* ===================================================================== *)
(** ** The fragment of Python the scripts rely on                          *)
(* ===================================================================== *)

Module Py.

(** *** [str] *)

(** [c.lower()] on one character.  Only the ASCII letters are moved; the
    scripts only ever ask of a lowered string whether it ends with
    [".png"], and of a character whether it equals an ASCII pattern
    character up to case. *)
Definition lower_ascii (c : ascii) : ascii :=
  let n := nat_of_ascii c in
  if (65 <=? n)%nat && (n <=? 90)%nat then ascii_of_nat (n + 32) else c.

(** [s.lower()] *)
Fixpoint lower (s : string) : string :=
  match s with
  | EmptyString => EmptyString
  | String c s' => String (lower_ascii c) (lower s')
  end.

(** [s.startswith(p)] *)
Definition startswith (s p : string) : bool := String.prefix p s.

(** [s.endswith(suffix)]: some tail of [s] is [suffix]. *)
Fixpoint endswith (s suffix : string) : bool :=
  if String.eqb s suffix then true
  else match s with
       | EmptyString => false
       | String _ s' => endswith s' suffix
       end.

(** [sub in s]: [sub] is a prefix of some tail of [s]. *)
Fixpoint contains (sub s : string) : bool :=
  if String.prefix sub s then true
  else match s with
       | EmptyString => false
       | String _ s' => contains sub s'
       end.

(** [s[:-n]] for a positive literal [n]: all but the last [n] characters,
    the empty string when [s] has at most [n] of them. *)
Definition drop_last (n : nat) (s : string) : string :=
  substring 0 (String.length s - n) s.

(** Truth value of a [str]: only the empty string is false. *)
Definition truthy (s : string) : bool := negb (String.eqb s "").

(** Truth value of a [None]-or-[str] argument. *)
Definition truthy_opt (o : option string) : bool :=
  match o with
  | None => false
  | Some s => truthy s
  end.

(** [str(n)] / [f"{n}"] for an [int]. *)
Definition str_of_int (n : Z) : string := NilZero.string_of_int (Z.to_int n).

(** The newline character of ["\n"]. *)
Definition nl : string := String (ascii_of_nat 10) EmptyString.

(** *** [float] (IEEE 754 binary64) *)

(** Implicit [int -> float] conversion in mixed arithmetic: the nearest
    binary64 value (exact for every integer the scripts use). *)
Definition float_of_int (z : Z) : float :=
  SF2Prim (binary_normalize prec emax z 0 false).

(** [int(x)] for a float: truncation toward zero.  Python raises on an
    infinity or a NaN; the scripts apply [int] to finite constants only
    (see [calibration_products_finite]), so that case is given 0 here. *)
Definition int_of_float (x : float) : Z :=
  match Prim2SF x with
  | S754_finite s m e =>
      let v := if 0 <=? e then Z.shiftl (Zpos m) e
               else Z.shiftr (Zpos m) (- e) in
      if s then - v else v
  | _ => 0
  end.

Definition is_finite (x : float) : bool :=
  match Prim2SF x with
  | S754_zero _ | S754_finite _ _ _ => true
  | _ => false
  end.

(** C's [floor] on a double. *)
Definition float_floor (x : float) : float :=
  match Prim2SF x with
  | S754_finite s m e =>
      if 0 <=? e then x
      else float_of_int (Z.shiftr (if s then Zneg m else Zpos m) (- e))
  | _ => x
  end.

(** C's [fmod] on doubles: the exact remainder of the truncated quotient,
    carrying the sign of [x]. *)
Definition float_fmod (x y : float) : float :=
  match Prim2SF x, Prim2SF y with
  | S754_nan, _ | _, S754_nan => nan
  | S754_infinity _, _ => nan
  | _, S754_zero _ => nan
  | S754_zero _, _ => x
  | S754_finite _ _ _, S754_infinity _ => x
  | S754_finite sx mx ex, S754_finite _ my ey =>
      let e := Z.min ex ey in
      let r := Z.rem (Z.shiftl (Zpos mx) (ex - e)) (Z.shiftl (Zpos my) (ey - e)) in
      if r =? 0 then (if sx then (- 0)%float else 0%float)
      else SF2Prim (binary_normalize prec emax (if sx then - r else r) e false)
  end.

Definition copysign_zero (x : float) : float :=
  if PrimFloat.ltb x 0 || (PrimFloat.eqb x 0 && PrimFloat.ltb (PrimFloat.div 1 x) 0)
  then (- 0)%float else 0%float.

(** [vx // wx] on floats, following CPython's [_float_div_mod].  Python
    raises [ZeroDivisionError] when [wx] is zero; the only divisor in the
    scripts is the literal [2]. *)
Definition float_floordiv (vx wx : float) : float :=
  let mod0 := float_fmod vx wx in
  let div0 := PrimFloat.div (PrimFloat.sub vx mod0) wx in
  let div1 :=
    if negb (PrimFloat.eqb mod0 0)
    then if xorb (PrimFloat.ltb wx 0) (PrimFloat.ltb mod0 0)
         then PrimFloat.sub div0 1 else div0
    else div0 in
  if negb (PrimFloat.eqb div1 0)
  then let fl := float_floor div1 in
       if PrimFloat.ltb 0.5 (PrimFloat.sub div1 fl)
       then PrimFloat.add fl 1 else fl
  else copysign_zero (PrimFloat.div vx wx).

(** *** [re]: the regular expressions the scope script uses

    Literal characters, concatenation, ordered alternation and the greedy
    optional group [(?:r)?], matched by backtracking in the order Python's
    engine tries them, with literals compared under [re.IGNORECASE]. *)
Inductive regex : Type :=
| Chr (c : ascii)
| Cat (r1 r2 : regex)
| Alt (r1 r2 : regex)
| Opt (r : regex).

(** The literal string [s] as a regex, followed by [r]. *)
Fixpoint lit (s : string) (r : regex) : regex :=
  match s with
  | EmptyString => r
  | String c s' => Cat (Chr c) (lit s' r)
  end.

(** [match_here r s k]: match [r] at the start of [s], then hand what is
    left to the continuation [k]; the first success in backtracking order
    is returned. *)
Fixpoint match_here (r : regex) (s : string)
         (k : string -> option string) : option string :=
  match r with
  | Chr c =>
      match s with
      | String a s' =>
          if Ascii.eqb (lower_ascii a) (lower_ascii c) then k s' else None
      | EmptyString => None
      end
  | Cat r1 r2 => match_here r1 s (fun s' => match_here r2 s' k)
  | Alt r1 r2 =>
      match match_here r1 s k with
      | Some rest => Some rest
      | None => match_here r2 s k
      end
  | Opt r1 =>
      match match_here r1 s k with
      | Some rest => Some rest
      | None => k s
      end
  end.

(** The text of a match that started at [s] and left [rest] unread. *)
Definition matched (s rest : string) : string :=
  substring 0 (String.length s - String.length rest) s.

(** [re.search(r, s, flags=re.IGNORECASE)] followed by [.group()]: the text
    of the leftmost match, as it stands in [s]; [None] without a match. *)
Fixpoint search (r : regex) (s : string) : option string :=
  match match_here r s Some with
  | Some rest => Some (matched s rest)
  | None =>
      match s with
      | EmptyString => None
      | String _ s' => search r s'
      end
  end.

End Py.

(* ===================================================================== *)
(** ** Images and the OpenCV / Pillow operations                           *)
(* ===================================================================== *)

(** The element type of an array ([image.dtype]).  [cv2.imread(path, -1)]
    returns the file's samples as they are stored, so that a 16-bit PNG or
    TIFF, or a TIFF of signed or floating-point samples, gives an array of
    another element type than [uint8]. *)
Inductive np_dtype : Type :=
| uint8 | int8 | uint16 | int16 | int32 | float32 | float64.

(** One element of an array: an integer, or a float for the two
    floating-point element types. *)
Inductive sample : Type :=
| Int (n : Z)
| Real (x : float).

(** A decoded image: [image.shape[0]] rows, [image.shape[1]] columns,
    [channels] samples per pixel, stored in the order the array has them
    (blue, green, red and then alpha for what [cv2.imread] returns), and the
    sample [image[y, x, c]].  With the flag -1, [cv2.imread] returns one,
    three or four channels; one channel stands for the two-dimensional
    array of a greyscale file.  Only indices inside the shape and the
    channel count are meaningful. *)
Record image : Type := mk_image {
  shape0 : Z;
  shape1 : Z;
  channels : Z;
  dtype : np_dtype;
  px : Z -> Z -> Z -> sample
}.

(** A colour as the scripts write it: a tuple of three integers. *)
Definition color : Type := (Z * Z * Z)%type.

(** A loaded TrueType font: the file it came from and its size. *)
Record font : Type := mk_font {
  font_file : string;
  font_size : Z
}.

(** Membership of column [x], row [y] in the rectangle spanned by the
    opposite corners [pt1] and [pt2], both corners included. *)
Definition in_rect (pt1 pt2 : Z * Z) (x y : Z) : bool :=
  (Z.min (fst pt1) (fst pt2) <=? x) && (x <=? Z.max (fst pt1) (fst pt2)) &&
  (Z.min (snd pt1) (snd pt2) <=? y) && (y <=? Z.max (snd pt1) (snd pt2)).

(** The component of channel [c] in the four-component scalar OpenCV makes
    of a colour tuple: the tuple's three values, then 0. *)
Definition scalar_at (color : color) (c : Z) : Z :=
  let '(v0, v1, v2) := color in
  if c =? 0 then v0 else if c =? 1 then v1 else if c =? 2 then v2 else 0.

(** OpenCV's [saturate_cast] of an integer value to an element type. *)
Definition saturate_cast (d : np_dtype) (v : Z) : sample :=
  match d with
  | uint8 => Int (Z.max 0 (Z.min 255 v))
  | int8 => Int (Z.max (-128) (Z.min 127 v))
  | uint16 => Int (Z.max 0 (Z.min 65535 v))
  | int16 => Int (Z.max (-32768) (Z.min 32767 v))
  | int32 => Int (Z.max (-2147483648) (Z.min 2147483647 v))
  | float32 | float64 => Real (Py.float_of_int v)
  end.

(** [cv2.rectangle(image, pt1, pt2, color=color, thickness=-1)]: the filled
    rectangle, clipped to the image by the shape.  Every channel of a
    pixel inside it receives its component of the colour, cast to the
    element type; the shape, the channel count and the element type stay. *)
Definition cv2_rectangle (img : image) (pt1 pt2 : Z * Z) (color : color) : image :=
  {| shape0 := shape0 img;
     shape1 := shape1 img;
     channels := channels img;
     dtype := dtype img;
     px := fun y x c =>
             if in_rect pt1 pt2 x y
             then saturate_cast (dtype img) (scalar_at color c)
             else px img y x c |}.

(** What [cv2.cvtColor] with the code [COLOR_BGR2RGB] (the same number as
    [COLOR_RGB2BGR]) makes of an array it accepts: three channels, the
    first and the third of the input exchanged, the second kept; a fourth
    input channel, the alpha channel, is not carried over. *)
Definition swap_rb (img : image) : image :=
  {| shape0 := shape0 img;
     shape1 := shape1 img;
     channels := 3;
     dtype := dtype img;
     px := fun y x c => px img y x (2 - c) |}.

(** The element types [cv2.cvtColor] converts between BGR and RGB. *)
Definition cvtColor_depth (d : np_dtype) : bool :=
  match d with
  | uint8 | uint16 | float32 => true
  | _ => false
  end.

(** numpy's [typestr] of an element type, on a little-endian machine. *)
Definition typestr (d : np_dtype) : string :=
  match d with
  | uint8 => "|u1"
  | int8 => "|i1"
  | uint16 => "<u2"
  | int16 => "<i2"
  | int32 => "<i4"
  | float32 => "<f4"
  | float64 => "<f8"
  end.

(** The arrays [Image.fromarray] has a Pillow mode for: every
    two-dimensional array of these element types, and [uint8] arrays of
    two, three or four channels. *)
Definition fromarray_accepts (arr : image) : bool :=
  (channels arr =? 1) ||
  (match dtype arr with uint8 => true | _ => false end
   && (2 <=? channels arr) && (channels arr <=? 4)).

(* ===================================================================== *)
(** ** The environment, the program state and the monad                    *)
(* ===================================================================== *)

(** What the operating system and the libraries answer when a script
    starts: the file system ([os.path], [glob], image decoding and
    encoding), the platform, and Pillow's font machinery. *)
Record World : Type := mk_World {
  os_path_exists : string -> bool;
  os_path_isdir : string -> bool;
  os_path_isfile : string -> bool;
  os_path_join : string -> string -> string;
  glob_glob : string -> list string;
  (** [cv2.imread(path, -1)]: the decoded image, [None] when the file cannot
      be decoded. *)
  decode : string -> option image;
  sys_platform : string;
  (** [os.path.dirname(__file__)] *)
  script_dir : string;
  (** whether [ImageFont.truetype] can open the font file; it raises
      [OSError] otherwise *)
  font_readable : string -> bool;
  (** [draw.textlength(label, font=font)] *)
  textlength : string -> font -> float;
  (** [draw.text(position, label, font=font, fill=color)] on an RGB image:
      the sample at row [y], column [x], channel [c] once the text is
      drawn *)
  draw_text : image -> float * Z -> string -> font -> color
              -> Z -> Z -> Z -> sample;
  (** whether [cv2.imwrite] can write the file at this path; it returns
      [False], and writes nothing, otherwise *)
  imwrite_ok : string -> bool
}.

(** What a run has done so far: the strings printed, one per call of
    [print]; the files written by [cv2.imwrite], most recent first; and, as
    a trace for reasoning, the paths [add_scale_bar] was called with. *)
Record state : Type := mk_state {
  stdout : list string;
  written : list (string * image);
  calls : list string
}.

Definition init_state : state :=
  {| stdout := []; written := []; calls := [] |}.

(** Python exceptions the modelled code can raise.  Of [cv2.error], whose
    message starts with the OpenCV version and source line, the reason is
    kept. *)
Inductive exn : Type :=
| AttributeError (message : string)
| OSError (message : string)
| TypeError (message : string)
| cv2_error (reason : string).

Inductive result (A : Type) : Type :=
| Ok (a : A)
| Raised (e : exn).

Arguments Ok {A} a.
Arguments Raised {A} e.

(** A computation: from a state to a value or an uncaught exception, and
    the state reached.  Neither script catches anything, so an exception
    ends every enclosing computation. *)
Definition M (A : Type) : Type := state -> result A * state.

Definition ret {A : Type} (a : A) : M A := fun st => (Ok a, st).

Definition bind {A B : Type} (c : M A) (f : A -> M B) : M B :=
  fun st =>
    match c st with
    | (Ok a, st') => f a st'
    | (Raised e, st') => (Raised e, st')
    end.

Definition raise {A : Type} (e : exn) : M A := fun st => (Raised e, st).

Declare Scope py_scope.
Delimit Scope py_scope with py.
Notation "x <- c ;; k" := (bind c (fun x => k))
  (at level 61, c at next level, right associativity) : py_scope.
Notation "c ;; k" := (bind c (fun _ => k))
  (at level 61, right associativity) : py_scope.
Open Scope py_scope.

(** [print(line)] *)
Definition print (line : string) : M unit :=
  fun st => (Ok tt, {| stdout := stdout st ++ [line];
                       written := written st;
                       calls := calls st |}).

(** [cv2.imwrite(path, image)] for a path ending with [.tif] or [.png], the
    only ones the scripts write: the file is written and [True] returned,
    or nothing is written and [False] returned. *)
Definition cv2_imwrite (w : World) (path : string) (img : image) : M bool :=
  fun st =>
    if imwrite_ok w path
    then (Ok true, {| stdout := stdout st;
                      written := (path, img) :: written st;
                      calls := calls st |})
    else (Ok false, st).

(** Entry of [add_scale_bar(path, ...)] into the call trace. *)
Definition enter (path : string) : M unit :=
  fun st => (Ok tt, {| stdout := stdout st;
                       written := written st;
                       calls := calls st ++ [path] |}).

(** The file written last at [path] during this run, if any. *)
Definition lookup_written (path : string) (st : state) : option image :=
  match find (fun e => String.eqb path (fst e)) (written st) with
  | Some e => Some (snd e)
  | None => None
  end.

(** What [os.path.exists(path)] answers in state [st]: true for what the
    run has written and for what was there at the start. *)
Definition exists_at (w : World) (st : state) (path : string) : bool :=
  match lookup_written path st with
  | Some _ => true
  | None => os_path_exists w path
  end.

(** What [cv2.imread(path, -1)] returns in state [st]: what the run wrote
    there last, else what the file held at the start. *)
Definition image_at (w : World) (st : state) (path : string) : option image :=
  match lookup_written path st with
  | Some img => Some img
  | None => decode w path
  end.

(** [os.path.exists(path)] *)
Definition path_exists (w : World) (path : string) : M bool :=
  fun st => (Ok (exists_at w st path), st).

(** [cv2.imread(path, -1)] *)
Definition cv2_imread (w : World) (path : string) : M (option image) :=
  fun st => (Ok (image_at w st path), st).

(** [cv2.cvtColor(image, cv2.COLOR_BGR2RGB)]: OpenCV's error for an array
    that has not three or four channels, or whose element type the
    conversion does not handle. *)
Definition cv2_cvtColor_BGR2RGB (img : image) : M image :=
  if negb ((channels img =? 3) || (channels img =? 4))
  then raise (cv2_error "Invalid number of channels in input image")
  else if negb (cvtColor_depth (dtype img))
  then raise (cv2_error "Unsupported depth of input image")
  else ret (swap_rb img).

(** [cv2.cvtColor(image, cv2.COLOR_RGB2BGR)]: the same conversion. *)
Definition cv2_cvtColor_RGB2BGR (img : image) : M image :=
  cv2_cvtColor_BGR2RGB img.

(** [Image.fromarray(array)]: the Pillow image of an array it has a mode
    for, [TypeError] for any other array.  A Pillow image is modelled as
    the array it is made from. *)
Definition Image_fromarray (arr : image) : M image :=
  if fromarray_accepts arr then ret arr
  else raise (TypeError ("Cannot handle this data type: (1, 1, "
                         ++ Py.str_of_int (channels arr) ++ "), "
                         ++ typestr (dtype arr))).

(** [np.asarray(pil_image)] *)
Definition np_asarray (pil_image : image) : image := pil_image.

(** [draw.text(position, label, font=font, fill=fill)] on the image [draw]
    was made for: drawing changes samples in place, not the size or the
    mode. *)
Definition ImageDraw_text (w : World) (pil_image : image)
           (position : float * Z) (label : string) (font : font)
           (fill : color) : image :=
  {| shape0 := shape0 pil_image;
     shape1 := shape1 pil_image;
     channels := channels pil_image;
     dtype := dtype pil_image;
     px := draw_text w pil_image position label font fill |}.

(** [ImageFont.truetype(font_path, size)] *)
Definition ImageFont_truetype (w : World) (font_path : string) (size : Z) : M font :=
  if font_readable w font_path
  then ret {| font_file := font_path; font_size := size |}
  else raise (OSError "cannot open resource").

(** The three platform branches shared by both scripts: the font file for
    [sys.platform], [None] on any other platform. *)
Definition font_path_for (w : World) : option string :=
  if String.eqb (sys_platform w) "darwin"
  then Some (os_path_join w (script_dir w) "Arial.ttf")
  else if String.eqb (sys_platform w) "win32"
  then Some "arial.ttf"
  else if Py.startswith (sys_platform w) "linux"
  then Some "/usr/share/fonts/truetype/liberation/LiberationSans-Regular.ttf"
  else None.

Definition msg_unsupported_os : string :=
  "Unsupported operating system. Please run this script on MacOS, Windows, or Linux.".

Definition msg_not_a_path : string :=
  "The provided path does not exist or is not a valid image or directory.".

(** Exit status of the interpreter after running a script's main block:
    0 when it ran to its end, 1 when an exception was not caught. *)
Definition exit_code {A : Type} (r : result A) : Z :=
  match r with
  | Ok _ => 0
  | Raised _ => 1
  end.

(* ===================================================================== *)
(** ** add_scale_bar_IX71.py: the scope-specific pipeline                  *)
(* ===================================================================== *)

Module IX71.

Definition DISPLAY_SCALE_NUMBER : bool := true.

(** Constants from the calibration of the scopes *)
Definition scale_pixel_4X_1X_100_um : Z := 53.
Definition scale_pixel_10X_1X_100_um : Z := 132.
Definition scale_pixel_40X_1X_100_um : Z := 540.

Definition scale_bar_location_x_offset : Z := 60.
Definition scale_bar_location_y_offset : Z := 80.
Definition scale_bar_font_size : Z := 45.
Definition text_position_y_offset : Z := 60.
Definition scale_bar_thickness : Z := 30.
Definition scale_bar_color : color := (255, 255, 255).

Definition msg_not_exist : string :=
  "The image does not exist. Please provide a valid image.".
Definition msg_not_tif : string :=
  "The image must be in .tif format. Please provide a valid image.".
Definition msg_bad_size : string :=
  "The image must be 1920x1440 in size. Please provide a valid image.".
Definition msg_undetected : string :=
  "Failed to detect scope type from filename. Please add magnification to the filename or use the proper command-line argument.".
Definition msg_invalid_scope : string :=
  "Invalid scope type. Please use 4X_1X, 4X_1.6X, 10X_1X, 10X_1.6X, 40X_1X, or 40X_1.6X.".

(** One alternative [<head>(?:\.6)?X] of the pattern. *)
Definition magnification (head : string) : Py.regex :=
  Py.lit head (Py.Cat (Py.Opt (Py.lit "." (Py.Chr "6"))) (Py.Chr "X")).

(** [r"4X_1(?:\.6)?X|10X_1(?:\.6)?X|40X_1(?:\.6)?X"] *)
Definition pattern : Py.regex :=
  Py.Alt (magnification "4X_1")
         (Py.Alt (magnification "10X_1") (magnification "40X_1")).

(** Detect the scope type from the filename. *)
Definition detect_scope_type_from_filename (image_path : string) : string :=
  match Py.search pattern image_path with
  | Some group => group
  | None => ""
  end.

(** Lines 70-95: the [if]/[elif] chain from the scope type to
    [(scale_bar_size, label)]; [None] is the final [else].  In the first
    branch [int] is applied to an [int] and returns it. *)
Definition scale_bar_of (scope_type : string) : option (Z * string) :=
  if String.eqb scope_type "4X_1X" then
    Some (scale_pixel_4X_1X_100_um * 3, "300 μm")
  else if String.eqb scope_type "4X_1.6X" then
    Some (Py.int_of_float
            (Py.float_of_int scale_pixel_4X_1X_100_um * 1.6
             * Py.float_of_int 2)%float,
          "200 μm")
  else if String.eqb scope_type "10X_1X" then
    Some (Py.int_of_float
            (Py.float_of_int scale_pixel_10X_1X_100_um * 1.5)%float,
          "150 μm")
  else if String.eqb scope_type "10X_1.6X" then
    Some (Py.int_of_float
            (Py.float_of_int scale_pixel_10X_1X_100_um * 1.6)%float,
          "100 μm")
  else if String.eqb scope_type "40X_1X" then
    Some (Py.int_of_float
            (Py.float_of_int scale_pixel_40X_1X_100_um * 0.5)%float,
          "50 μm")
  else if String.eqb scope_type "40X_1.6X" then
    Some (Py.int_of_float
            (Py.float_of_int scale_pixel_40X_1X_100_um * 1.6
             * 0.3)%float,
          "30 μm")
  else None.

(** Lines 101-104: top-left corner of the bar, as (x, y). *)
Definition bar_position (image : image) (scale_bar_size : Z) : Z * Z :=
  (shape1 image - scale_bar_size - scale_bar_location_x_offset,
   shape0 image - scale_bar_location_y_offset).

(** Line 110: the opposite corner handed to [cv2.rectangle]. *)
Definition bar_corner (position : Z * Z) (scale_bar_size : Z) : Z * Z :=
  (fst position + scale_bar_size, snd position + scale_bar_thickness).

(** Lines 137-141: where the label is drawn. *)
Definition text_position (w : World) (position : Z * Z) (scale_bar_size : Z)
           (label : string) (font : font) : float * Z :=
  let text_width := textlength w label font in
  ((Py.float_of_int (fst position)
    + Py.float_floordiv (Py.float_of_int scale_bar_size - text_width)
                        (Py.float_of_int 2))%float,
   snd position - text_position_y_offset).

(** Lines 70-152: from a non-empty scope type to the written file.  The
    value [cv2.imwrite] returns is not looked at. *)
Definition draw_and_save (w : World) (image_path : string) (image : image)
           (scope_type : string) : M unit :=
  match scale_bar_of scope_type with
  | None => print msg_invalid_scope
  | Some (scale_bar_size, label) =>
      let label := if negb DISPLAY_SCALE_NUMBER then "" else label in
      let position := bar_position image scale_bar_size in
      let image :=
        cv2_rectangle image position (bar_corner position scale_bar_size)
                      scale_bar_color in
      image <- cv2_cvtColor_BGR2RGB image ;;
      pil_image <- Image_fromarray image ;;
      match font_path_for w with
      | None => print msg_unsupported_os
      | Some font_path =>
          font <- ImageFont_truetype w font_path scale_bar_font_size ;;
          let pil_image :=
            ImageDraw_text w pil_image
                           (text_position w position scale_bar_size label font)
                           label font scale_bar_color in
          let image := np_asarray pil_image in
          image <- cv2_cvtColor_RGB2BGR image ;;
          let output_path := Py.drop_last 4 image_path ++ "_scaled.tif" in
          cv2_imwrite w output_path image ;;
          print ("Scale bar added to " ++ output_path)
      end
  end.

(** Add a scale bar to an image based on the type of scope. *)
Definition add_scale_bar (w : World) (image_path : string)
           (scope_type : option string) : M unit :=
  enter image_path ;;
  found <- path_exists w image_path ;;
  if negb found then print msg_not_exist
  else if negb (Py.endswith image_path ".tif") then print msg_not_tif
  else
    image <- cv2_imread w image_path ;;
    match image with
    | None => print msg_bad_size
    | Some image =>
        if negb (shape0 image =? 1440) || negb (shape1 image =? 1920)
        then print msg_bad_size
        else
          match scope_type with
          | Some given =>
              if negb (Py.truthy given) then
                let scope_type := detect_scope_type_from_filename image_path in
                if negb (Py.truthy scope_type) then print msg_undetected
                else draw_and_save w image_path image scope_type
              else draw_and_save w image_path image given
          | None =>
              let scope_type := detect_scope_type_from_filename image_path in
              if negb (Py.truthy scope_type) then print msg_undetected
              else draw_and_save w image_path image scope_type
          end
    end.

(** The [for] loop of [process_directory]. *)
Fixpoint for_each_tif (w : World) (files : list string)
         (scope_type : option string) : M unit :=
  match files with
  | [] => ret tt
  | image_file :: rest =>
      (if negb (Py.endswith image_file "_scaled.tif")
       then add_scale_bar w image_file scope_type
       else ret tt) ;;
      for_each_tif w rest scope_type
  end.

(** Process all .tif images in the given directory. *)
Definition process_directory (w : World) (directory_path : string)
           (scope_type : option string) : M unit :=
  for_each_tif w (glob_glob w (os_path_join w directory_path "*.tif")) scope_type.

(** The [__main__] block, after [argparse] has produced [args.path] and
    [args.scope_type] ([None] when the second argument is omitted). *)
Definition main (w : World) (path : string) (scope_type : option string) : M unit :=
  if os_path_isdir w path then process_directory w path scope_type
  else if os_path_isfile w path then add_scale_bar w path scope_type
  else print msg_not_a_path.

End IX71.

(* ===================================================================== *)
(** ** _scale_bar_gcode_images.py: the generic pipeline                    *)
(* ===================================================================== *)

Module Gcode.

Definition DISPLAY_SCALE_NUMBER : bool := false.

(** Constants from the calibration of the scopes *)
Definition scale_pixel_1000_um : Z := 24.

Definition scale_bar_location_x_offset : Z := 10.
Definition scale_bar_location_y_offset : Z := 35.
Definition scale_bar_font_size : Z := 50.
Definition text_position_y_offset : Z := 50.
Definition scale_bar_thickness : Z := 25.
Definition scale_bar_color : color := (0, 0, 0).

Definition msg_not_exist : string :=
  "The image does not exist. Please provide a valid image.".
Definition msg_not_png (image_path : string) : string :=
  "Skipping " ++ image_path ++ ": The image must be in .png format.".
Definition msg_not_a_directory (directory_path : string) : string :=
  "Error: " ++ directory_path ++ " is not a valid directory.".
Definition msg_no_png (directory_path : string) : string :=
  "No PNG files found in " ++ directory_path.
Definition msg_complete (processed_count : Z) : string :=
  Py.nl ++ "Processing complete: " ++ Py.str_of_int processed_count
        ++ " images processed".

(** Lines 45-48 *)
Definition bar_position (image : image) (scale_bar_size : Z) : Z * Z :=
  (shape1 image - scale_bar_size - scale_bar_location_x_offset,
   shape0 image - scale_bar_location_y_offset).

(** Line 54 *)
Definition bar_corner (position : Z * Z) (scale_bar_size : Z) : Z * Z :=
  (fst position + scale_bar_size, snd position + scale_bar_thickness).

(** Lines 81-85 *)
Definition text_position (w : World) (position : Z * Z) (scale_bar_size : Z)
           (label : string) (font : font) : float * Z :=
  let text_width := textlength w label font in
  ((Py.float_of_int (fst position)
    + Py.float_floordiv (Py.float_of_int scale_bar_size - text_width)
                        (Py.float_of_int 2))%float,
   snd position - text_position_y_offset).

(** Add a scale bar to an image. *)
Definition add_scale_bar (w : World) (image_path : string) : M unit :=
  enter image_path ;;
  found <- path_exists w image_path ;;
  if negb found then print msg_not_exist
  else if negb (Py.endswith (Py.lower image_path) ".png")
  then print (msg_not_png image_path)
  else
    image <- cv2_imread w image_path ;;
    let scale_bar_size := scale_pixel_1000_um * 10 in
    let label := "1 cm" in
    let label := if negb DISPLAY_SCALE_NUMBER then "" else label in
    match image with
    | None =>
        (* [image.shape] on [None] *)
        raise (AttributeError "'NoneType' object has no attribute 'shape'")
    | Some image =>
        let position := bar_position image scale_bar_size in
        let image :=
          cv2_rectangle image position (bar_corner position scale_bar_size)
                        scale_bar_color in
        image <- cv2_cvtColor_BGR2RGB image ;;
        pil_image <- Image_fromarray image ;;
        match font_path_for w with
        | None => print msg_unsupported_os
        | Some font_path =>
            font <- ImageFont_truetype w font_path scale_bar_font_size ;;
            let pil_image :=
              ImageDraw_text w pil_image
                             (text_position w position scale_bar_size label font)
                             label font scale_bar_color in
            let image := np_asarray pil_image in
            image <- cv2_cvtColor_RGB2BGR image ;;
            let output_path := Py.drop_last 4 image_path ++ "_scaled.png" in
            cv2_imwrite w output_path image ;;
            print ("Scale bar added to " ++ output_path)
        end
    end.

(** The [for] loop of [process_directory], returning the final
    [processed_count]. *)
Fixpoint for_each_png (w : World) (png_files : list string)
         (processed_count : Z) : M Z :=
  match png_files with
  | [] => ret processed_count
  | image_path :: rest =>
      if Py.contains "_scaled" image_path
      then for_each_png w rest processed_count
      else
        add_scale_bar w image_path ;;
        for_each_png w rest (processed_count + 1)
  end.

(** Process all PNG images in the given directory. *)
Definition process_directory (w : World) (directory_path : string) : M unit :=
  if negb (os_path_isdir w directory_path)
  then print (msg_not_a_directory directory_path)
  else
    let png_files := glob_glob w (os_path_join w directory_path "*.png") in
    match png_files with
    | [] => print (msg_no_png directory_path)
    | _ :: _ =>
        processed_count <- for_each_png w png_files 0 ;;
        print (msg_complete processed_count)
    end.

(** The [__main__] block, after [argparse] has produced [args.path]. *)
Definition main (w : World) (path : string) : M unit :=
  if os_path_isdir w path then process_directory w path
  else if os_path_isfile w path then add_scale_bar w path
  else print msg_not_a_path.

End Gcode.

(* ===================================================================== *)
(** ** Vocabulary of the specification                                     *)
(* ===================================================================== *)

(** The six calibration keys of the scope-specific pipeline. *)
Definition scope_keys : list string :=
  ["4X_1X"; "4X_1.6X"; "10X_1X"; "10X_1.6X"; "40X_1X"; "40X_1.6X"].

(** Lines 62-63 of the scope script: the scope type the [if]/[elif] chain
    is entered with, the given one when it is true, else the detected one. *)
Definition effective_scope_type (scope_type : option string)
           (image_path : string) : string :=
  match scope_type with
  | Some given =>
      if Py.truthy given then given
      else IX71.detect_scope_type_from_filename image_path
  | None => IX71.detect_scope_type_from_filename image_path
  end.

(** The lines a state printed after [st0], when it extends [st0]. *)
Definition printed_since (st0 st : state) (out : list string) : Prop :=
  stdout st = (stdout st0 ++ out)%list.

(** The calls of [add_scale_bar] a state traced after [st0]. *)
Definition called_since (st0 st : state) (paths : list string) : Prop :=
  calls st = (calls st0 ++ paths)%list.

(** Detection as the specification words it: "a case-insensitive pattern
    matching {4,10,40}X_1(.6)?X; the first match found anywhere in the
    filename string wins".  Written without regular expressions, to be
    compared with [IX71.detect_scope_type_from_filename].

    The six spellings the pattern stands for, in the order it tries them at
    one position: for each magnification the [1.6X] form before the [1X]
    form. *)
Definition keys_in_match_order : list string :=
  ["4X_1.6X"; "4X_1X"; "10X_1.6X"; "10X_1X"; "40X_1.6X"; "40X_1X"].

(** [key] stands at the start of [s], up to the case of letters. *)
Fixpoint ci_prefix (key s : string) : bool :=
  match key, s with
  | EmptyString, _ => true
  | String c key', String a s' =>
      Ascii.eqb (Py.lower_ascii a) (Py.lower_ascii c) && ci_prefix key' s'
  | String _ _, EmptyString => false
  end.

(** The occurrence of a key at the very start of [s], as [s] spells it. *)
Definition occurrence_here (s : string) : option string :=
  match find (fun key => ci_prefix key s) keys_in_match_order with
  | Some key => Some (substring 0 (String.length key) s)
  | None => None
  end.

(** The first occurrence of a key in [s], scanning from the left. *)
Fixpoint first_occurrence (s : string) : option string :=
  match occurrence_here s with
  | Some text => Some text
  | None =>
      match s with
      | EmptyString => None
      | String _ s' => first_occurrence s'
      end
  end.

(** The lines [IX71.add_scale_bar] can print: its five messages, the
    platform message and the success line. *)
Definition ix71_line (line : string) : Prop :=
  line = IX71.msg_not_exist \/ line = IX71.msg_not_tif \/
  line = IX71.msg_bad_size \/ line = IX71.msg_undetected \/
  line = IX71.msg_invalid_scope \/ line = msg_unsupported_os \/
  exists output_path, line = "Scale bar added to " ++ output_path.

(** Every file the run has written carries the marker in its path. *)
Definition marked_only (st : state) : Prop :=
  Forall (fun e => Py.contains "_scaled" (fst e) = true) (written st).

(** The paths of a listing the generic walker does not skip. *)
Definition unmarked (files : list string) : list string :=
  filter (fun p => negb (Py.contains "_scaled" p)) files.

(* ===================================================================== *)
(** ** A laboratory environment for concrete runs                          *)
(* ===================================================================== *)

(** A black 8-bit BGR image of the given height and width. *)
Definition blank (height width : Z) : image :=
  {| shape0 := height; shape1 := width; channels := 3; dtype := uint8;
     px := fun _ _ _ => Int 0 |}.

(** An 8-bit BGR image whose samples change from pixel to pixel and from
    channel to channel. *)
Definition gradient (height width : Z) : image :=
  {| shape0 := height; shape1 := width; channels := 3; dtype := uint8;
     px := fun y x c => Int ((x + 2 * y + 85 * c) mod 256) |}.

(** The 8-bit BGRA image of a BGR one, with the same alpha everywhere. *)
Definition with_alpha (img : image) (alpha : Z) : image :=
  {| shape0 := shape0 img; shape1 := shape1 img; channels := 4; dtype := uint8;
     px := fun y x c => if c =? 3 then Int alpha else px img y x c |}.

(** A 16-bit BGR image, as a 16-bit TIFF or PNG decodes. *)
Definition sixteen_bit (height width : Z) : image :=
  {| shape0 := height; shape1 := width; channels := 3; dtype := uint16;
     px := fun y x c => Int ((257 * (x + 2 * y + 85 * c)) mod 65536) |}.

(** An 8-bit greyscale image: a two-dimensional array. *)
Definition grey (height width : Z) : image :=
  {| shape0 := height; shape1 := width; channels := 1; dtype := uint8;
     px := fun y x _ => Int ((x + y) mod 256) |}.

(** A stand-in for Pillow's renderer: it fills the box whose top-left
    corner is the text position, [font_size] high and 20 pixels wide per
    character, and draws nothing for the empty label. *)
Definition text_box (position : float * Z) (label : string) (f : font)
           (x y : Z) : bool :=
  let x0 := Py.int_of_float (Py.float_floor (fst position)) in
  negb (String.eqb label "") &&
  in_rect (x0, snd position)
          (x0 + 20 * Z.of_nat (String.length label), snd position + font_size f)
          x y.

Definition box_renderer (img : image) (position : float * Z) (label : string)
           (f : font) (fill : color) (y x c : Z) : sample :=
  if text_box position label f x y
  then saturate_cast uint8 (scalar_at fill c)
  else px img y x c.

(** The content found at [path] in a listing of files; [None] stands for a
    file that is there but does not decode as an image. *)
Definition lab_decode (files : list (string * option image)) (path : string)
  : option image :=
  match find (fun e => String.eqb path (fst e)) files with
  | Some (_, Some img) => Some img
  | _ => None
  end.

(** A machine with one directory [dir] holding [files] (full paths), the
    given [sys.platform], every font installed when [fonts] is true, and a
    disk that takes every file written. *)
Definition lab_world (dir : string) (files : list (string * option image))
           (platform : string) (fonts : bool) : World :=
  {| os_path_exists := fun p => String.eqb p dir || existsb (String.eqb p) (map fst files);
     os_path_isdir := fun p => String.eqb p dir;
     os_path_isfile := fun p => existsb (String.eqb p) (map fst files);
     os_path_join := fun a b => a ++ "/" ++ b;
     glob_glob := fun pat =>
       if String.eqb pat (dir ++ "/*.tif")
       then filter (fun p => Py.endswith p ".tif") (map fst files)
       else if String.eqb pat (dir ++ "/*.png")
       then filter (fun p => Py.endswith p ".png") (map fst files)
       else [];
     decode := lab_decode files;
     sys_platform := platform;
     script_dir := "/opt/tool";
     font_readable := fun _ => fonts;
     textlength := fun label _ => Py.float_of_int (20 * Z.of_nat (String.length label));
     draw_text := box_renderer;
     imwrite_ok := fun _ => true |}.

(** The same machine with a disk that takes no file: [cv2.imwrite]
    returns [False] on every path. *)
Definition read_only (w : World) : World :=
  {| os_path_exists := os_path_exists w;
     os_path_isdir := os_path_isdir w;
     os_path_isfile := os_path_isfile w;
     os_path_join := os_path_join w;
     glob_glob := glob_glob w;
     decode := decode w;
     sys_platform := sys_platform w;
     script_dir := script_dir w;
     font_readable := font_readable w;
     textlength := textlength w;
     draw_text := draw_text w;
     imwrite_ok := fun _ => false |}.

(** A directory of IX71 captures on a Linux machine with its fonts: two
    full-size frames, one named in lower case; a frame whose name carries
    the marker in its middle; and a frame of the wrong size. *)
Definition scope_lab : World :=
  lab_world "captures"
    [("captures/sample_10x_1.6x.tif", Some (blank 1440 1920));
     ("captures/s_10X_1X.tif", Some (blank 1440 1920));
     ("captures/a_scaled_v2.tif", Some (blank 1440 1920));
     ("captures/small_4X_1X.tif", Some (blank 100 100))]
    "linux" true.

(** A directory of G-code plate renders: two images, one with an
    upper-case extension, the output of an earlier run, and a photograph
    in another format. *)
Definition gcode_lab : World :=
  lab_world "plates"
    [("plates/plate.png", Some (blank 600 800));
     ("plates/B.PNG", Some (blank 10 10));
     ("plates/plate_scaled.png", Some (blank 600 800));
     ("plates/photo.jpg", Some (blank 480 640))]
    "linux" true.

(** A directory with one file named [x.png] that is not an image. *)
Definition broken_lab : World :=
  lab_world "inbox" [("inbox/x.png", None)] "linux" true.

(** The same captures on a platform the scripts have no font for. *)
Definition bsd_lab : World :=
  lab_world "captures"
    [("captures/s_10X_1X.tif", Some (blank 1440 1920));
     ("captures/t_40X_1.6X.tif", Some (blank 1440 1920))]
    "freebsd13" true.

(** A directory of renders whose second file is damaged. *)
Definition mixed_lab : World :=
  lab_world "inbox"
    [("inbox/a.png", Some (blank 600 800));
     ("inbox/x.png", None);
     ("inbox/z.png", Some (blank 600 800))]
    "linux" true.

(** Captures as other cameras and exports save them: an 8-bit capture
    with an alpha channel, a patterned 8-bit capture, a 16-bit one and a
    greyscale one. *)
Definition camera_lab : World :=
  lab_world "camera"
    [("camera/a_10X_1X.tif", Some (with_alpha (gradient 1440 1920) 200));
     ("camera/b_10X_1X.tif", Some (gradient 1440 1920));
     ("camera/c_10X_1X.tif", Some (sixteen_bit 1440 1920));
     ("camera/d_10X_1X.tif", Some (grey 1440 1920))]
    "linux" true.

(** Plate renders, the second of them a 16-bit PNG. *)
Definition deep_lab : World :=
  lab_world "renders"
    [("renders/a.png", Some (gradient 600 800));
     ("renders/b.png", Some (sixteen_bit 600 800));
     ("renders/c.png", Some (gradient 600 800))]
    "linux" true.

(** A directory that holds nothing but outputs of earlier runs. *)
Definition done_lab : World :=
  lab_world "done"
    [("done/a_scaled.tif", Some (blank 1440 1920));
     ("done/b_scaled.tif", Some (blank 1440 1920));
     ("done/a_scaled.png", Some (blank 600 800));
     ("done/b_scaled_scaled.png", Some (blank 600 800))]
    "linux" true.

(** [delta] is what a run did, starting from nothing; [extend st delta] is
    the state of a run that did the same after [st]. *)
Definition extend (st delta : state) : state :=
  {| stdout := (stdout st ++ stdout delta)%list;
     written := (written delta ++ written st)%list;
     calls := (calls st ++ calls delta)%list |}.

(** The paths of a listing the scope walker does not skip. *)
Definition unfinished (files : list string) : list string :=
  filter (fun p => negb (Py.endswith p "_scaled.tif")) files.

(** Every file the run has written ends as the scope script's outputs do. *)
Definition tif_outputs_only (st : state) : Prop :=
  Forall (fun e => Py.endswith (fst e) "_scaled.tif" = true) (written st).

(** Every file the run has written ends as the generic script's outputs
    do. *)
Definition png_outputs_only (st : state) : Prop :=
  Forall (fun e => Py.endswith (fst e) "_scaled.png" = true) (written st).

(** No character of [s] is the digit 4 or the digit 1, the characters a
    key can start with. *)
Fixpoint starts_no_key (s : string) : bool :=
  match s with
  | EmptyString => true
  | String c s' =>
      negb (Ascii.eqb c "4") && negb (Ascii.eqb c "1") && starts_no_key s'
  end.

(** The paths named by the success lines among [lines], in order: what
    follows ["Scale bar added to "] in each line that starts with it. *)
Definition reported (lines : list string) : list string :=
  flat_map
    (fun line =>
       if String.prefix "Scale bar added to " line
       then [substring 19 (String.length line - 19) line]
       else [])
    lines.

(** The files a run wrote are, in the order it wrote them, the paths its
    success lines name that [cv2.imwrite] could write. *)
Definition log_matches_files (w : World) (st : state) : Prop :=
  rev (map fst (written st)) = filter (imwrite_ok w) (reported (stdout st)).

(** The outcome of a sequence of calls none of which is caught: the first
    exception, if there is one. *)
Fixpoint first_raise (outcomes : list (result unit)) : result unit :=
  match outcomes with
  | [] => Ok tt
  | Ok _ :: rest => first_raise rest
  | Raised e :: _ => Raised e
  end.

(** The paths a loop gets to when it calls [call] on each of [paths]: all
    of them up to and including the first on which the call raises. *)
Fixpoint reached (call : string -> result unit) (paths : list string)
  : list string :=
  match paths with
  | [] => []
  | p :: rest =>
      match call p with
      | Ok _ => p :: reached call rest
      | Raised _ => [p]
      end
  end.

(** [add_scale_bar] on one file, taken on its own at the start of a run:
    how it ends, and what it has done. *)
Definition ix71_alone (w : World) (k : option string) (p : string)
  : result unit * state :=
  IX71.add_scale_bar w p k init_state.

Definition gcode_alone (w : World) (p : string) : result unit * state :=
  Gcode.add_scale_bar w p init_state.

(** The exception the two conversions of lines 116-117 (60-61 in the
    generic script) end in for an array of this channel count and element
    type: [cv2.cvtColor] takes three or four channels of 8-bit, 16-bit
    unsigned or 32-bit float samples and returns three channels, of which
    [Image.fromarray] takes 8-bit samples only. *)
Definition conversion_error (img : image) : option exn :=
  if negb ((channels img =? 3) || (channels img =? 4))
  then Some (cv2_error "Invalid number of channels in input image")
  else match dtype img with
       | uint8 => None
       | uint16 => Some (TypeError "Cannot handle this data type: (1, 1, 3), <u2")
       | float32 => Some (TypeError "Cannot handle this data type: (1, 1, 3), <f4")
       | _ => Some (cv2_error "Unsupported depth of input image")
       end.

(** An 8-bit image of three or four channels: BGR or BGRA. *)
Definition eight_bit_colour (img : image) : Prop :=
  (channels img = 3 \/ channels img = 4) /\ dtype img = uint8.

(** The lines a run of the generic script can print. *)
Definition gcode_line (line : string) : Prop :=
  line = Gcode.msg_not_exist \/
  (exists image_path, line = Gcode.msg_not_png image_path) \/
  line = msg_unsupported_os \/
  (exists output_path, line = "Scale bar added to " ++ output_path) \/
  (exists directory_path, line = Gcode.msg_no_png directory_path) \/
  (exists processed_count, line = Gcode.msg_complete processed_count) \/
  line = msg_not_a_path.

(** The point (x, y) is a pixel of [img]. *)
Definition inside (img : image) (pt : Z * Z) : Prop :=
  0 <= fst pt < shape1 img /\ 0 <= snd pt < shape0 img.

(** All the conditions under which the scope script gets to its last two
    lines on [p], the call of [cv2.imwrite] and the success line. *)
Definition ix71_annotates (w : World) (st : state) (p : string)
           (k : option string) : Prop :=
  exists_at w st p = true /\
  Py.endswith p ".tif" = true /\
  (exists img, image_at w st p = Some img /\
               shape0 img = 1440 /\ shape1 img = 1920 /\
               eight_bit_colour img) /\
  In (effective_scope_type k p) scope_keys /\
  (exists font_path, font_path_for w = Some font_path /\
                     font_readable w font_path = true).

(* ===================================================================== *)
(** ** The images the two scripts compute (lines 100-147 and 44-91)        *)
(* ===================================================================== *)

(** What the scope script hands to [cv2.imwrite] for the decoded [img],
    when the conversions accept it, a resolved bar length and label, and
    the font file of the platform. *)
Definition ix71_output_image (w : World) (img : image) (scale_bar_size : Z)
           (label font_path : string) : image :=
  let position := IX71.bar_position img scale_bar_size in
  let font := {| font_file := font_path; font_size := IX71.scale_bar_font_size |} in
  swap_rb
    (np_asarray
       (ImageDraw_text w
          (swap_rb
             (cv2_rectangle img position
                            (IX71.bar_corner position scale_bar_size)
                            IX71.scale_bar_color))
          (IX71.text_position w position scale_bar_size label font)
          label font IX71.scale_bar_color)).

(** The same for the generic script, whose bar is 240 pixels long and
    whose label is blanked by [DISPLAY_SCALE_NUMBER = False]. *)
Definition gcode_output_image (w : World) (img : image) (font_path : string)
  : image :=
  let scale_bar_size := Gcode.scale_pixel_1000_um * 10 in
  let position := Gcode.bar_position img scale_bar_size in
  let font := {| font_file := font_path; font_size := Gcode.scale_bar_font_size |} in
  swap_rb
    (np_asarray
       (ImageDraw_text w
          (swap_rb
             (cv2_rectangle img position
                            (Gcode.bar_corner position scale_bar_size)
                            Gcode.scale_bar_color))
          (Gcode.text_position w position scale_bar_size "" font)
          "" font Gcode.scale_bar_color)).

(** The state after [add_scale_bar(path, ...)] has been entered. *)
Definition entered (st : state) (path : string) : state :=
  {| stdout := stdout st; written := written st; calls := (calls st ++ [path])%list |}.

(** The state after one more line has been printed. *)
Definition with_line (st : state) (line : string) : state :=
  {| stdout := (stdout st ++ [line])%list; written := written st; calls := calls st |}.

(** The state after [img] has been saved at [path] and the success line
    printed. *)
Definition saved (st : state) (path : string) (img : image) : state :=
  {| stdout := (stdout st ++ [("Scale bar added to " ++ path)%string])%list;
     written := (path, img) :: written st;
     calls := calls st |}.

(** The state after the last two lines of [add_scale_bar]: [img] has been
    handed to [cv2.imwrite] for [path], which wrote it or did not, and the
    success line has been printed either way. *)
Definition finished (w : World) (st : state) (path : string) (img : image)
  : state :=
  if imwrite_ok w path then saved st path img
  else with_line st ("Scale bar added to " ++ path).

(* ===================================================================== *)
(** ** Facts about the Python fragment                                   *)
(* ===================================================================== *)

Lemma prefix_app (p s : string) : String.prefix p (p ++ s) = true.
Proof.
  induction p as [|c p IH]; simpl.
  - now destruct s.
  - destruct (ascii_dec c c) as [_|ne]; [exact IH | now elim ne].
Qed.

Lemma length_app (a b : string) :
  String.length (a ++ b) = (String.length a + String.length b)%nat.
Proof. induction a as [|c a IH]; simpl; [reflexivity | now rewrite IH]. Qed.

Lemma substring_app_head (a b : string) :
  substring 0 (String.length a) (a ++ b) = a.
Proof.
  induction a as [|c a IH]; simpl.
  - now destruct b.
  - now rewrite IH.
Qed.

Lemma endswith_unfold (s suffix : string) :
  Py.endswith s suffix =
  if String.eqb s suffix then true
  else match s with
       | EmptyString => false
       | String _ s' => Py.endswith s' suffix
       end.
Proof. destruct s; reflexivity. Qed.

(** [s.endswith(suffix)] holds exactly when [s] is something followed by
    [suffix]. *)
Lemma endswith_iff (s suffix : string) :
  Py.endswith s suffix = true <-> exists stem, s = stem ++ suffix.
Proof.
  split.
  - induction s as [|c s IH]; rewrite endswith_unfold;
      destruct (String.eqb _ suffix) eqn:E.
    + intros _. apply String.eqb_eq in E. now exists "".
    + discriminate.
    + intros _. apply String.eqb_eq in E. now exists "".
    + intros H. destruct (IH H) as [stem Hs]. exists (String c stem).
      simpl. now rewrite Hs.
  - intros [stem Hs]. subst s. induction stem as [|c stem IH].
    + rewrite endswith_unfold. simpl (_ ++ _). now rewrite String.eqb_refl.
    + rewrite endswith_unfold. simpl (_ ++ _).
      destruct (String.eqb _ suffix); [reflexivity | exact IH].
Qed.

(** [(stem + suffix)[:-len(suffix)]] is [stem]. *)
Lemma drop_last_app (stem suffix : string) :
  Py.drop_last (String.length suffix) (stem ++ suffix) = stem.
Proof.
  unfold Py.drop_last. rewrite length_app.
  replace (String.length stem + String.length suffix - String.length suffix)%nat
    with (String.length stem) by lia.
  apply substring_app_head.
Qed.

Lemma contains_unfold (sub s : string) :
  Py.contains sub s =
  if String.prefix sub s then true
  else match s with
       | EmptyString => false
       | String _ s' => Py.contains sub s'
       end.
Proof. destruct s; reflexivity. Qed.

(** A marker found in a file name is found in every path ending with that
    name. *)
Lemma contains_in_path (sub dir name : string) :
  Py.contains sub name = true -> Py.contains sub (dir ++ name) = true.
Proof.
  intros H. induction dir as [|c dir IH]; [exact H|].
  rewrite contains_unfold. simpl (_ ++ _).
  destruct (String.prefix sub _); [reflexivity | exact IH].
Qed.

(** [sub in (a + sub + b)]. *)
Lemma contains_app (sub a b : string) : Py.contains sub (a ++ sub ++ b) = true.
Proof.
  apply contains_in_path. rewrite contains_unfold. now rewrite prefix_app.
Qed.

Lemma lower_length (s : string) : String.length (Py.lower s) = String.length s.
Proof. induction s as [|c s IH]; simpl; [reflexivity | now rewrite IH]. Qed.

(** A path whose lower-cased form ends with [suffix] ends with some
    spelling of it. *)
Lemma endswith_lower_split (p suffix : string) :
  Py.endswith (Py.lower p) suffix = true ->
  exists stem ext, p = stem ++ ext /\ Py.lower ext = suffix.
Proof.
  induction p as [|c p IH]; rewrite endswith_unfold.
  - destruct (String.eqb_spec (Py.lower "") suffix) as [E|_]; [|discriminate].
    intros _. now exists "", "".
  - destruct (String.eqb_spec (Py.lower (String c p)) suffix) as [E|_].
    + intros _. now exists "", (String c p).
    + cbn [Py.lower]. intros H. destruct (IH H) as (stem & ext & Hp & Hext).
      exists (String c stem), ext. split; [|exact Hext]. cbn. now rewrite Hp.
Qed.

Lemma truthy_iff (s : string) : Py.truthy s = true <-> s <> "".
Proof.
  unfold Py.truthy. destruct (String.eqb_spec s ""); cbn; split; intros H;
    try discriminate; try assumption; try reflexivity. contradiction.
Qed.

Lemma matched_same (s : string) : Py.matched s s = "".
Proof. unfold Py.matched. rewrite Nat.sub_diag. now destruct s. Qed.

Lemma matched_cons (a : ascii) (s rest : string) :
  (String.length rest <= String.length s)%nat ->
  Py.matched (String a s) rest = String a (Py.matched s rest).
Proof.
  intros H. unfold Py.matched. cbn [String.length].
  replace (S (String.length s) - String.length rest)%nat
    with (S (String.length s - String.length rest)) by lia.
  reflexivity.
Qed.

Lemma substring_0_0 (s : string) : substring 0 0 s = "".
Proof. now destruct s. Qed.

(* ===================================================================== *)
(** ** The conversions between OpenCV and Pillow                         *)
(* ===================================================================== *)

(** Lines 116-117 (60-61): the two conversions raise what
    [conversion_error] says, and hand on the channel-swapped array
    otherwise. *)
Lemma conversions_unfold {A : Type} (img : image) (k : image -> M A) (st : state) :
  (image <- cv2_cvtColor_BGR2RGB img ;;
   pil_image <- Image_fromarray image ;;
   k pil_image) st
  = match conversion_error img with
    | Some e => (Raised e, st)
    | None => k (swap_rb img) st
    end.
Proof.
  unfold cv2_cvtColor_BGR2RGB, Image_fromarray, conversion_error, bind,
    fromarray_accepts.
  destruct ((channels img =? 3) || (channels img =? 4)); cbn [negb];
    [|reflexivity].
  destruct (dtype img) eqn:Hd; cbn [cvtColor_depth negb raise ret];
    try reflexivity;
    cbn [swap_rb channels dtype]; rewrite Hd; reflexivity.
Qed.

(** Drawing the bar changes neither the channel count nor the element
    type, so the conversions treat the drawn array as they would the
    decoded one. *)
Lemma conversion_error_rectangle (img : image) (pt1 pt2 : Z * Z) (fill : color) :
  conversion_error (cv2_rectangle img pt1 pt2 fill) = conversion_error img.
Proof. reflexivity. Qed.

(** Line 147 (91): the array read back from Pillow is an 8-bit RGB one,
    which the second conversion takes. *)
Lemma cvtColor_back {A : Type} (w : World) (pil_image : image)
      (position : float * Z) (label : string) (f : font) (fill : color)
      (k : image -> M A) (st : state) :
  channels pil_image = 3 -> dtype pil_image = uint8 ->
  (image <- cv2_cvtColor_RGB2BGR
              (np_asarray (ImageDraw_text w pil_image position label f fill)) ;;
   k image) st
  = k (swap_rb (np_asarray (ImageDraw_text w pil_image position label f fill))) st.
Proof.
  intros Hc Hd.
  unfold cv2_cvtColor_RGB2BGR, cv2_cvtColor_BGR2RGB, bind, np_asarray.
  cbn [ImageDraw_text channels dtype]. rewrite Hc, Hd. reflexivity.
Qed.

(** The conversions accept exactly the 8-bit images of three or four
    channels. *)
Lemma conversion_error_none_iff (img : image) :
  conversion_error img = None <-> eight_bit_colour img.
Proof.
  unfold conversion_error, eight_bit_colour.
  destruct (Z.eqb_spec (channels img) 3) as [H3|H3];
    destruct (Z.eqb_spec (channels img) 4) as [H4|H4]; cbn [orb negb];
    destruct (dtype img); split; intros H;
    first [ discriminate H
          | split; [tauto | reflexivity]
          | reflexivity
          | destruct H as [_ H]; discriminate H
          | destruct H as [[H|H] _]; contradiction ].
Qed.

(** What the conversions accept they turn into an 8-bit array of three
    channels. *)
Lemma conversion_result (img : image) :
  conversion_error img = None ->
  channels (swap_rb img) = 3 /\ dtype (swap_rb img) = uint8.
Proof.
  intros H. apply conversion_error_none_iff in H. destruct H as [_ H].
  split; [reflexivity | exact H].
Qed.

(* ===================================================================== *)
(** ** How the scope script runs                                         *)
(* ===================================================================== *)

(** The size test of line 58 passes exactly on 1440 rows by 1920 columns. *)
Lemma size_test_false_iff (img : image) :
  negb (shape0 img =? 1440) || negb (shape1 img =? 1920) = false <->
  shape0 img = 1440 /\ shape1 img = 1920.
Proof.
  destruct (Z.eqb_spec (shape0 img) 1440), (Z.eqb_spec (shape1 img) 1920);
    cbn; split; intros H; try discriminate; try tauto; destruct H; contradiction.
Qed.

(** The body of [IX71.add_scale_bar], one branch per early [return]. *)
Lemma ix71_add_scale_bar_unfold (w : World) (p : string) (k : option string)
      (st : state) :
  IX71.add_scale_bar w p k st =
  if negb (exists_at w st p) then (Ok tt, with_line (entered st p) IX71.msg_not_exist)
  else if negb (Py.endswith p ".tif")
  then (Ok tt, with_line (entered st p) IX71.msg_not_tif)
  else match image_at w st p with
       | None => (Ok tt, with_line (entered st p) IX71.msg_bad_size)
       | Some image =>
           if negb (shape0 image =? 1440) || negb (shape1 image =? 1920)
           then (Ok tt, with_line (entered st p) IX71.msg_bad_size)
           else if Py.truthy (effective_scope_type k p)
           then IX71.draw_and_save w p image (effective_scope_type k p) (entered st p)
           else (Ok tt, with_line (entered st p) IX71.msg_undetected)
       end.
Proof.
  unfold IX71.add_scale_bar, bind, enter, path_exists, cv2_imread.
  cbv beta iota.
  change (exists_at w _ p) with (exists_at w st p).
  destruct (exists_at w st p); [|reflexivity].
  cbn [negb]. destruct (Py.endswith p ".tif"); [|reflexivity].
  cbn [negb]. cbv beta iota. change (image_at w _ p) with (image_at w st p).
  destruct (image_at w st p) as [image|]; [|reflexivity].
  destruct (negb (shape0 image =? 1440) || negb (shape1 image =? 1920));
    [reflexivity|].
  unfold effective_scope_type.
  destruct k as [given|].
  - destruct (Py.truthy given) eqn:E; cbn [negb]; [now rewrite E|].
    now destruct (Py.truthy (IX71.detect_scope_type_from_filename p)).
  - now destruct (Py.truthy (IX71.detect_scope_type_from_filename p)).
Qed.

(** The body of [IX71.draw_and_save], one branch per outcome. *)
Lemma ix71_draw_and_save_unfold (w : World) (p : string) (image : image)
      (key : string) (st : state) :
  IX71.draw_and_save w p image key st =
  match IX71.scale_bar_of key with
  | None => (Ok tt, with_line st IX71.msg_invalid_scope)
  | Some (size, label) =>
      match conversion_error image with
      | Some e => (Raised e, st)
      | None =>
          match font_path_for w with
          | None => (Ok tt, with_line st msg_unsupported_os)
          | Some font_path =>
              if font_readable w font_path
              then (Ok tt, finished w st (Py.drop_last 4 p ++ "_scaled.tif")
                                    (ix71_output_image w image size label font_path))
              else (Raised (OSError "cannot open resource"), st)
          end
      end
  end.
Proof.
  unfold IX71.draw_and_save.
  destruct (IX71.scale_bar_of key) as [[size label]|]; [|reflexivity].
  cbv zeta. rewrite conversions_unfold, conversion_error_rectangle.
  destruct (conversion_error image) eqn:Hconv; [reflexivity|].
  destruct (font_path_for w) as [font_path|]; [|reflexivity].
  unfold bind at 1, ImageFont_truetype.
  destruct (font_readable w font_path); [|reflexivity].
  unfold ret.
  rewrite cvtColor_back by (apply (conversion_result image Hconv)).
  unfold bind, cv2_imwrite, print, finished, saved, with_line, ix71_output_image.
  cbn [IX71.DISPLAY_SCALE_NUMBER negb].
  destruct (imwrite_ok w _); reflexivity.
Qed.

(** Whatever [IX71.add_scale_bar] does, it traces its own path and nothing
    else. *)
Lemma ix71_add_scale_bar_calls (w : World) (p : string) (k : option string)
      (st : state) :
  calls (snd (IX71.add_scale_bar w p k st)) = (calls st ++ [p])%list.
Proof.
  rewrite ix71_add_scale_bar_unfold.
  destruct (exists_at w st p); [|reflexivity].
  destruct (Py.endswith p ".tif"); [|reflexivity].
  cbn [negb]. destruct (image_at w st p) as [img|]; [|reflexivity].
  destruct (negb (shape0 img =? 1440) || negb (shape1 img =? 1920));
    [reflexivity|].
  destruct (Py.truthy (effective_scope_type k p)); [|reflexivity].
  rewrite ix71_draw_and_save_unfold.
  destruct (IX71.scale_bar_of _) as [[size label]|]; [|reflexivity].
  destruct (conversion_error img); [reflexivity|].
  destruct (font_path_for w) as [fp|]; [|reflexivity].
  destruct (font_readable w fp); [|reflexivity].
  unfold finished. destruct (imwrite_ok w _); reflexivity.
Qed.

(** What [IX71.add_scale_bar] prints is at most one of its own lines. *)
Lemma ix71_add_scale_bar_lines (w : World) (p : string) (k : option string)
      (st : state) :
  exists lines,
    printed_since st (snd (IX71.add_scale_bar w p k st)) lines /\
    Forall ix71_line lines.
Proof.
  assert (Hone : forall line, ix71_line line ->
            exists lines,
              printed_since st (with_line (entered st p) line) lines /\
              Forall ix71_line lines).
  { intros line Hline. exists [line]. split; [reflexivity|].
    constructor; [exact Hline | constructor]. }
  assert (Hnone : exists lines,
              printed_since st (entered st p) lines /\ Forall ix71_line lines).
  { exists []. split; [|constructor].
    unfold printed_since. cbn. now rewrite app_nil_r. }
  rewrite ix71_add_scale_bar_unfold. unfold ix71_line in Hone.
  destruct (exists_at w st p); cbn [negb snd]; [|apply Hone; tauto].
  destruct (Py.endswith p ".tif"); cbn [negb snd]; [|apply Hone; tauto].
  destruct (image_at w st p) as [img|]; cbn [snd]; [|apply Hone; tauto].
  destruct (negb (shape0 img =? 1440) || negb (shape1 img =? 1920));
    cbn [snd]; [apply Hone; tauto|].
  destruct (Py.truthy (effective_scope_type k p)); cbn [snd];
    [|apply Hone; tauto].
  rewrite ix71_draw_and_save_unfold.
  destruct (IX71.scale_bar_of _) as [[size label]|]; cbn [snd];
    [|apply Hone; tauto].
  destruct (conversion_error img); cbn [snd]; [exact Hnone|].
  destruct (font_path_for w) as [fp|]; cbn [snd]; [|apply Hone; tauto].
  destruct (font_readable w fp); cbn [snd]; [|exact Hnone].
  assert (Hline : ix71_line ("Scale bar added to " ++ Py.drop_last 4 p ++ "_scaled.tif")).
  { do 6 right. eexists. reflexivity. }
  unfold finished. destruct (imwrite_ok w _).
  - eexists [_]. split; [reflexivity|]. constructor; [exact Hline | constructor].
  - eexists [_]. split; [reflexivity|]. constructor; [exact Hline | constructor].
Qed.

(** The path the scope script writes, from the extension test. *)
Lemma ix71_output_path (p : string) :
  Py.endswith p ".tif" = true ->
  exists stem, p = stem ++ ".tif" /\ Py.drop_last 4 p = stem.
Proof.
  intros H. apply endswith_iff in H. destruct H as [stem ->].
  exists stem. split; [reflexivity|]. apply (drop_last_app stem ".tif").
Qed.

(* ===================================================================== *)
(** ** How the generic script runs                                       *)
(* ===================================================================== *)

(** The body of [Gcode.add_scale_bar], one branch per outcome. *)
Lemma gcode_add_scale_bar_unfold (w : World) (p : string) (st : state) :
  Gcode.add_scale_bar w p st =
  if negb (exists_at w st p)
  then (Ok tt, with_line (entered st p) Gcode.msg_not_exist)
  else if negb (Py.endswith (Py.lower p) ".png")
  then (Ok tt, with_line (entered st p) (Gcode.msg_not_png p))
  else match image_at w st p with
       | None =>
           (Raised (AttributeError "'NoneType' object has no attribute 'shape'"),
            entered st p)
       | Some img =>
           match conversion_error img with
           | Some e => (Raised e, entered st p)
           | None =>
               match font_path_for w with
               | None => (Ok tt, with_line (entered st p) msg_unsupported_os)
               | Some font_path =>
                   if font_readable w font_path
                   then (Ok tt, finished w (entered st p)
                                         (Py.drop_last 4 p ++ "_scaled.png")
                                         (gcode_output_image w img font_path))
                   else (Raised (OSError "cannot open resource"), entered st p)
               end
           end
       end.
Proof.
  unfold Gcode.add_scale_bar, bind at 1 2 3, enter, path_exists, cv2_imread.
  cbv beta iota.
  change (exists_at w _ p) with (exists_at w st p).
  destruct (exists_at w st p); [|reflexivity].
  cbn [negb]. destruct (Py.endswith (Py.lower p) ".png"); [|reflexivity].
  cbn [negb]. cbv beta iota. change (image_at w _ p) with (image_at w st p).
  destruct (image_at w st p) as [img|]; [|reflexivity].
  cbv zeta. rewrite conversions_unfold, conversion_error_rectangle.
  destruct (conversion_error img) eqn:Hconv; [reflexivity|].
  destruct (font_path_for w) as [font_path|]; [|reflexivity].
  unfold bind at 1, ImageFont_truetype.
  destruct (font_readable w font_path); [|reflexivity].
  unfold ret.
  rewrite cvtColor_back by (apply (conversion_result img Hconv)).
  unfold bind, cv2_imwrite, print, finished, saved, with_line, gcode_output_image.
  cbn [Gcode.DISPLAY_SCALE_NUMBER negb].
  destruct (imwrite_ok w _); reflexivity.
Qed.

Lemma gcode_add_scale_bar_calls (w : World) (p : string) (st : state) :
  calls (snd (Gcode.add_scale_bar w p st)) = (calls st ++ [p])%list.
Proof.
  rewrite gcode_add_scale_bar_unfold.
  destruct (exists_at w st p); [|reflexivity].
  destruct (Py.endswith (Py.lower p) ".png"); [|reflexivity].
  cbn [negb]. destruct (image_at w st p) as [img|]; [|reflexivity].
  destruct (conversion_error img); [reflexivity|].
  destruct (font_path_for w) as [fp|]; [|reflexivity].
  destruct (font_readable w fp); [|reflexivity].
  unfold finished. destruct (imwrite_ok w _); reflexivity.
Qed.

(** What the generic [add_scale_bar] prints is one of its own lines. *)
Lemma gcode_add_scale_bar_lines (w : World) (p : string) (st : state) :
  Forall gcode_line (stdout st) ->
  Forall gcode_line (stdout (snd (Gcode.add_scale_bar w p st))).
Proof.
  intros H.
  assert (Hone : forall line, gcode_line line ->
            Forall gcode_line (stdout (with_line (entered st p) line))).
  { intros line Hline. cbn [stdout with_line entered].
    apply Forall_app. split; [exact H|]. now constructor. }
  rewrite gcode_add_scale_bar_unfold. unfold gcode_line in Hone.
  destruct (exists_at w st p); cbn [negb snd]; [|apply Hone; tauto].
  destruct (Py.endswith (Py.lower p) ".png"); cbn [negb snd];
    [|apply Hone; right; left; now exists p].
  destruct (image_at w st p) as [img|]; cbn [snd]; [|exact H].
  destruct (conversion_error img); cbn [snd]; [exact H|].
  destruct (font_path_for w) as [fp|]; cbn [snd]; [|apply Hone; tauto].
  destruct (font_readable w fp); cbn [snd]; [|exact H].
  unfold finished.
  destruct (imwrite_ok w _);
    cbn [stdout saved with_line entered]; (apply Forall_app; split; [exact H|]);
    (constructor; [|constructor]); do 3 right; left; now eexists.
Qed.

(** Every line a run of the generic script prints is one of its own. *)
Lemma gcode_main_lines (w : World) (path : string) :
  Forall gcode_line (stdout (snd (Gcode.main w path init_state))).
Proof.
  unfold Gcode.main, Gcode.process_directory.
  destruct (os_path_isdir w path) eqn:Hdir; cbn [negb].
  - destruct (glob_glob w (os_path_join w path "*.png")) as [|f0 rest0].
    + cbn. constructor; [|constructor]. unfold gcode_line.
      do 4 right. left. now exists path.
    + assert (Hloop : forall files n st,
                 Forall gcode_line (stdout st) ->
                 Forall gcode_line (stdout (snd (Gcode.for_each_png w files n st)))).
      { induction files as [|f rest IH]; intros n st H; [exact H|].
        cbn [Gcode.for_each_png].
        destruct (Py.contains "_scaled" f); [now apply IH|].
        unfold bind.
        pose proof (gcode_add_scale_bar_lines w f st H) as H1.
        destruct (Gcode.add_scale_bar w f st) as [[[]|e] st1]; cbn [snd] in *.
        - now apply IH.
        - exact H1. }
      unfold bind.
      specialize (Hloop (f0 :: rest0) 0 init_state (Forall_nil _)).
      destruct (Gcode.for_each_png w (f0 :: rest0) 0 init_state)
        as [[n|e] st1]; cbn [snd] in *; [|exact Hloop].
      cbn [print snd stdout]. apply Forall_app. split; [exact Hloop|].
      constructor; [|constructor]. unfold gcode_line.
      do 5 right. left. now exists n.
  - destruct (os_path_isfile w path).
    + apply gcode_add_scale_bar_lines. constructor.
    + cbn. constructor; [|constructor]. unfold gcode_line. tauto.
Qed.

(** The path the generic script writes, from the extension test. *)
Lemma gcode_output_path (p : string) :
  Py.endswith (Py.lower p) ".png" = true ->
  exists stem ext,
    p = stem ++ ext /\ Py.lower ext = ".png" /\ Py.drop_last 4 p = stem.
Proof.
  intros H. destruct (endswith_lower_split _ _ H) as (stem & ext & -> & Hext).
  exists stem, ext. repeat split; [assumption|].
  assert (Hlen : String.length ext = 4%nat).
  { rewrite <- lower_length, Hext. reflexivity. }
  rewrite <- Hlen. apply drop_last_app.
Qed.

(* ===================================================================== *)
(** ** The calibration table                                             *)
(* ===================================================================== *)

(** The [if]/[elif] chain ends in its [else] exactly on the strings that
    are none of the six keys. *)
Lemma scale_bar_of_none_iff (key : string) :
  IX71.scale_bar_of key = None <-> ~ In key scope_keys.
Proof.
  unfold IX71.scale_bar_of, scope_keys. split.
  - intros H [E|[E|[E|[E|[E|[E|[]]]]]]]; subst key; discriminate H.
  - intros H.
    repeat match goal with
           | |- context [String.eqb key ?s] =>
               destruct (String.eqb_spec key s) as [E|_];
               [exfalso; apply H; subst key; simpl; tauto|]
           end.
    reflexivity.
Qed.

(** Every argument of [int(...)] in the calibration chain is a finite
    float, so Python's conversion does not raise there. *)
Lemma calibration_products_finite :
  Py.is_finite (Py.float_of_int 53 * 1.6 * Py.float_of_int 2)%float = true /\
  Py.is_finite (Py.float_of_int 132 * 1.5)%float = true /\
  Py.is_finite (Py.float_of_int 132 * 1.6)%float = true /\
  Py.is_finite (Py.float_of_int 540 * 0.5)%float = true /\
  Py.is_finite (Py.float_of_int 540 * 1.6 * 0.3)%float = true.
Proof. repeat split; vm_compute; reflexivity. Qed.

(** C1.  Each of the six scope keys resolves to its tabulated bar length
    in pixels and label: 4X_1X to (159, "300 μm"), 4X_1.6X to
    (169, "200 μm"), 10X_1X to (198, "150 μm"), 10X_1.6X to (211, "100 μm"),
    40X_1X to (270, "50 μm") and 40X_1.6X to (259, "30 μm"); the label is
    shown as it stands ([DISPLAY_SCALE_NUMBER] is true); and each length is
    the base reference times the multiplier (3, 3.2, 1.5, 1.6, 0.5, 0.48),
    truncated toward zero. *)
Theorem scope_table_exact :
  (IX71.scale_bar_of "4X_1X" = Some (159, "300 μm") /\
   IX71.scale_bar_of "4X_1.6X" = Some (169, "200 μm") /\
   IX71.scale_bar_of "10X_1X" = Some (198, "150 μm") /\
   IX71.scale_bar_of "10X_1.6X" = Some (211, "100 μm") /\
   IX71.scale_bar_of "40X_1X" = Some (270, "50 μm") /\
   IX71.scale_bar_of "40X_1.6X" = Some (259, "30 μm")) /\
  IX71.DISPLAY_SCALE_NUMBER = true /\
  (Z.quot (IX71.scale_pixel_4X_1X_100_um * 3) 1 = 159 /\
   Z.quot (IX71.scale_pixel_4X_1X_100_um * 32) 10 = 169 /\
   Z.quot (IX71.scale_pixel_10X_1X_100_um * 15) 10 = 198 /\
   Z.quot (IX71.scale_pixel_10X_1X_100_um * 16) 10 = 211 /\
   Z.quot (IX71.scale_pixel_40X_1X_100_um * 5) 10 = 270 /\
   Z.quot (IX71.scale_pixel_40X_1X_100_um * 48) 100 = 259).
Proof.
  split; [|split].
  - unfold IX71.scale_bar_of. cbn [String.eqb Ascii.eqb Bool.eqb].
    repeat split; vm_compute; reflexivity.
  - reflexivity.
  - repeat split; reflexivity.
Qed.

(* ===================================================================== *)
(** ** Detection of the scope type from the file name                    *)
(* ===================================================================== *)

Arguments Py.matched : simpl never.

(** At one position the backtracking matcher finds exactly the key that
    stands there up to case, and its match is that stretch of [s]. *)
Lemma pattern_at_one_position (s : string) :
  match Py.match_here IX71.pattern s Some with
  | Some rest => Some (Py.matched s rest)
  | None => None
  end = occurrence_here s.
Proof.
  unfold occurrence_here, keys_in_match_order, IX71.pattern, IX71.magnification.
  cbn [find Py.lit Py.match_here ci_prefix String.length].
  repeat (first
    [ match goal with
      | |- context [Ascii.eqb (Py.lower_ascii ?a) ?c] =>
          destruct (Ascii.eqb (Py.lower_ascii a) c) eqn:?
      end
    | match goal with
      | |- context [match ?x with EmptyString => _ | String _ _ => _ end] =>
          is_var x; destruct x
      end ];
    cbn [find Py.lit Py.match_here ci_prefix String.length andb substring
         Py.lower_ascii]);
  try reflexivity;
  rewrite ?substring_0_0;
  repeat (rewrite matched_cons by (cbn [String.length]; lia));
  rewrite matched_same; reflexivity.
Qed.

(** Over the whole string, the search is the left-to-right scan. *)
Lemma search_pattern_is_first_occurrence (s : string) :
  Py.search IX71.pattern s = first_occurrence s.
Proof.
  induction s as [|c s IH].
  - reflexivity.
  - cbn [Py.search first_occurrence].
    rewrite <- pattern_at_one_position.
    destruct (Py.match_here IX71.pattern (String c s) Some);
      [reflexivity | exact IH].
Qed.

(** X1.  Detection returns the first occurrence of a key in the path, scanning
    from the left and ignoring the case of letters, spelled as the path
    spells it; the empty string when there is none. *)
Theorem detection_is_first_occurrence (image_path : string) :
  IX71.detect_scope_type_from_filename image_path
  = match first_occurrence image_path with
    | Some text => text
    | None => ""
    end.
Proof.
  unfold IX71.detect_scope_type_from_filename.
  rewrite search_pattern_is_first_occurrence.
  destruct (first_occurrence image_path); reflexivity.
Qed.

Lemma occurrence_here_nonempty (s text : string) :
  occurrence_here s = Some text -> text <> "".
Proof.
  unfold occurrence_here, keys_in_match_order. cbn [find].
  repeat match goal with
         | |- context [ci_prefix ?k s] => destruct (ci_prefix k s) eqn:?
         end;
    intros H; try discriminate H; injection H as <-;
    (destruct s; [discriminate | cbn; discriminate]).
Qed.

Lemma first_occurrence_nonempty (s text : string) :
  first_occurrence s = Some text -> text <> "".
Proof.
  induction s as [|c s IH]; cbn [first_occurrence].
  - destruct (occurrence_here "") eqn:E; [|discriminate].
    intros H. injection H as <-. eapply occurrence_here_nonempty, E.
  - destruct (occurrence_here (String c s)) eqn:E; [|exact IH].
    intros H. injection H as <-. eapply occurrence_here_nonempty, E.
Qed.

(** X2.  Resolution by inference, for an existing 1920x1440 [.tif] and no key
    (or the empty one): without an occurrence in the path the
    detection-failure line is printed; with a first occurrence spelled
    otherwise than a table key (lower case) the invalid-scope line is
    printed; with a first occurrence spelled exactly as a table key, an
    8-bit image of three or four channels is annotated with that key's bar
    and label, handed to [cv2.imwrite] and reported, while on any other
    image the conversion to Pillow raises and nothing is printed. *)
Theorem detection_outcomes
        (w : World) (p : string) (k : option string) (st : state) (img : image) :
  exists_at w st p = true ->
  Py.endswith p ".tif" = true ->
  image_at w st p = Some img ->
  shape0 img = 1440 -> shape1 img = 1920 ->
  Py.truthy_opt k = false ->
  (first_occurrence p = None ->
   IX71.add_scale_bar w p k st
   = (Ok tt, with_line (entered st p) IX71.msg_undetected)) /\
  (forall text,
      first_occurrence p = Some text -> ~ In text scope_keys ->
      IX71.add_scale_bar w p k st
      = (Ok tt, with_line (entered st p) IX71.msg_invalid_scope)) /\
  (forall text size label font_path,
      first_occurrence p = Some text ->
      IX71.scale_bar_of text = Some (size, label) ->
      eight_bit_colour img ->
      font_path_for w = Some font_path ->
      font_readable w font_path = true ->
      IX71.add_scale_bar w p k st
      = (Ok tt, finished w (entered st p) (Py.drop_last 4 p ++ "_scaled.tif")
                         (ix71_output_image w img size label font_path))) /\
  (forall text size label e,
      first_occurrence p = Some text ->
      IX71.scale_bar_of text = Some (size, label) ->
      conversion_error img = Some e ->
      IX71.add_scale_bar w p k st = (Raised e, entered st p)).
Proof.
  intros Hex Hext Himg H0 H1 Hk.
  assert (Heff : effective_scope_type k p
                 = match first_occurrence p with Some text => text | None => "" end).
  { rewrite <- search_pattern_is_first_occurrence.
    change (effective_scope_type k p = IX71.detect_scope_type_from_filename p).
    unfold effective_scope_type.
    destruct k as [given|]; [|reflexivity]. cbn in Hk. now rewrite Hk. }
  rewrite ix71_add_scale_bar_unfold, Hex, Hext, Himg, Heff. cbn [negb].
  rewrite (proj2 (size_test_false_iff img) (conj H0 H1)).
  split; [|split; [|split]].
  - intros Hocc. now rewrite Hocc.
  - intros text Hocc Hnot. rewrite Hocc.
    rewrite (proj2 (truthy_iff text) (first_occurrence_nonempty p text Hocc)).
    rewrite ix71_draw_and_save_unfold.
    now rewrite (proj2 (scale_bar_of_none_iff text) Hnot).
  - intros text size label font_path Hocc Hbar Hcol Hfont Hread. rewrite Hocc.
    rewrite (proj2 (truthy_iff text) (first_occurrence_nonempty p text Hocc)).
    apply conversion_error_none_iff in Hcol.
    now rewrite ix71_draw_and_save_unfold, Hbar, Hcol, Hfont, Hread.
  - intros text size label e Hocc Hbar Hconv. rewrite Hocc.
    rewrite (proj2 (truthy_iff text) (first_occurrence_nonempty p text Hocc)).
    now rewrite ix71_draw_and_save_unfold, Hbar, Hconv.
Qed.

(** The camera's patterned capture [b_10X_1X.tif], run without a key:
    its first occurrence is ["10X_1X"], spelled as the table spells it, so
    the 198-pixel bar and the label "150 μm" are drawn and the file is
    written. *)
Lemma detection_outcomes_witness :
  first_occurrence "camera/b_10X_1X.tif" = Some "10X_1X" /\
  IX71.add_scale_bar camera_lab "camera/b_10X_1X.tif" None init_state
  = (Ok tt, saved (entered init_state "camera/b_10X_1X.tif")
                  (Py.drop_last 4 "camera/b_10X_1X.tif" ++ "_scaled.tif")
                  (ix71_output_image
                     camera_lab (gradient 1440 1920) 198 "150 μm"
                     "/usr/share/fonts/truetype/liberation/LiberationSans-Regular.ttf")).
Proof.
  split; [reflexivity|].
  pose proof (detection_outcomes camera_lab "camera/b_10X_1X.tif" None
                                 init_state (gradient 1440 1920)
                                 eq_refl eq_refl eq_refl eq_refl eq_refl eq_refl)
    as (_ & _ & Hfound & _).
  apply (Hfound "10X_1X").
  - reflexivity.
  - vm_compute. reflexivity.
  - split; [now left | reflexivity].
  - reflexivity.
  - reflexivity.
Defined.

(** C2 (the code departs from the claim).  A capture named in lower case,
    [sample_10x_1.6x.tif], run without an explicit key: the
    case-insensitive search finds the occurrence and returns it as written,
    ["10x_1.6x"]; the case-sensitive chain knows no such key; the run prints
    the invalid-scope message and writes nothing. *)
Theorem lowercase_occurrence_is_found_then_rejected :
  IX71.detect_scope_type_from_filename "captures/sample_10x_1.6x.tif" = "10x_1.6x" /\
  IX71.scale_bar_of "10x_1.6x" = None /\
  IX71.main scope_lab "captures/sample_10x_1.6x.tif" None init_state =
  (Ok tt, {| stdout := [IX71.msg_invalid_scope];
             written := [];
             calls := ["captures/sample_10x_1.6x.tif"] |}).
Proof.
  split; [|split].
  - vm_compute. reflexivity.
  - apply scale_bar_of_none_iff. unfold scope_keys.
    intros [E|[E|[E|[E|[E|[E|[]]]]]]]; discriminate E.
  - vm_compute. reflexivity.
Qed.

(* ===================================================================== *)
(** ** The checks of the scope script and their order                    *)
(* ===================================================================== *)

Lemma printed_since_inv (st : state) (line : string) (out : list string) (st0 : state) :
  printed_since st0 (with_line st line) out ->
  stdout st = stdout st0 -> out = [line].
Proof.
  unfold printed_since, with_line. cbn [stdout]. intros H E. rewrite E in H.
  symmetry. eapply app_inv_head. exact H.
Qed.

(** C10.  In the scope script the existence, extension and size checks run
    before the configuration is resolved.  A missing file prints the
    not-exist line, an existing file without the [.tif] suffix the format
    line, an existing [.tif] that does not decode or is not 1920x1440 the
    size line, each whatever the key; and the invalid-scope and
    detection-failure lines are printed only for an existing [.tif] file
    whose decoded image is exactly 1920x1440. *)
Theorem checks_precede_configuration
        (w : World) (p : string) (k : option string) (st : state) :
  let st' := snd (IX71.add_scale_bar w p k st) in
  (exists_at w st p = false -> printed_since st st' [IX71.msg_not_exist]) /\
  (exists_at w st p = true -> Py.endswith p ".tif" = false ->
   printed_since st st' [IX71.msg_not_tif]) /\
  (exists_at w st p = true -> Py.endswith p ".tif" = true ->
   (forall img, image_at w st p = Some img ->
                shape0 img <> 1440 \/ shape1 img <> 1920) ->
   printed_since st st' [IX71.msg_bad_size]) /\
  (forall out,
      printed_since st st' out ->
      In IX71.msg_invalid_scope out \/ In IX71.msg_undetected out ->
      exists_at w st p = true /\ Py.endswith p ".tif" = true /\
      exists img, image_at w st p = Some img /\
                  shape0 img = 1440 /\ shape1 img = 1920).
Proof.
  cbv zeta. rewrite ix71_add_scale_bar_unfold.
  destruct (exists_at w st p) eqn:Hex; cbn [negb];
    [destruct (Py.endswith p ".tif") eqn:Hext; cbn [negb];
     [destruct (image_at w st p) as [img|] eqn:Himg;
      [destruct (negb (shape0 img =? 1440) || negb (shape1 img =? 1920)) eqn:Hsz|]|]|].
  5:{ (* the file is missing *)
      split; [|split; [|split]]; try (intros; discriminate).
      - intros _. reflexivity.
      - cbn [snd]. intros out Hout Hin.
        apply printed_since_inv in Hout; [subst out | reflexivity].
        destruct Hin as [[E|[]]|[E|[]]]; discriminate E. }
  4:{ (* the suffix is not .tif *)
      split; [|split; [|split]]; try (intros; discriminate).
      - intros _ _. reflexivity.
      - cbn [snd]. intros out Hout Hin.
        apply printed_since_inv in Hout; [subst out | reflexivity].
        destruct Hin as [[E|[]]|[E|[]]]; discriminate E. }
  3:{ (* the file does not decode *)
      split; [|split; [|split]]; try (intros; discriminate).
      - intros _ _ _. reflexivity.
      - cbn [snd]. intros out Hout Hin.
        apply printed_since_inv in Hout; [subst out | reflexivity].
        destruct Hin as [[E|[]]|[E|[]]]; discriminate E. }
  - (* the image has another size *)
    split; [|split; [|split]]; try (intros; discriminate).
    + intros _ _ _. reflexivity.
    + cbn [snd]. intros out Hout Hin.
      apply printed_since_inv in Hout; [subst out | reflexivity].
      destruct Hin as [[E|[]]|[E|[]]]; discriminate E.
  - (* every check passed *)
    apply size_test_false_iff in Hsz. destruct Hsz as [H0 H1].
    split; [|split; [|split]]; try (intros; discriminate).
    + intros _ _ Hbad. destruct (Hbad img eq_refl); contradiction.
    + intros out _ _. split; [reflexivity|]. split; [reflexivity|].
      exists img. auto.
Qed.

(** C5.  An existing [.tif] whose decoded image is not 1440 rows by 1920
    columns makes the scope script print the size line and return, writing
    no file, whatever the key; the generic script puts no condition on the
    shape: every existing [.png] that decodes to an 8-bit image of three or
    four channels, of any size, is annotated, handed to [cv2.imwrite] and
    reported once the platform's font loads, and no run of the generic
    script ever prints the size line. *)
Theorem wrong_size_is_rejected :
  (forall (w : World) (p : string) (k : option string) (st : state) (img : image),
      exists_at w st p = true ->
      Py.endswith p ".tif" = true ->
      image_at w st p = Some img ->
      shape0 img <> 1440 \/ shape1 img <> 1920 ->
      IX71.add_scale_bar w p k st
      = (Ok tt, with_line (entered st p) IX71.msg_bad_size) /\
      written (snd (IX71.add_scale_bar w p k st)) = written st) /\
  (forall (w : World) (p : string) (st : state) (img : image) (font_path : string),
      exists_at w st p = true ->
      Py.endswith (Py.lower p) ".png" = true ->
      image_at w st p = Some img ->
      eight_bit_colour img ->
      font_path_for w = Some font_path ->
      font_readable w font_path = true ->
      Gcode.add_scale_bar w p st
      = (Ok tt, finished w (entered st p) (Py.drop_last 4 p ++ "_scaled.png")
                         (gcode_output_image w img font_path))) /\
  (forall (w : World) (path : string),
      ~ In IX71.msg_bad_size (stdout (snd (Gcode.main w path init_state)))).
Proof.
  split; [|split].
  - intros w p k st img Hex Hext Himg Hbad.
    assert (Hrun : IX71.add_scale_bar w p k st
                   = (Ok tt, with_line (entered st p) IX71.msg_bad_size)).
    { rewrite ix71_add_scale_bar_unfold, Hex, Hext, Himg. cbn [negb].
      destruct (negb (shape0 img =? 1440) || negb (shape1 img =? 1920)) eqn:Hsz;
        [reflexivity|].
      apply size_test_false_iff in Hsz. destruct Hsz, Hbad; contradiction. }
    split; [exact Hrun | now rewrite Hrun].
  - intros w p st img font_path Hex Hext Himg Hcol Hfont Hread.
    apply conversion_error_none_iff in Hcol.
    now rewrite gcode_add_scale_bar_unfold, Hex, Hext, Himg, Hcol, Hfont, Hread.
  - intros w path Hin.
    pose proof (gcode_main_lines w path) as Hlines. rewrite Forall_forall in Hlines.
    specialize (Hlines _ Hin). unfold gcode_line in Hlines.
    destruct Hlines as [E|[[p E]|[E|[[o E]|[[x E]|[[n E]|E]]]]]];
      cbn in E; discriminate E.
Qed.

(** A capture of 100 by 100 pixels is turned away by the scope script,
    and a patterned 600 by 800 render is annotated by the generic one. *)
Lemma wrong_size_is_rejected_witness :
  (IX71.add_scale_bar scope_lab "captures/small_4X_1X.tif" None init_state
   = (Ok tt, with_line (entered init_state "captures/small_4X_1X.tif")
                       IX71.msg_bad_size) /\
   written (snd (IX71.add_scale_bar scope_lab "captures/small_4X_1X.tif" None
                                    init_state)) = []) /\
  Gcode.add_scale_bar deep_lab "renders/a.png" init_state
  = (Ok tt, saved (entered init_state "renders/a.png")
                  (Py.drop_last 4 "renders/a.png" ++ "_scaled.png")
                  (gcode_output_image
                     deep_lab (gradient 600 800)
                     "/usr/share/fonts/truetype/liberation/LiberationSans-Regular.ttf")).
Proof.
  split.
  - apply (proj1 wrong_size_is_rejected scope_lab "captures/small_4X_1X.tif"
                 None init_state (blank 100 100)).
    + reflexivity.
    + reflexivity.
    + reflexivity.
    + left. cbn. lia.
  - apply (proj1 (proj2 wrong_size_is_rejected) deep_lab "renders/a.png" init_state
                 (gradient 600 800)).
    + reflexivity.
    + reflexivity.
    + reflexivity.
    + split; [now left | reflexivity].
    + reflexivity.
    + reflexivity.
Defined.

(* ===================================================================== *)
(** ** Explicit keys outside the table                                   *)
(* ===================================================================== *)

(** C6 as stated fails: the empty string is an explicit key outside the
    table, yet the script treats it as no key at all; for a capture whose
    name carries [10X_1X] it detects that scope, draws the 198-pixel bar and
    writes the output file. *)
Lemma empty_key_falls_back_to_detection :
  ~ In "" scope_keys /\
  IX71.main scope_lab "captures/s_10X_1X.tif" (Some "") init_state
  = (Ok tt,
     saved (entered init_state "captures/s_10X_1X.tif")
           "captures/s_10X_1X_scaled.tif"
           (ix71_output_image
              scope_lab (blank 1440 1920) 198 "150 μm"
              "/usr/share/fonts/truetype/liberation/LiberationSans-Regular.ttf")).
Proof.
  split.
  - unfold scope_keys. intros [E|[E|[E|[E|[E|[E|[]]]]]]]; discriminate E.
  - vm_compute. reflexivity.
Qed.

(** C6, amended.  For every non-empty explicit key that is none of the six
    table keys the scope script writes no file, and when the file exists,
    ends with [.tif] and decodes to 1920x1440 it prints the invalid-scope
    line and returns; the empty key is left out, being read as no key. *)
Theorem unknown_key_is_rejected
        (w : World) (p key : string) (st : state) :
  key <> "" ->
  ~ In key scope_keys ->
  written (snd (IX71.add_scale_bar w p (Some key) st)) = written st /\
  (forall img,
      exists_at w st p = true ->
      Py.endswith p ".tif" = true ->
      image_at w st p = Some img ->
      shape0 img = 1440 -> shape1 img = 1920 ->
      IX71.add_scale_bar w p (Some key) st
      = (Ok tt, with_line (entered st p) IX71.msg_invalid_scope)).
Proof.
  intros Hne Hkey.
  apply truthy_iff in Hne. apply scale_bar_of_none_iff in Hkey.
  assert (Heff : effective_scope_type (Some key) p = key).
  { unfold effective_scope_type. now rewrite Hne. }
  rewrite ix71_add_scale_bar_unfold, Heff, Hne.
  split.
  - destruct (exists_at w st p); [|reflexivity].
    destruct (Py.endswith p ".tif"); [|reflexivity].
    cbn [negb]. destruct (image_at w st p) as [img|]; [|reflexivity].
    destruct (negb (shape0 img =? 1440) || negb (shape1 img =? 1920));
      [reflexivity|].
    now rewrite ix71_draw_and_save_unfold, Hkey.
  - intros img Hex Hext Himg H0 H1.
    rewrite Hex, Hext, Himg. cbn [negb].
    rewrite (proj2 (size_test_false_iff img) (conj H0 H1)).
    now rewrite ix71_draw_and_save_unfold, Hkey.
Qed.

(** The key [20X_1X] on a full-size capture. *)
Lemma unknown_key_is_rejected_witness :
  written (snd (IX71.add_scale_bar scope_lab "captures/s_10X_1X.tif"
                                   (Some "20X_1X") init_state)) = [] /\
  IX71.add_scale_bar scope_lab "captures/s_10X_1X.tif" (Some "20X_1X") init_state
  = (Ok tt, with_line (entered init_state "captures/s_10X_1X.tif")
                      IX71.msg_invalid_scope).
Proof.
  destruct (unknown_key_is_rejected scope_lab "captures/s_10X_1X.tif" "20X_1X"
                                    init_state) as [Hwritten Hrun].
  - discriminate.
  - unfold scope_keys. intros [E|[E|[E|[E|[E|[E|[]]]]]]]; discriminate E.
  - split; [exact Hwritten|].
    apply (Hrun (blank 1440 1920)); reflexivity.
Defined.

(* ===================================================================== *)
(** ** What annotation leaves untouched                                  *)
(* ===================================================================== *)

(** BGR to RGB and back gives every sample of the first three channels its
    input value. *)
Lemma swap_rb_round_trip (img : image) (x y c : Z) :
  px (swap_rb (swap_rb img)) y x c = px img y x c.
Proof. unfold swap_rb. cbn [px]. f_equal. lia. Qed.

(** Outside the rectangle, [cv2.rectangle] changes nothing. *)
Lemma rectangle_frame (img : image) (pt1 pt2 : Z * Z) (fill : color) (x y c : Z) :
  in_rect pt1 pt2 x y = false ->
  px (cv2_rectangle img pt1 pt2 fill) y x c = px img y x c.
Proof. intros H. cbn. now rewrite H. Qed.

(** The frame of the scope script's image: a sample outside the bar and
    outside a region that confines the renderer keeps its value. *)
Lemma ix71_output_frame (w : World) (img : image) (size : Z)
      (label font_path : string) (region : Z -> Z -> bool) :
  let position := IX71.bar_position img size in
  let font := {| font_file := font_path; font_size := IX71.scale_bar_font_size |} in
  (forall rgb x y c,
      region x y = false ->
      draw_text w rgb (IX71.text_position w position size label font)
                label font IX71.scale_bar_color y x c = px rgb y x c) ->
  forall x y c,
    in_rect position (IX71.bar_corner position size) x y = false ->
    region x y = false ->
    px (ix71_output_image w img size label font_path) y x c = px img y x c.
Proof.
  intros position font Hdraw x y c Hbar Hregion.
  unfold ix71_output_image, np_asarray.
  cbn [px swap_rb ImageDraw_text].
  fold position. fold font. rewrite (Hdraw _ x y _ Hregion).
  cbn [px swap_rb]. rewrite rectangle_frame by exact Hbar.
  f_equal. lia.
Qed.

Lemma gcode_output_frame (w : World) (img : image) (font_path : string)
      (region : Z -> Z -> bool) :
  let size := Gcode.scale_pixel_1000_um * 10 in
  let position := Gcode.bar_position img size in
  let font := {| font_file := font_path; font_size := Gcode.scale_bar_font_size |} in
  (forall rgb x y c,
      region x y = false ->
      draw_text w rgb (Gcode.text_position w position size "" font)
                "" font Gcode.scale_bar_color y x c = px rgb y x c) ->
  forall x y c,
    in_rect position (Gcode.bar_corner position size) x y = false ->
    region x y = false ->
    px (gcode_output_image w img font_path) y x c = px img y x c.
Proof.
  intros size position font Hdraw x y c Hbar Hregion.
  unfold gcode_output_image, np_asarray.
  cbn [px swap_rb ImageDraw_text].
  fold size. fold position. fold font. rewrite (Hdraw _ x y _ Hregion).
  cbn [px swap_rb]. rewrite rectangle_frame by exact Hbar.
  f_equal. lia.
Qed.

(** The image handed to [cv2.imwrite] has the rows and columns of the
    decoded one, three channels whatever the input had, and the input's
    element type. *)
Lemma ix71_output_layout (w : World) (img : image) (size : Z)
      (label font_path : string) :
  let out := ix71_output_image w img size label font_path in
  shape0 out = shape0 img /\ shape1 out = shape1 img /\
  channels out = 3 /\ dtype out = dtype img.
Proof. repeat split. Qed.

Lemma gcode_output_layout (w : World) (img : image) (font_path : string) :
  let out := gcode_output_image w img font_path in
  shape0 out = shape0 img /\ shape1 out = shape1 img /\
  channels out = 3 /\ dtype out = dtype img.
Proof. repeat split. Qed.

(** The box renderer of the laboratory stays inside its box. *)
Lemma box_renderer_frame (rgb : image) (position : float * Z) (label : string)
      (f : font) (fill : color) (x y c : Z) :
  text_box position label f x y = false ->
  box_renderer rgb position label f fill y x c = px rgb y x c.
Proof. intros H. unfold box_renderer. now rewrite H. Qed.

(** C7 (the code departs from the claim).  For an 8-bit image of three or
    four channels and a resolved scale bar, the image either script hands
    to [cv2.imwrite] has the rows, columns and element type of the decoded
    input and agrees with it on the blue, green and red sample of every
    pixel outside the bar rectangle and outside the label region (any
    region the text renderer confines itself to for this label at the
    computed position); the two channel conversions cancel on those three
    channels.  But the image written has three channels whatever the input
    had: of a capture read with its alpha channel, as the camera's
    [a_10X_1X.tif], no pixel keeps its alpha sample, inside the bar and
    label region or outside it. *)
Theorem annotation_frame_drops_alpha :
  (forall (w : World) (p : string) (k : option string) (st : state)
          (img : image) (size : Z) (label font_path : string)
          (region : Z -> Z -> bool),
      exists_at w st p = true ->
      Py.endswith p ".tif" = true ->
      image_at w st p = Some img ->
      shape0 img = 1440 -> shape1 img = 1920 ->
      eight_bit_colour img ->
      Py.truthy (effective_scope_type k p) = true ->
      IX71.scale_bar_of (effective_scope_type k p) = Some (size, label) ->
      font_path_for w = Some font_path ->
      font_readable w font_path = true ->
      (forall rgb x y c,
          region x y = false ->
          draw_text w rgb
            (IX71.text_position
               w (IX71.bar_position img size) size label
               {| font_file := font_path; font_size := IX71.scale_bar_font_size |})
            label
            {| font_file := font_path; font_size := IX71.scale_bar_font_size |}
            IX71.scale_bar_color y x c = px rgb y x c) ->
      exists out,
        IX71.add_scale_bar w p k st
        = (Ok tt, finished w (entered st p)
                           (Py.drop_last 4 p ++ "_scaled.tif") out) /\
        shape0 out = 1440 /\ shape1 out = 1920 /\
        channels out = 3 /\ dtype out = uint8 /\
        forall x y c,
          0 <= c < 3 ->
          in_rect (IX71.bar_position img size)
                  (IX71.bar_corner (IX71.bar_position img size) size) x y = false ->
          region x y = false ->
          px out y x c = px img y x c) /\
  (forall (w : World) (p : string) (st : state) (img : image)
          (font_path : string) (region : Z -> Z -> bool),
      exists_at w st p = true ->
      Py.endswith (Py.lower p) ".png" = true ->
      image_at w st p = Some img ->
      eight_bit_colour img ->
      font_path_for w = Some font_path ->
      font_readable w font_path = true ->
      (forall rgb x y c,
          region x y = false ->
          draw_text w rgb
            (Gcode.text_position
               w (Gcode.bar_position img 240) 240 ""
               {| font_file := font_path; font_size := Gcode.scale_bar_font_size |})
            ""
            {| font_file := font_path; font_size := Gcode.scale_bar_font_size |}
            Gcode.scale_bar_color y x c = px rgb y x c) ->
      exists out,
        Gcode.add_scale_bar w p st
        = (Ok tt, finished w (entered st p)
                           (Py.drop_last 4 p ++ "_scaled.png") out) /\
        shape0 out = shape0 img /\ shape1 out = shape1 img /\
        channels out = 3 /\ dtype out = uint8 /\
        forall x y c,
          0 <= c < 3 ->
          in_rect (Gcode.bar_position img 240)
                  (Gcode.bar_corner (Gcode.bar_position img 240) 240) x y = false ->
          region x y = false ->
          px out y x c = px img y x c) /\
  (forall (img : image) (x y c : Z),
      px (swap_rb (swap_rb img)) y x c = px img y x c) /\
  (exists out,
      decode camera_lab "camera/a_10X_1X.tif"
      = Some (with_alpha (gradient 1440 1920) 200) /\
      channels (with_alpha (gradient 1440 1920) 200) = 4 /\
      px (with_alpha (gradient 1440 1920) 200) 0 0 3 = Int 200 /\
      IX71.main camera_lab "camera/a_10X_1X.tif" None init_state
      = (Ok tt, saved (entered init_state "camera/a_10X_1X.tif")
                      "camera/a_10X_1X_scaled.tif" out) /\
      channels out = 3).
Proof.
  split; [|split; [|split]].
  - intros w p k st img size label font_path region
           Hex Hext Himg H0 H1 Hcol Hkey Hbar Hfont Hread Hdraw.
    exists (ix71_output_image w img size label font_path). split.
    + rewrite ix71_add_scale_bar_unfold, Hex, Hext, Himg. cbn [negb].
      rewrite (proj2 (size_test_false_iff img) (conj H0 H1)), Hkey.
      rewrite ix71_draw_and_save_unfold, Hbar.
      now rewrite (proj2 (conversion_error_none_iff img) Hcol), Hfont, Hread.
    + destruct (ix71_output_layout w img size label font_path)
        as (L0 & L1 & Lc & Ld).
      rewrite L0, L1, Ld, H0, H1. destruct Hcol as [_ Hd].
      repeat (split; [first [reflexivity | assumption]|]).
      intros x y c _. now apply ix71_output_frame.
  - intros w p st img font_path region Hex Hext Himg Hcol Hfont Hread Hdraw.
    exists (gcode_output_image w img font_path). split.
    + rewrite gcode_add_scale_bar_unfold, Hex, Hext, Himg.
      now rewrite (proj2 (conversion_error_none_iff img) Hcol), Hfont, Hread.
    + destruct (gcode_output_layout w img font_path) as (L0 & L1 & Lc & Ld).
      rewrite L0, L1, Ld. destruct Hcol as [_ Hd].
      repeat (split; [first [reflexivity | assumption]|]).
      intros x y c _. now apply gcode_output_frame.
  - exact swap_rb_round_trip.
  - eexists. split; [reflexivity|]. split; [reflexivity|].
    split; [reflexivity|]. split; [vm_compute; reflexivity|]. reflexivity.
Qed.

(** The camera's patterned 8-bit capture, annotated for 10X_1X: outside
    the bar and the label's box every colour sample is the input's. *)
Lemma annotation_frame_drops_alpha_witness :
  exists out,
    IX71.add_scale_bar camera_lab "camera/b_10X_1X.tif" None init_state
    = (Ok tt, saved (entered init_state "camera/b_10X_1X.tif")
                    (Py.drop_last 4 "camera/b_10X_1X.tif" ++ "_scaled.tif") out) /\
    shape0 out = 1440 /\ shape1 out = 1920 /\
    channels out = 3 /\ dtype out = uint8 /\
    forall x y c,
      0 <= c < 3 ->
      in_rect (IX71.bar_position (gradient 1440 1920) 198)
              (IX71.bar_corner (IX71.bar_position (gradient 1440 1920) 198) 198)
              x y = false ->
      text_box
        (IX71.text_position
           camera_lab (IX71.bar_position (gradient 1440 1920) 198) 198 "150 μm"
           {| font_file := "/usr/share/fonts/truetype/liberation/LiberationSans-Regular.ttf";
              font_size := IX71.scale_bar_font_size |})
        "150 μm"
        {| font_file := "/usr/share/fonts/truetype/liberation/LiberationSans-Regular.ttf";
           font_size := IX71.scale_bar_font_size |}
        x y = false ->
      px out y x c = Int ((x + 2 * y + 85 * c) mod 256).
Proof.
  apply (proj1 annotation_frame_drops_alpha camera_lab "camera/b_10X_1X.tif" None
               init_state (gradient 1440 1920) 198 "150 μm"
               "/usr/share/fonts/truetype/liberation/LiberationSans-Regular.ttf").
  - reflexivity.
  - reflexivity.
  - reflexivity.
  - reflexivity.
  - reflexivity.
  - split; [now left | reflexivity].
  - reflexivity.
  - vm_compute. reflexivity.
  - reflexivity.
  - reflexivity.
  - intros rgb x y c H. now apply box_renderer_frame.
Defined.

(* ===================================================================== *)
(** ** The output path                                                   *)
(* ===================================================================== *)

(** A run that ends in one of the scripts' messages has not printed the
    success line. *)
Local Ltac no_success_line :=
  right; right; split; [reflexivity|];
  eexists; split; [unfold printed_since; cbn [stdout with_line entered]; reflexivity|];
  let out := fresh "out" in
  let E := fresh "E" in
  intros out [E|[]]; cbn in E; discriminate E.

Local Ltac raised_silently :=
  right; right; split; [reflexivity|];
  exists []; split;
  [unfold printed_since; cbn [stdout entered]; now rewrite app_nil_r
  | intros ? []].

(** C8 as stated fails: the generic script accepts [B.PNG] and writes
    [B_scaled.png]; no split of the input path into a stem and an extension
    gives the output as stem, ["_scaled"], extension. *)
Lemma uppercase_extension_is_not_kept :
  map fst (written (snd (Gcode.main gcode_lab "plates/B.PNG" init_state)))
  = ["plates/B_scaled.png"] /\
  ~ (exists stem ext,
        "plates/B.PNG" = stem ++ ext /\
        "plates/B_scaled.png" = stem ++ "_scaled" ++ ext).
Proof.
  split; [vm_compute; reflexivity|].
  intros (stem & ext & Hin & Hout).
  do 11 (destruct stem as [|? stem];
         [cbn in Hin, Hout; subst ext; discriminate Hout
         |cbn in Hin, Hout; try discriminate Hin;
          injection Hin as <- Hin; try discriminate Hout;
          injection Hout as Hout]).
Qed.

(** C8, amended.  A call of [add_scale_bar] on [p] ends in one of three
    ways.  It writes exactly one file and prints the success line naming
    it, the path being [p] with its last four characters, the extension,
    replaced by ["_scaled.tif"] (scope script, extension exactly [".tif"])
    or by ["_scaled.png"] (generic script, extension [".png"] in any mix of
    upper and lower case).  Or [cv2.imwrite] cannot write that same path:
    nothing is written, and the success line naming it is printed all the
    same.  Or it writes nothing and prints no success line.  No other path
    is written or named. *)
Theorem output_path_shape :
  (forall (w : World) (p : string) (k : option string) (st : state),
      let st' := snd (IX71.add_scale_bar w p k st) in
      (exists stem img,
          p = stem ++ ".tif" /\
          imwrite_ok w (stem ++ "_scaled.tif") = true /\
          st' = saved (entered st p) (stem ++ "_scaled.tif") img) \/
      (exists stem,
          p = stem ++ ".tif" /\
          imwrite_ok w (stem ++ "_scaled.tif") = false /\
          st' = with_line (entered st p)
                          ("Scale bar added to " ++ stem ++ "_scaled.tif")) \/
      (written st' = written st /\
       exists lines,
         printed_since st st' lines /\
         forall out, ~ In ("Scale bar added to " ++ out) lines)) /\
  (forall (w : World) (p : string) (st : state),
      let st' := snd (Gcode.add_scale_bar w p st) in
      (exists stem ext img,
          p = stem ++ ext /\ Py.lower ext = ".png" /\
          imwrite_ok w (stem ++ "_scaled.png") = true /\
          st' = saved (entered st p) (stem ++ "_scaled.png") img) \/
      (exists stem ext,
          p = stem ++ ext /\ Py.lower ext = ".png" /\
          imwrite_ok w (stem ++ "_scaled.png") = false /\
          st' = with_line (entered st p)
                          ("Scale bar added to " ++ stem ++ "_scaled.png")) \/
      (written st' = written st /\
       exists lines,
         printed_since st st' lines /\
         forall out, ~ In ("Scale bar added to " ++ out) lines)).
Proof.
  split.
  - intros w p k st. cbv zeta. rewrite ix71_add_scale_bar_unfold.
    destruct (exists_at w st p); cbn [negb]; [|no_success_line].
    destruct (Py.endswith p ".tif") eqn:Hext; cbn [negb]; [|no_success_line].
    destruct (image_at w st p) as [img|]; [|no_success_line].
    destruct (negb (shape0 img =? 1440) || negb (shape1 img =? 1920));
      [no_success_line|].
    destruct (Py.truthy (effective_scope_type k p)); [|no_success_line].
    rewrite ix71_draw_and_save_unfold.
    destruct (IX71.scale_bar_of _) as [[size label]|]; [|no_success_line].
    destruct (conversion_error img); [raised_silently|].
    destruct (font_path_for w) as [fp|]; [|no_success_line].
    destruct (font_readable w fp); [|raised_silently].
    destruct (ix71_output_path p Hext) as (stem & Hp & Hdrop).
    cbn [snd]. unfold finished. rewrite Hdrop.
    destruct (imwrite_ok w (stem ++ "_scaled.tif")) eqn:Hdisk.
    + left. exists stem, (ix71_output_image w img size label fp). auto.
    + right. left. exists stem. auto.
  - intros w p st. cbv zeta. rewrite gcode_add_scale_bar_unfold.
    destruct (exists_at w st p); cbn [negb]; [|no_success_line].
    destruct (Py.endswith (Py.lower p) ".png") eqn:Hext; cbn [negb];
      [|no_success_line].
    destruct (image_at w st p) as [img|]; [|raised_silently].
    destruct (conversion_error img); [raised_silently|].
    destruct (font_path_for w) as [fp|]; [|no_success_line].
    destruct (font_readable w fp); [|raised_silently].
    destruct (gcode_output_path p Hext) as (stem & ext & Hp & Hlow & Hdrop).
    cbn [snd]. unfold finished. rewrite Hdrop.
    destruct (imwrite_ok w (stem ++ "_scaled.png")) eqn:Hdisk.
    + left. exists stem, ext, (gcode_output_image w img fp). auto.
    + right. left. exists stem, ext. auto.
Qed.

(* ===================================================================== *)
(** ** The directory walkers                                             *)
(* ===================================================================== *)

(** The scope walker calls [add_scale_bar] only on listed paths that do
    not end with ["_scaled.tif"], and prints nothing of its own. *)
Lemma ix71_for_each_trace (w : World) (files : list string) (k : option string) :
  forall st,
  exists paths lines,
    called_since st (snd (IX71.for_each_tif w files k st)) paths /\
    (forall p, In p paths -> In p files /\ Py.endswith p "_scaled.tif" = false) /\
    printed_since st (snd (IX71.for_each_tif w files k st)) lines /\
    Forall ix71_line lines.
Proof.
  induction files as [|f rest IH]; intros st.
  - exists [], []. unfold called_since, printed_since. cbn.
    rewrite !app_nil_r.
    split; [reflexivity|]. split; [intros p []|]. split; [reflexivity|constructor].
  - cbn [IX71.for_each_tif]. unfold bind.
    destruct (Py.endswith f "_scaled.tif") eqn:Hmark; cbn [negb].
    + unfold ret. destruct (IH st) as (paths & lines & Hc & Hp & Hl & Hf).
      exists paths, lines.
      split; [exact Hc|]. split; [|split; assumption].
      intros p Hin. split; [right|]; now apply Hp.
    + pose proof (ix71_add_scale_bar_calls w f k st) as Hcall.
      destruct (ix71_add_scale_bar_lines w f k st) as (lines0 & Hl0 & Hf0).
      destruct (IX71.add_scale_bar w f k st) as [[[]|e] st1]; cbn [snd] in *.
      * destruct (IH st1) as (paths & lines & Hc & Hp & Hl & Hf).
        exists (f :: paths), (lines0 ++ lines)%list.
        unfold called_since, printed_since in *.
        rewrite Hc, Hcall, Hl, Hl0, <- !app_assoc. cbn [app].
        split; [reflexivity|]. split; [|split; [reflexivity|]].
        -- intros p [<-|Hin]; [now split; [left|] |].
           split; [right|]; now apply Hp.
        -- apply Forall_app. now split.
      * exists [f], lines0. unfold called_since, printed_since in *.
        split; [exact Hcall|]. split; [|split; assumption].
        intros p [<-|[]]. now split; [left|].
Qed.

(** The generic walker calls [add_scale_bar] only on listed paths that do
    not contain ["_scaled"]. *)
Lemma gcode_for_each_trace (w : World) (files : list string) :
  forall n st,
  exists paths,
    called_since st (snd (Gcode.for_each_png w files n st)) paths /\
    (forall p, In p paths -> In p files /\ Py.contains "_scaled" p = false).
Proof.
  induction files as [|f rest IH]; intros n st.
  - exists []. unfold called_since. cbn. rewrite app_nil_r.
    split; [reflexivity | intros p []].
  - cbn [Gcode.for_each_png].
    destruct (Py.contains "_scaled" f) eqn:Hmark.
    + destruct (IH n st) as (paths & Hc & Hp). exists paths.
      split; [exact Hc|]. intros p Hin. split; [right|]; now apply Hp.
    + unfold bind.
      pose proof (gcode_add_scale_bar_calls w f st) as Hcall.
      destruct (Gcode.add_scale_bar w f st) as [[[]|e] st1]; cbn [snd] in *.
      * destruct (IH (n + 1) st1) as (paths & Hc & Hp).
        exists (f :: paths). unfold called_since in *.
        rewrite Hc, Hcall, <- app_assoc. split; [reflexivity|].
        intros p [<-|Hin]; [now split; [left|] |].
        split; [right|]; now apply Hp.
      * exists [f]. split; [exact Hcall|].
        intros p [<-|[]]. now split; [left|].
Qed.

(** C3 as stated fails for the scope walker: a capture named
    [a_scaled_v2.tif] has the marker in its name, but not as the end
    ["_scaled.tif"] the walker tests for; it is passed to [add_scale_bar]
    and annotated into [a_scaled_v2_scaled.tif]. *)
Lemma marked_capture_is_annotated_again :
  Py.contains "_scaled" "a_scaled_v2.tif" = true /\
  In "captures/a_scaled_v2.tif"
     (calls (snd (IX71.main scope_lab "captures" (Some "10X_1X") init_state))) /\
  In "captures/a_scaled_v2_scaled.tif"
     (map fst (written (snd (IX71.main scope_lab "captures" (Some "10X_1X")
                                       init_state)))).
Proof.
  split; [reflexivity|]. split.
  - vm_compute. tauto.
  - vm_compute. tauto.
Qed.

(** C3, amended.  The generic walker passes to [add_scale_bar] no listed
    path that contains ["_scaled"], in the file name or before it; the
    scope walker passes no listed path that ends with ["_scaled.tif"],
    which is how every output of the scope script ends. *)
Theorem walkers_skip_marked_files :
  (forall (w : World) (directory_path : string) (st : state),
      exists paths,
        called_since st (snd (Gcode.process_directory w directory_path st)) paths /\
        forall dir name, In (dir ++ name) paths ->
                         Py.contains "_scaled" name = false) /\
  (forall (w : World) (directory_path : string) (k : option string) (st : state),
      exists paths,
        called_since st (snd (IX71.process_directory w directory_path k st)) paths /\
        forall p, In p paths -> Py.endswith p "_scaled.tif" = false).
Proof.
  split.
  - intros w d st. unfold Gcode.process_directory.
    assert (Hnone : forall line,
               exists paths,
                 called_since st (snd (print line st)) paths /\
                 forall dir name, In (dir ++ name) paths ->
                                  Py.contains "_scaled" name = false).
    { intros line. exists []. unfold called_since. cbn. rewrite app_nil_r.
      split; [reflexivity | intros dir name []]. }
    destruct (os_path_isdir w d); cbn [negb]; [|apply Hnone].
    destruct (glob_glob w (os_path_join w d "*.png")) as [|f rest] eqn:Hglob;
      [apply Hnone|].
    destruct (gcode_for_each_trace w (f :: rest) 0 st) as (paths & Hc & Hp).
    exists paths. split.
    + unfold bind.
      destruct (Gcode.for_each_png w (f :: rest) 0 st) as [[n|e] st1];
        exact Hc.
    + intros dir name Hin. destruct (Hp _ Hin) as [_ Hno].
      destruct (Py.contains "_scaled" name) eqn:Hname; [|reflexivity].
      now rewrite (contains_in_path _ dir _ Hname) in Hno.
  - intros w d k st. unfold IX71.process_directory.
    destruct (ix71_for_each_trace w (glob_glob w (os_path_join w d "*.tif")) k st)
      as (paths & lines & Hc & Hp & _).
    exists paths. split; [exact Hc|]. intros p Hin. now apply Hp.
Qed.

(* ===================================================================== *)
(** ** One file at a time                                                *)
(* ===================================================================== *)

Lemma exists_at_unwritten (w : World) (st : state) (p : string) :
  lookup_written p st = None -> exists_at w st p = os_path_exists w p.
Proof. unfold exists_at. now intros ->. Qed.

Lemma image_at_unwritten (w : World) (st : state) (p : string) :
  lookup_written p st = None -> image_at w st p = decode w p.
Proof. unfold image_at. now intros ->. Qed.

Lemma extend_entered (st : state) (p : string) :
  entered st p = extend st (entered init_state p).
Proof.
  unfold extend, entered. cbn [stdout written calls init_state app].
  now rewrite app_nil_r.
Qed.

Lemma extend_finished (w : World) (st : state) (p out : string) (img : image) :
  finished w (entered st p) out img
  = extend st (finished w (entered init_state p) out img).
Proof. unfold finished. now destruct (imwrite_ok w out). Qed.

(** On a path the run has not written, [IX71.add_scale_bar] does after
    [st] what it does at the start of a run. *)
Lemma ix71_add_scale_bar_local (w : World) (p : string) (k : option string)
      (st : state) :
  lookup_written p st = None ->
  IX71.add_scale_bar w p k st
  = (fst (ix71_alone w k p), extend st (snd (ix71_alone w k p))).
Proof.
  intros Hnew. unfold ix71_alone. rewrite !ix71_add_scale_bar_unfold.
  rewrite (exists_at_unwritten w st p Hnew), (image_at_unwritten w st p Hnew).
  rewrite (exists_at_unwritten w init_state p eq_refl),
          (image_at_unwritten w init_state p eq_refl).
  destruct (os_path_exists w p); [|reflexivity].
  destruct (Py.endswith p ".tif"); [|reflexivity].
  cbn [negb]. destruct (decode w p) as [img|]; [|reflexivity].
  destruct (negb (shape0 img =? 1440) || negb (shape1 img =? 1920));
    [reflexivity|].
  destruct (Py.truthy (effective_scope_type k p)); [|reflexivity].
  rewrite !ix71_draw_and_save_unfold.
  destruct (IX71.scale_bar_of _) as [[size label]|]; [|reflexivity].
  destruct (conversion_error img); [now rewrite (extend_entered st p)|].
  destruct (font_path_for w) as [fp|]; [|reflexivity].
  destruct (font_readable w fp); cbn [fst snd].
  - now rewrite (extend_finished w st p).
  - now rewrite (extend_entered st p).
Qed.

Lemma gcode_add_scale_bar_local (w : World) (p : string) (st : state) :
  lookup_written p st = None ->
  Gcode.add_scale_bar w p st
  = (fst (gcode_alone w p), extend st (snd (gcode_alone w p))).
Proof.
  intros Hnew. unfold gcode_alone. rewrite !gcode_add_scale_bar_unfold.
  rewrite (exists_at_unwritten w st p Hnew), (image_at_unwritten w st p Hnew).
  rewrite (exists_at_unwritten w init_state p eq_refl),
          (image_at_unwritten w init_state p eq_refl).
  destruct (os_path_exists w p); [|reflexivity].
  destruct (Py.endswith (Py.lower p) ".png"); [|reflexivity].
  cbn [negb]. destruct (decode w p) as [img|];
    [|now rewrite (extend_entered st p)].
  destruct (conversion_error img); [now rewrite (extend_entered st p)|].
  destruct (font_path_for w) as [fp|]; [|reflexivity].
  destruct (font_readable w fp); cbn [fst snd].
  - now rewrite (extend_finished w st p).
  - now rewrite (extend_entered st p).
Qed.

(** What one call of [IX71.add_scale_bar] writes ends with
    ["_scaled.tif"]. *)
Lemma ix71_add_scale_bar_keeps_outputs (w : World) (p : string)
      (k : option string) (st : state) :
  tif_outputs_only st ->
  tif_outputs_only (snd (IX71.add_scale_bar w p k st)).
Proof.
  intros Hinv. rewrite ix71_add_scale_bar_unfold.
  destruct (exists_at w st p); [|exact Hinv].
  destruct (Py.endswith p ".tif"); [|exact Hinv].
  cbn [negb]. destruct (image_at w st p) as [img|]; [|exact Hinv].
  destruct (negb (shape0 img =? 1440) || negb (shape1 img =? 1920));
    [exact Hinv|].
  destruct (Py.truthy (effective_scope_type k p)); [|exact Hinv].
  rewrite ix71_draw_and_save_unfold.
  destruct (IX71.scale_bar_of _) as [[size label]|]; [|exact Hinv].
  destruct (conversion_error img); [exact Hinv|].
  destruct (font_path_for w) as [fp|]; [|exact Hinv].
  destruct (font_readable w fp); [|exact Hinv].
  cbn [snd]. unfold finished. destruct (imwrite_ok w _); [|exact Hinv].
  constructor; [|exact Hinv]. cbn [fst]. apply endswith_iff. now eexists.
Qed.

Lemma gcode_add_scale_bar_keeps_outputs (w : World) (p : string) (st : state) :
  png_outputs_only st ->
  png_outputs_only (snd (Gcode.add_scale_bar w p st)).
Proof.
  intros Hinv. rewrite gcode_add_scale_bar_unfold.
  destruct (exists_at w st p); [|exact Hinv].
  destruct (Py.endswith (Py.lower p) ".png"); [|exact Hinv].
  cbn [negb]. destruct (image_at w st p) as [img|]; [|exact Hinv].
  destruct (conversion_error img); [exact Hinv|].
  destruct (font_path_for w) as [fp|]; [|exact Hinv].
  destruct (font_readable w fp); [|exact Hinv].
  cbn [snd]. unfold finished. destruct (imwrite_ok w _); [|exact Hinv].
  constructor; [|exact Hinv]. cbn [fst]. apply endswith_iff. now eexists.
Qed.

Lemma endswith_contains (s marker rest : string) :
  Py.endswith s (marker ++ rest) = true -> Py.contains marker s = true.
Proof.
  intros H. apply endswith_iff in H. destruct H as [stem ->].
  apply contains_app.
Qed.

(** The generic script's outputs carry the marker. *)
Lemma png_outputs_are_marked (st : state) :
  png_outputs_only st -> marked_only st.
Proof.
  unfold png_outputs_only, marked_only. apply Forall_impl.
  intros e He. exact (endswith_contains _ "_scaled" ".png" He).
Qed.

Lemma lookup_written_unfinished (st : state) (p : string) :
  tif_outputs_only st ->
  Py.endswith p "_scaled.tif" = false ->
  lookup_written p st = None.
Proof.
  unfold tif_outputs_only, lookup_written. intros Hinv Hp.
  destruct (find _ (written st)) as [e|] eqn:Hfind; [|reflexivity].
  apply find_some in Hfind. destruct Hfind as [Hin Heq].
  apply String.eqb_eq in Heq. subst p.
  rewrite Forall_forall in Hinv. rewrite (Hinv e Hin) in Hp. discriminate.
Qed.

(** A path without the marker was not written by a run whose outputs all
    carry it. *)
Lemma lookup_written_unmarked (st : state) (p : string) :
  marked_only st ->
  Py.contains "_scaled" p = false ->
  lookup_written p st = None.
Proof.
  unfold marked_only, lookup_written. intros Hinv Hp.
  destruct (find _ (written st)) as [e|] eqn:Hfind; [|reflexivity].
  apply find_some in Hfind. destruct Hfind as [Hin Heq].
  apply String.eqb_eq in Heq. subst p.
  rewrite Forall_forall in Hinv. rewrite (Hinv e Hin) in Hp. discriminate.
Qed.

Lemma tif_outputs_only_extend (st delta : state) :
  tif_outputs_only st -> tif_outputs_only delta ->
  tif_outputs_only (extend st delta).
Proof.
  unfold tif_outputs_only, extend. cbn [written]. intros H1 H2.
  apply Forall_app. now split.
Qed.

Lemma marked_only_extend (st delta : state) :
  marked_only st -> marked_only delta -> marked_only (extend st delta).
Proof.
  unfold marked_only, extend. cbn [written]. intros H1 H2.
  apply Forall_app. now split.
Qed.

Lemma ix71_alone_calls (w : World) (k : option string) (p : string) :
  calls (snd (ix71_alone w k p)) = [p].
Proof. unfold ix71_alone. now rewrite ix71_add_scale_bar_calls. Qed.

Lemma gcode_alone_calls (w : World) (p : string) :
  calls (snd (gcode_alone w p)) = [p].
Proof. unfold gcode_alone. now rewrite gcode_add_scale_bar_calls. Qed.

Lemma ix71_alone_outputs (w : World) (k : option string) (p : string) :
  tif_outputs_only (snd (ix71_alone w k p)).
Proof. apply ix71_add_scale_bar_keeps_outputs. constructor. Qed.

Lemma gcode_alone_outputs (w : World) (p : string) :
  marked_only (snd (gcode_alone w p)).
Proof.
  apply png_outputs_are_marked, gcode_add_scale_bar_keeps_outputs. constructor.
Qed.

(** A loop none of whose calls raises gets to every path. *)
Lemma reached_all (call : string -> result unit) (paths : list string) :
  first_raise (map call paths) = Ok tt -> reached call paths = paths.
Proof.
  induction paths as [|p rest IH]; [reflexivity|].
  cbn [map first_raise reached].
  destruct (call p) as [[]|e]; [|discriminate].
  intros H. now rewrite (IH H).
Qed.

Lemma first_raise_all_ok (call : string -> result unit) (paths : list string) :
  (forall p, In p paths -> call p = Ok tt) ->
  first_raise (map call paths) = Ok tt.
Proof.
  induction paths as [|p rest IH]; intros H; [reflexivity|].
  cbn [map first_raise]. rewrite (H p (or_introl eq_refl)).
  apply IH. intros q Hq. apply H. now right.
Qed.

(** The loop of the scope walker, started after [st]: file by file, what
    each unskipped file gives on its own, up to and including the first
    one that raises. *)
Lemma ix71_for_each_file_by_file (w : World) (k : option string) :
  forall files st,
    tif_outputs_only st ->
    let todo := unfinished files in
    let alone := fun p => fst (ix71_alone w k p) in
    let singles := map (fun p => snd (ix71_alone w k p)) (reached alone todo) in
    IX71.for_each_tif w files k st
    = (first_raise (map alone todo),
       {| stdout := (stdout st ++ List.concat (map stdout singles))%list;
          written := (List.concat (rev (map written singles)) ++ written st)%list;
          calls := (calls st ++ reached alone todo)%list |}).
Proof.
  induction files as [|f rest IH]; intros st Hinv; cbv zeta.
  - cbn. rewrite !app_nil_r. now destruct st.
  - cbn [IX71.for_each_tif unfinished filter]. unfold bind.
    destruct (Py.endswith f "_scaled.tif") eqn:Hmark; cbn [negb].
    + unfold ret. exact (IH st Hinv).
    + rewrite (ix71_add_scale_bar_local w f k st
                 (lookup_written_unfinished st f Hinv Hmark)).
      fold (unfinished rest). cbn [map first_raise reached].
      pose proof (ix71_alone_calls w k f) as Hcall.
      pose proof (ix71_alone_outputs w k f) as Hout.
      destruct (ix71_alone w k f) as [[[]|e] delta] eqn:Halone;
        cbn [fst snd] in *.
      * rewrite (IH (extend st delta) (tif_outputs_only_extend _ _ Hinv Hout)).
        cbv zeta. f_equal. unfold extend.
        cbn [stdout written calls map rev]. rewrite Halone. cbn [snd].
        rewrite concat_app. cbn [List.concat].
        rewrite Hcall, app_nil_r, <- !app_assoc. reflexivity.
      * f_equal. unfold extend. cbn [map rev List.concat app].
        rewrite Halone. cbn [snd]. now rewrite Hcall, !app_nil_r.
Qed.

(** The loop of the generic walker, in the same way, with its count. *)
Lemma gcode_for_each_file_by_file (w : World) :
  forall files n st,
    marked_only st ->
    let todo := unmarked files in
    let alone := fun p => fst (gcode_alone w p) in
    let singles := map (fun p => snd (gcode_alone w p)) (reached alone todo) in
    Gcode.for_each_png w files n st
    = (match first_raise (map alone todo) with
       | Ok _ => Ok (n + Z.of_nat (List.length todo))
       | Raised e => Raised e
       end,
       {| stdout := (stdout st ++ List.concat (map stdout singles))%list;
          written := (List.concat (rev (map written singles)) ++ written st)%list;
          calls := (calls st ++ reached alone todo)%list |}).
Proof.
  induction files as [|f rest IH]; intros n st Hinv; cbv zeta.
  - cbn. rewrite Z.add_0_r, !app_nil_r. now destruct st.
  - cbn [Gcode.for_each_png unmarked filter].
    destruct (Py.contains "_scaled" f) eqn:Hmark; cbn [negb].
    + exact (IH n st Hinv).
    + unfold bind.
      rewrite (gcode_add_scale_bar_local w f st
                 (lookup_written_unmarked st f Hinv Hmark)).
      fold (unmarked rest). cbn [map first_raise reached List.length].
      pose proof (gcode_alone_calls w f) as Hcall.
      pose proof (gcode_alone_outputs w f) as Hout.
      destruct (gcode_alone w f) as [[[]|e] delta] eqn:Halone;
        cbn [fst snd] in *.
      * rewrite (IH (n + 1) (extend st delta) (marked_only_extend _ _ Hinv Hout)).
        cbv zeta. f_equal.
        -- destruct (first_raise _); [|reflexivity]. f_equal. lia.
        -- unfold extend. cbn [stdout written calls map rev].
           rewrite Halone. cbn [snd].
           rewrite concat_app. cbn [List.concat].
           rewrite Hcall, app_nil_r, <- !app_assoc. reflexivity.
      * f_equal. unfold extend. cbn [map rev List.concat app].
        rewrite Halone. cbn [snd]. now rewrite Hcall, !app_nil_r.
Qed.

(** X7.  A directory run of the scope script is the sum of single-file
    runs.  The walk gets to the listed files not ending with
    ["_scaled.tif"], in listing order, up to and including the first on
    which [add_scale_bar] raises; it ends as that call does, or normally
    when none raises; and it has printed and written exactly what
    [add_scale_bar] prints and writes for each file it got to, each taken
    on its own from the files as they were at the start. *)
Theorem scope_walk_is_file_by_file
        (w : World) (directory_path : string) (k : option string) :
  let files := unfinished (glob_glob w (os_path_join w directory_path "*.tif")) in
  let alone := fun p => fst (IX71.add_scale_bar w p k init_state) in
  let singles :=
    map (fun p => snd (IX71.add_scale_bar w p k init_state)) (reached alone files) in
  let run := IX71.process_directory w directory_path k init_state in
  fst run = first_raise (map alone files) /\
  stdout (snd run) = List.concat (map stdout singles) /\
  written (snd run) = List.concat (rev (map written singles)) /\
  calls (snd run) = reached alone files /\
  (first_raise (map alone files) = Ok tt -> reached alone files = files).
Proof.
  cbv zeta. unfold IX71.process_directory.
  rewrite (ix71_for_each_file_by_file
             w k (glob_glob w (os_path_join w directory_path "*.tif"))
             init_state (Forall_nil _)).
  cbv zeta. cbn [fst snd stdout written calls init_state app].
  rewrite app_nil_r.
  split; [reflexivity|]. split; [reflexivity|]. split; [reflexivity|].
  split; [reflexivity|]. apply reached_all.
Qed.

(** The camera's directory: the capture with an alpha channel and the
    patterned one are annotated, the walk ends in the [TypeError] of the
    16-bit capture, and the greyscale one, listed last, is never reached. *)
Lemma scope_walk_is_file_by_file_witness :
  fst (IX71.process_directory camera_lab "camera" None init_state)
  = Raised (TypeError "Cannot handle this data type: (1, 1, 3), <u2") /\
  stdout (snd (IX71.process_directory camera_lab "camera" None init_state))
  = ["Scale bar added to camera/a_10X_1X_scaled.tif";
     "Scale bar added to camera/b_10X_1X_scaled.tif"] /\
  map fst (written (snd (IX71.process_directory camera_lab "camera" None init_state)))
  = ["camera/b_10X_1X_scaled.tif"; "camera/a_10X_1X_scaled.tif"] /\
  calls (snd (IX71.process_directory camera_lab "camera" None init_state))
  = ["camera/a_10X_1X.tif"; "camera/b_10X_1X.tif"; "camera/c_10X_1X.tif"].
Proof.
  destruct (scope_walk_is_file_by_file camera_lab "camera" None)
    as (Hfst & Hout & Hwr & Hcalls & _).
  rewrite Hfst, Hout, Hwr, Hcalls.
  split; [vm_compute; reflexivity|].
  split; [vm_compute; reflexivity|].
  split; [vm_compute; reflexivity|].
  vm_compute; reflexivity.
Defined.

(** The generic walker over a directory whose listing is not empty, in
    terms of the single-file runs. *)
Lemma gcode_walk_unfold (w : World) (directory_path : string) :
  let todo := unmarked (glob_glob w (os_path_join w directory_path "*.png")) in
  let alone := fun p => fst (gcode_alone w p) in
  let singles := map (fun p => snd (gcode_alone w p)) (reached alone todo) in
  os_path_isdir w directory_path = true ->
  glob_glob w (os_path_join w directory_path "*.png") <> [] ->
  Gcode.process_directory w directory_path init_state
  = match first_raise (map alone todo) with
    | Ok _ =>
        (Ok tt,
         {| stdout := (List.concat (map stdout singles)
                       ++ [Gcode.msg_complete (Z.of_nat (List.length todo))])%list;
            written := List.concat (rev (map written singles));
            calls := reached alone todo |})
    | Raised e =>
        (Raised e,
         {| stdout := List.concat (map stdout singles);
            written := List.concat (rev (map written singles));
            calls := reached alone todo |})
    end.
Proof.
  cbv zeta. intros Hdir Hsome. unfold Gcode.process_directory.
  rewrite Hdir. cbn [negb].
  destruct (glob_glob w (os_path_join w directory_path "*.png"))
    as [|f rest] eqn:Hfiles; [now elim Hsome|].
  unfold bind.
  rewrite (gcode_for_each_file_by_file w (f :: rest) 0 init_state (Forall_nil _)).
  cbv zeta.
  destruct (first_raise (map (fun p => fst (gcode_alone w p)) (unmarked (f :: rest))))
    as [[]|e];
    cbn [print stdout written calls init_state app]; now rewrite app_nil_r.
Qed.

(** X18.  A directory run of the generic script is the sum of single-file
    runs plus the count.  Over a directory whose listing is not empty, the
    walk gets to the listed files without ["_scaled"] in their path, in
    listing order, up to and including the first on which [add_scale_bar]
    raises; it has printed and written exactly what [add_scale_bar] prints
    and writes for each file it got to, each taken on its own from the
    files as they were at the start; when none raises it ends normally
    with one more line, the count of those files, and otherwise it ends as
    the raising call does, with no count line. *)
Theorem generic_walk_is_file_by_file (w : World) (directory_path : string) :
  let files := unmarked (glob_glob w (os_path_join w directory_path "*.png")) in
  let alone := fun p => fst (Gcode.add_scale_bar w p init_state) in
  let singles :=
    map (fun p => snd (Gcode.add_scale_bar w p init_state)) (reached alone files) in
  let run := Gcode.process_directory w directory_path init_state in
  os_path_isdir w directory_path = true ->
  glob_glob w (os_path_join w directory_path "*.png") <> [] ->
  fst run = first_raise (map alone files) /\
  stdout (snd run)
  = (List.concat (map stdout singles)
     ++ match first_raise (map alone files) with
        | Ok _ => [Gcode.msg_complete (Z.of_nat (List.length files))]
        | Raised _ => []
        end)%list /\
  written (snd run) = List.concat (rev (map written singles)) /\
  calls (snd run) = reached alone files /\
  (first_raise (map alone files) = Ok tt -> reached alone files = files).
Proof.
  cbv zeta. intros Hdir Hsome.
  rewrite (gcode_walk_unfold w directory_path Hdir Hsome). cbv zeta.
  change (fun p => fst (Gcode.add_scale_bar w p init_state))
    with (fun p => fst (gcode_alone w p)).
  change (fun p => snd (Gcode.add_scale_bar w p init_state))
    with (fun p => snd (gcode_alone w p)).
  destruct (first_raise
              (map (fun p => fst (gcode_alone w p))
                   (unmarked (glob_glob w (os_path_join w directory_path "*.png")))))
    as [[]|e] eqn:Hstatus;
    cbn [fst snd stdout written calls];
    rewrite ?app_nil_r;
    (split; [reflexivity|]; split; [reflexivity|]; split; [reflexivity|];
     split; [reflexivity|]).
  - intros _. now apply reached_all.
  - discriminate.
Qed.

(** The renders with a 16-bit file in second place: the first is
    annotated, the walk ends in the [TypeError] of the second, the third is
    never reached and no count is printed. *)
Lemma generic_walk_is_file_by_file_witness :
  fst (Gcode.process_directory deep_lab "renders" init_state)
  = Raised (TypeError "Cannot handle this data type: (1, 1, 3), <u2") /\
  stdout (snd (Gcode.process_directory deep_lab "renders" init_state))
  = ["Scale bar added to renders/a_scaled.png"] /\
  map fst (written (snd (Gcode.process_directory deep_lab "renders" init_state)))
  = ["renders/a_scaled.png"] /\
  calls (snd (Gcode.process_directory deep_lab "renders" init_state))
  = ["renders/a.png"; "renders/b.png"].
Proof.
  destruct (generic_walk_is_file_by_file deep_lab "renders" eq_refl)
    as (Hfst & Hout & Hwr & Hcalls & _); [discriminate|].
  rewrite Hfst, Hout, Hwr, Hcalls.
  split; [vm_compute; reflexivity|].
  split; [vm_compute; reflexivity|].
  split; [vm_compute; reflexivity|].
  vm_compute; reflexivity.
Defined.

(* ===================================================================== *)
(** ** The count of processed files                                      *)
(* ===================================================================== *)

Lemma in_unmarked (files : list string) (p : string) :
  In p (unmarked files) -> In p files /\ Py.contains "_scaled" p = false.
Proof.
  unfold unmarked. intros H. apply filter_In in H. destruct H as [Hin Hp].
  split; [exact Hin|]. now apply negb_true_iff in Hp.
Qed.

(** The generic [add_scale_bar] returns on a file that, when it exists
    and is named as a PNG, decodes to an 8-bit image of three or four
    channels, on a machine whose platform font loads. *)
Lemma gcode_alone_returns (w : World) (p : string) :
  (forall font_path, font_path_for w = Some font_path ->
                     font_readable w font_path = true) ->
  (os_path_exists w p = true -> Py.endswith (Py.lower p) ".png" = true ->
   exists img, decode w p = Some img /\ eight_bit_colour img) ->
  fst (gcode_alone w p) = Ok tt.
Proof.
  intros Hfont Himg. unfold gcode_alone. rewrite gcode_add_scale_bar_unfold.
  rewrite (exists_at_unwritten w init_state p eq_refl),
          (image_at_unwritten w init_state p eq_refl).
  destruct (os_path_exists w p); [|reflexivity].
  destruct (Py.endswith (Py.lower p) ".png"); [|reflexivity].
  cbn [negb]. destruct (Himg eq_refl eq_refl) as (img & -> & Hcol).
  rewrite (proj2 (conversion_error_none_iff img) Hcol).
  destruct (font_path_for w) as [fp|] eqn:Hfp; [|reflexivity].
  now rewrite (Hfont fp eq_refl).
Qed.

(** No line of the scope script is the generic walker's count line. *)
Lemma count_line_is_no_ix71_line (n : Z) : ~ ix71_line (Gcode.msg_complete n).
Proof.
  unfold ix71_line, Gcode.msg_complete.
  intros [E|[E|[E|[E|[E|[E|[out E]]]]]]]; cbn in E; discriminate E.
Qed.

(** C9 as stated fails for the scope walker: over the directory of
    captures it prints what [add_scale_bar] prints for each of the four
    files, and no count, neither at the end nor anywhere. *)
Lemma scope_walker_prints_no_count :
  stdout (snd (IX71.main scope_lab "captures" (Some "10X_1X") init_state))
  = ["Scale bar added to captures/sample_10x_1.6x_scaled.tif";
     "Scale bar added to captures/s_10X_1X_scaled.tif";
     "Scale bar added to captures/a_scaled_v2_scaled.tif";
     IX71.msg_bad_size].
Proof. vm_compute. reflexivity. Qed.

(** C9, amended.  Only the generic walker counts.  Over a directory
    whose listing is not empty, whenever its walk ends normally it has
    called [add_scale_bar] on exactly the listed paths that do not contain
    ["_scaled"] and has printed as its last line the count line with the
    number of those calls, so that skipped files are not counted; and the
    walk does end normally when every unskipped file that exists under a
    PNG name decodes to an 8-bit image of three or four channels and the
    platform's font loads.  The scope walker prints nothing but the lines
    of [add_scale_bar], none of which is a count. *)
Theorem generic_walker_prints_count :
  (forall (w : World) (directory_path : string),
      let png_files := glob_glob w (os_path_join w directory_path "*.png") in
      let run := Gcode.process_directory w directory_path init_state in
      os_path_isdir w directory_path = true ->
      png_files <> [] ->
      (fst run = Ok tt ->
       calls (snd run) = unmarked png_files /\
       exists lines,
         stdout (snd run)
         = (lines ++ [Gcode.msg_complete
                        (Z.of_nat (List.length (unmarked png_files)))])%list) /\
      ((forall p, In p png_files -> Py.contains "_scaled" p = false ->
                  os_path_exists w p = true ->
                  Py.endswith (Py.lower p) ".png" = true ->
                  exists img, decode w p = Some img /\ eight_bit_colour img) ->
       (forall font_path, font_path_for w = Some font_path ->
                          font_readable w font_path = true) ->
       fst run = Ok tt)) /\
  (forall (w : World) (directory_path : string) (k : option string) (st : state),
      exists lines,
        printed_since st (snd (IX71.process_directory w directory_path k st)) lines /\
        Forall ix71_line lines) /\
  (forall n, ~ ix71_line (Gcode.msg_complete n)).
Proof.
  split; [|split].
  - intros w d png_files run Hdir Hsome. unfold run.
    rewrite (gcode_walk_unfold w d Hdir Hsome). cbv zeta. fold png_files.
    split.
    + destruct (first_raise (map (fun p => fst (gcode_alone w p)) (unmarked png_files)))
        as [[]|e] eqn:Hstatus; cbn [fst snd calls stdout]; [|discriminate].
      intros _. split; [now apply reached_all|]. now eexists.
    + intros Hdec Hfont.
      rewrite (first_raise_all_ok (fun p => fst (gcode_alone w p))
                                  (unmarked png_files)); [reflexivity|].
      intros p Hp. apply in_unmarked in Hp. destruct Hp as [Hin Hmark].
      apply gcode_alone_returns; [exact Hfont|].
      intros Hex Hext. exact (Hdec p Hin Hmark Hex Hext).
  - intros w d k st. unfold IX71.process_directory.
    destruct (ix71_for_each_trace w (glob_glob w (os_path_join w d "*.tif")) k st)
      as (paths & lines & _ & _ & Hl & Hf).
    now exists lines.
  - exact count_line_is_no_ix71_line.
Qed.

(** The directory of plate renders: one file is annotated, the earlier
    output is skipped, and the count printed is 1. *)
Lemma generic_walker_prints_count_witness :
  fst (Gcode.process_directory gcode_lab "plates" init_state) = Ok tt /\
  calls (snd (Gcode.process_directory gcode_lab "plates" init_state))
  = ["plates/plate.png"] /\
  exists lines,
    stdout (snd (Gcode.process_directory gcode_lab "plates" init_state))
    = (lines ++ [Gcode.msg_complete 1])%list.
Proof.
  destruct (proj1 generic_walker_prints_count gcode_lab "plates" eq_refl)
    as [Hcount Hreturns]; [discriminate|].
  assert (Hok : fst (Gcode.process_directory gcode_lab "plates" init_state) = Ok tt).
  { apply Hreturns.
    - intros p [<-|[<-|[]]] Hmark _ _.
      + exists (blank 600 800). split; [reflexivity|].
        split; [now left | reflexivity].
      + discriminate Hmark.
    - intros font_path _. reflexivity. }
  split; [exact Hok|]. exact (Hcount Hok).
Defined.

(* ===================================================================== *)
(** ** Exceptions and normal return                                      *)
(* ===================================================================== *)

(** C4 (the code departs from the claim).  The generic script run on an
    existing file [x.png] that does not decode as an image: [cv2.imread]
    returns [None], [image.shape] raises [AttributeError], nothing catches
    it, nothing is printed and the interpreter exits with status 1.  The
    scope script, given the same kind of file, prints its size message and
    ends normally. *)
Theorem unreadable_png_raises :
  Gcode.main broken_lab "inbox/x.png" init_state =
  (Raised (AttributeError "'NoneType' object has no attribute 'shape'"),
   {| stdout := []; written := []; calls := ["inbox/x.png"] |}) /\
  exit_code (fst (Gcode.main broken_lab "inbox/x.png" init_state)) = 1 /\
  (forall (w : World) (p : string) (k : option string) (st : state),
      image_at w st p = None ->
      exists line,
        IX71.add_scale_bar w p k st = (Ok tt, with_line (entered st p) line)).
Proof.
  split; [|split].
  - vm_compute. reflexivity.
  - vm_compute. reflexivity.
  - intros w p k st Himg. rewrite ix71_add_scale_bar_unfold, Himg.
    destruct (exists_at w st p); cbn [negb]; [|eauto].
    destruct (Py.endswith p ".tif"); cbn [negb]; eauto.
Qed.





(** X4.  A file of another format: the generic script says so, naming the
    file, and writes nothing. *)
Theorem generic_rejects_other_formats
        (w : World) (p : string) (st : state) :
  exists_at w st p = true ->
  Py.endswith (Py.lower p) ".png" = false ->
  Gcode.add_scale_bar w p st
  = (Ok tt, with_line (entered st p)
                      ("Skipping " ++ p ++ ": The image must be in .png format.")) /\
  written (snd (Gcode.add_scale_bar w p st)) = written st.
Proof.
  intros Hex Hext.
  rewrite gcode_add_scale_bar_unfold, Hex, Hext. now split.
Qed.

Lemma generic_rejects_other_formats_witness :
  Gcode.add_scale_bar gcode_lab "plates/photo.jpg" init_state
  = (Ok tt, with_line (entered init_state "plates/photo.jpg")
                      ("Skipping " ++ "plates/photo.jpg"
                                   ++ ": The image must be in .png format.")) /\
  written (snd (Gcode.add_scale_bar gcode_lab "plates/photo.jpg" init_state)) = [].
Proof.
  apply (generic_rejects_other_formats gcode_lab "plates/photo.jpg" init_state);
    reflexivity.
Defined.

(* ===================================================================== *)
(** ** When a file is written, and what can be raised                    *)
(* ===================================================================== *)

Lemma cons_neq {A : Type} (x : A) (l : list A) : x :: l <> l.
Proof.
  intros H. apply (f_equal (@List.length A)) in H. cbn in H. lia.
Qed.

Lemma app_one_neq {A : Type} (x : A) (l : list A) : (l ++ [x])%list <> l.
Proof.
  intros H. apply (f_equal (@List.length A)) in H.
  rewrite List.length_app in H. cbn in H. lia.
Qed.

Lemma in_scope_keys_truthy (key : string) :
  In key scope_keys -> Py.truthy key = true.
Proof.
  unfold scope_keys. intros [E|[E|[E|[E|[E|[E|[]]]]]]]; subst key; reflexivity.
Qed.

Lemma scale_bar_of_some_iff (key : string) :
  (exists size label, IX71.scale_bar_of key = Some (size, label)) <->
  In key scope_keys.
Proof.
  split.
  - intros (size & label & H).
    destruct (in_dec string_dec key scope_keys) as [Hin|Hout]; [exact Hin|].
    apply scale_bar_of_none_iff in Hout. rewrite Hout in H. discriminate.
  - intros Hin. destruct (IX71.scale_bar_of key) as [[size label]|] eqn:E.
    + now exists size, label.
    + apply scale_bar_of_none_iff in E. contradiction.
Qed.

(** The scope script on [p], when every condition of [ix71_annotates]
    holds and when one fails. *)
Lemma ix71_annotates_run (w : World) (p : string) (k : option string)
      (st : state) :
  (ix71_annotates w st p k /\
   exists img,
     IX71.add_scale_bar w p k st
     = (Ok tt, finished w (entered st p) (Py.drop_last 4 p ++ "_scaled.tif") img)) \/
  (~ ix71_annotates w st p k /\
   written (snd (IX71.add_scale_bar w p k st)) = written st /\
   forall out,
     stdout (snd (IX71.add_scale_bar w p k st))
     <> (stdout st ++ [("Scale bar added to " ++ out)%string])%list).
Proof.
  assert (Hquiet : forall out,
             stdout (entered st p) <> (stdout st ++ [("Scale bar added to " ++ out)%string])%list).
  { intros out H. symmetry in H. exact (app_one_neq _ _ H). }
  assert (Hline : forall line out,
             String.prefix "Scale bar added to " line = false ->
             stdout (with_line (entered st p) line)
             <> (stdout st ++ [("Scale bar added to " ++ out)%string])%list).
  { intros line out Hpre H. cbn [stdout with_line entered] in H.
    apply app_inv_head in H. injection H as ->.
    exact (eq_true_false_abs _ (prefix_app "Scale bar added to " out) Hpre). }
  unfold ix71_annotates. rewrite ix71_add_scale_bar_unfold.
  destruct (exists_at w st p) eqn:Hex; cbn [negb].
  2:{ right. split; [intros (H & _); discriminate H|].
      split; [reflexivity | intros out; now apply Hline]. }
  destruct (Py.endswith p ".tif") eqn:Hext; cbn [negb].
  2:{ right. split; [intros (_ & H & _); discriminate H|].
      split; [reflexivity | intros out; now apply Hline]. }
  destruct (image_at w st p) as [img|] eqn:Himg.
  2:{ right. split; [intros (_ & _ & (i & H & _) & _); discriminate H|].
      split; [reflexivity | intros out; now apply Hline]. }
  destruct (negb (shape0 img =? 1440) || negb (shape1 img =? 1920)) eqn:Hsz.
  { right. split.
    - intros (_ & _ & (i & Hi & H0 & H1 & _) & _). injection Hi as <-.
      rewrite (proj2 (size_test_false_iff img) (conj H0 H1)) in Hsz.
      discriminate.
    - split; [reflexivity | intros out; now apply Hline]. }
  apply size_test_false_iff in Hsz. destruct Hsz as [H0 H1].
  destruct (Py.truthy (effective_scope_type k p)) eqn:Htr.
  2:{ right. split.
      - intros (_ & _ & _ & Hin & _). apply in_scope_keys_truthy in Hin.
        rewrite Hin in Htr. discriminate.
      - split; [reflexivity | intros out; now apply Hline]. }
  rewrite ix71_draw_and_save_unfold.
  destruct (IX71.scale_bar_of (effective_scope_type k p)) as [[size label]|] eqn:Hbar.
  2:{ apply scale_bar_of_none_iff in Hbar. right. split.
      - intros (_ & _ & _ & Hin & _). contradiction.
      - split; [reflexivity | intros out; now apply Hline]. }
  assert (Hin : In (effective_scope_type k p) scope_keys).
  { apply scale_bar_of_some_iff. eauto. }
  destruct (conversion_error img) as [e|] eqn:Hconv.
  { right. split.
    - intros (_ & _ & (i & Hi & _ & _ & Hcol) & _). injection Hi as <-.
      apply conversion_error_none_iff in Hcol. rewrite Hcol in Hconv.
      discriminate.
    - split; [reflexivity | exact Hquiet]. }
  apply conversion_error_none_iff in Hconv.
  destruct (font_path_for w) as [fp|] eqn:Hfp.
  2:{ right. split; [intros (_ & _ & _ & _ & (f & Hf & _)); discriminate Hf|].
      split; [reflexivity | intros out; now apply Hline]. }
  destruct (font_readable w fp) eqn:Hread.
  2:{ right. split.
      - intros (_ & _ & _ & _ & (f & Hf & Hr)). injection Hf as <-.
        rewrite Hr in Hread. discriminate.
      - split; [reflexivity | exact Hquiet]. }
  left. split; [|eauto].
  repeat split; eauto.
Qed.

(** X5.  The scope script gets to its last two lines on [p], the call of
    [cv2.imwrite] and the success line, exactly when the file exists, ends
    with [.tif], decodes to an 8-bit image of 1920x1440 with three or four
    channels, the scope type it settles on (given or detected) is one of
    the six keys, and the platform has a font that loads.  Exactly then
    the success line for [p] with its extension replaced by ["_scaled.tif"]
    is what it prints; and a file is written exactly when, moreover,
    [cv2.imwrite] could write that path.  Otherwise the written files are
    as they were. *)
Theorem scope_script_writes_iff
        (w : World) (p : string) (k : option string) (st : state) :
  let out := Py.drop_last 4 p ++ "_scaled.tif" in
  let st' := snd (IX71.add_scale_bar w p k st) in
  (stdout st' = (stdout st ++ [("Scale bar added to " ++ out)%string])%list <->
   ix71_annotates w st p k) /\
  (written st' <> written st <->
   ix71_annotates w st p k /\ imwrite_ok w out = true) /\
  (ix71_annotates w st p k ->
   exists img,
     IX71.add_scale_bar w p k st = (Ok tt, finished w (entered st p) out img) /\
     (imwrite_ok w out = true -> written st' = (out, img) :: written st)).
Proof.
  cbv zeta.
  destruct (ix71_annotates_run w p k st) as [(Hyes & img & Hrun)|(Hno & Hwr & Hout)].
  - rewrite Hrun. cbn [snd]. unfold finished.
    destruct (imwrite_ok w (Py.drop_last 4 p ++ "_scaled.tif")) eqn:Hdisk.
    + split; [split; [intros _; exact Hyes | intros _; reflexivity]|].
      split; [split; [intros _; now split | intros _; apply cons_neq]|].
      intros _. exists img. now split.
    + split; [split; [intros _; exact Hyes | intros _; reflexivity]|].
      split; [split; [intros H; now elim H | intros [_ H]; discriminate H]|].
      intros _. exists img. split; [reflexivity | discriminate].
  - split; [split; [intros H; now elim (Hout _ H) | intros H; contradiction]|].
    split; [split; [intros H; now elim H | intros [H _]; contradiction]|].
    intros H. contradiction.
Qed.

(** The camera's patterned capture: the conditions hold, the success line
    is printed and the file is written. *)
Lemma scope_script_writes_iff_witness :
  ix71_annotates camera_lab init_state "camera/b_10X_1X.tif" None /\
  written (snd (IX71.add_scale_bar camera_lab "camera/b_10X_1X.tif" None init_state))
  <> [].
Proof.
  destruct (scope_script_writes_iff camera_lab "camera/b_10X_1X.tif" None init_state)
    as (Hline & Hfile & _).
  assert (Hyes : ix71_annotates camera_lab init_state "camera/b_10X_1X.tif" None).
  { apply Hline. vm_compute. reflexivity. }
  split; [exact Hyes|].
  apply Hfile. split; [exact Hyes | reflexivity].
Defined.




(** The camera's four captures, one by one: the capture with an alpha
    channel and the patterned one are annotated; the 16-bit one ends the
    run in Pillow's [TypeError] and the greyscale one in OpenCV's error,
    each with exit status 1, nothing printed and nothing written. *)
Lemma camera_captures_one_by_one :
  stdout (snd (IX71.main camera_lab "camera/a_10X_1X.tif" None init_state))
  = ["Scale bar added to camera/a_10X_1X_scaled.tif"] /\
  stdout (snd (IX71.main camera_lab "camera/b_10X_1X.tif" None init_state))
  = ["Scale bar added to camera/b_10X_1X_scaled.tif"] /\
  IX71.main camera_lab "camera/c_10X_1X.tif" None init_state
  = (Raised (TypeError "Cannot handle this data type: (1, 1, 3), <u2"),
     {| stdout := []; written := []; calls := ["camera/c_10X_1X.tif"] |}) /\
  exit_code (fst (IX71.main camera_lab "camera/c_10X_1X.tif" None init_state)) = 1 /\
  IX71.main camera_lab "camera/d_10X_1X.tif" None init_state
  = (Raised (cv2_error "Invalid number of channels in input image"),
     {| stdout := []; written := []; calls := ["camera/d_10X_1X.tif"] |}).
Proof. repeat split; vm_compute; reflexivity. Qed.

(** On a disk that takes no file the success line is printed all the
    same, and nothing is written. *)
Lemma read_only_run_reports_success :
  IX71.main (read_only camera_lab) "camera/b_10X_1X.tif" None init_state
  = (Ok tt, {| stdout := ["Scale bar added to camera/b_10X_1X_scaled.tif"];
               written := [];
               calls := ["camera/b_10X_1X.tif"] |}) /\
  Gcode.main (read_only deep_lab) "renders/a.png" init_state
  = (Ok tt, {| stdout := ["Scale bar added to renders/a_scaled.png"];
               written := [];
               calls := ["renders/a.png"] |}).
Proof. split; vm_compute; reflexivity. Qed.

(* ===================================================================== *)
(** ** What a whole run writes                                           *)
(* ===================================================================== *)

Lemma ix71_for_each_keeps_outputs (w : World) (k : option string) :
  forall files st,
    tif_outputs_only st ->
    tif_outputs_only (snd (IX71.for_each_tif w files k st)).
Proof.
  induction files as [|f rest IH]; intros st Hinv; [exact Hinv|].
  cbn [IX71.for_each_tif]. unfold bind.
  destruct (Py.endswith f "_scaled.tif"); cbn [negb].
  - apply IH, Hinv.
  - pose proof (ix71_add_scale_bar_keeps_outputs w f k st Hinv) as H1.
    destruct (IX71.add_scale_bar w f k st) as [[[]|e] st1]; cbn [snd] in *.
    + apply IH, H1.
    + exact H1.
Qed.

Lemma gcode_for_each_keeps_outputs (w : World) :
  forall files n st,
    png_outputs_only st ->
    png_outputs_only (snd (Gcode.for_each_png w files n st)).
Proof.
  induction files as [|f rest IH]; intros n st Hinv; [exact Hinv|].
  cbn [Gcode.for_each_png].
  destruct (Py.contains "_scaled" f); [apply IH, Hinv|].
  unfold bind.
  pose proof (gcode_add_scale_bar_keeps_outputs w f st Hinv) as H1.
  destruct (Gcode.add_scale_bar w f st) as [[[]|e] st1]; cbn [snd] in *.
  - apply IH, H1.
  - exact H1.
Qed.

Lemma app_longer_neq (stem a b : string) :
  String.length a <> String.length b -> stem ++ a <> stem ++ b.
Proof.
  intros Hlen H. apply (f_equal String.length) in H.
  rewrite !length_app in H. lia.
Qed.

(** What one call of the scope script's [add_scale_bar] adds to the
    written files. *)
Lemma ix71_written_cases (w : World) (p : string) (k : option string) (st : state) :
  written (snd (IX71.add_scale_bar w p k st)) = written st \/
  exists stem img,
    p = stem ++ ".tif" /\
    written (snd (IX71.add_scale_bar w p k st))
    = (stem ++ "_scaled.tif", img) :: written st.
Proof.
  rewrite ix71_add_scale_bar_unfold.
  destruct (exists_at w st p); [|now left].
  destruct (Py.endswith p ".tif") eqn:Hext; [|now left].
  cbn [negb]. destruct (image_at w st p) as [img|]; [|now left].
  destruct (negb (shape0 img =? 1440) || negb (shape1 img =? 1920)); [now left|].
  destruct (Py.truthy (effective_scope_type k p)); [|now left].
  rewrite ix71_draw_and_save_unfold.
  destruct (IX71.scale_bar_of _) as [[size label]|]; [|now left].
  destruct (conversion_error img); [now left|].
  destruct (font_path_for w) as [fp|]; [|now left].
  destruct (font_readable w fp); [|now left].
  cbn [snd]. unfold finished. destruct (imwrite_ok w _); [|now left].
  right. destruct (ix71_output_path p Hext) as (stem & Hp & Hdrop).
  exists stem, (ix71_output_image w img size label fp).
  split; [exact Hp|]. cbn [saved written]. now rewrite Hdrop.
Qed.

Lemma gcode_written_cases (w : World) (p : string) (st : state) :
  written (snd (Gcode.add_scale_bar w p st)) = written st \/
  exists stem ext img,
    p = stem ++ ext /\ String.length ext = 4%nat /\
    written (snd (Gcode.add_scale_bar w p st))
    = (stem ++ "_scaled.png", img) :: written st.
Proof.
  rewrite gcode_add_scale_bar_unfold.
  destruct (exists_at w st p); [|now left].
  destruct (Py.endswith (Py.lower p) ".png") eqn:Hext; [|now left].
  cbn [negb]. destruct (image_at w st p) as [img|]; [|now left].
  destruct (conversion_error img); [now left|].
  destruct (font_path_for w) as [fp|]; [|now left].
  destruct (font_readable w fp); [|now left].
  cbn [snd]. unfold finished. destruct (imwrite_ok w _); [|now left].
  right. destruct (gcode_output_path p Hext) as (stem & ext & Hp & Hlow & Hdrop).
  exists stem, ext, (gcode_output_image w img fp).
  split; [exact Hp|]. split.
  - rewrite <- lower_length, Hlow. reflexivity.
  - cbn [saved written]. now rewrite Hdrop.
Qed.

(** X8.  Whatever path and key a script is started with, every file it has
    written when it stops, normally or not, is named [..._scaled.tif]
    (scope script) or [..._scaled.png] (generic script), and none of them is
    a file [add_scale_bar] was called on: no input is overwritten. *)
Theorem outputs_are_marked_and_inputs_kept :
  (forall (w : World) (path : string) (k : option string) (out : string),
      In out (map fst (written (snd (IX71.main w path k init_state)))) ->
      Py.endswith out "_scaled.tif" = true /\
      ~ In out (calls (snd (IX71.main w path k init_state)))) /\
  (forall (w : World) (path : string) (out : string),
      In out (map fst (written (snd (Gcode.main w path init_state)))) ->
      Py.endswith out "_scaled.png" = true /\
      ~ In out (calls (snd (Gcode.main w path init_state)))).
Proof.
  split.
  - intros w path k out. unfold IX71.main.
    destruct (os_path_isdir w path); [|destruct (os_path_isfile w path)].
    + unfold IX71.process_directory.
      set (files := glob_glob w (os_path_join w path "*.tif")).
      pose proof (ix71_for_each_keeps_outputs w k files init_state
                    (Forall_nil _)) as Hinv.
      destruct (ix71_for_each_trace w files k init_state)
        as (paths & lines & Hc & Hp & _).
      unfold called_since in Hc. cbn [calls init_state app] in Hc.
      intros Hin. apply in_map_iff in Hin. destruct Hin as (e & <- & He).
      unfold tif_outputs_only in Hinv. rewrite Forall_forall in Hinv.
      split; [apply Hinv, He|].
      rewrite Hc. intros Hcalled. destruct (Hp _ Hcalled) as [_ Hno].
      rewrite (Hinv e He) in Hno. discriminate.
    + rewrite ix71_add_scale_bar_calls. cbn [calls init_state app].
      destruct (ix71_written_cases w path k init_state)
        as [Hw|(stem & img & Hp & Hw)]; rewrite Hw; cbn [written init_state map fst].
      * intros [].
      * intros [<-|[]]. split.
        -- apply endswith_iff. now eexists.
        -- intros [E|[]]. rewrite Hp in E.
           revert E. apply app_longer_neq. discriminate.
    + cbn. intros [].
  - intros w path out. unfold Gcode.main.
    destruct (os_path_isdir w path) eqn:Hdir; [|destruct (os_path_isfile w path)].
    + unfold Gcode.process_directory. rewrite Hdir. cbn [negb].
      destruct (glob_glob w (os_path_join w path "*.png")) as [|f rest] eqn:Hglob;
        [cbn; intros []|].
      pose proof (gcode_for_each_keeps_outputs w (f :: rest) 0 init_state
                    (Forall_nil _)) as Hinv.
      destruct (gcode_for_each_trace w (f :: rest) 0 init_state)
        as (paths & Hc & Hp).
      unfold called_since in Hc. cbn [calls init_state app] in Hc.
      unfold bind.
      destruct (Gcode.for_each_png w (f :: rest) 0 init_state) as [[n|e] st1];
        cbn [snd print written calls] in *;
        (intros Hin; apply in_map_iff in Hin; destruct Hin as (x & <- & Hx);
         unfold png_outputs_only in Hinv; rewrite Forall_forall in Hinv;
         split; [apply Hinv, Hx|];
         rewrite Hc; intros Hcalled; destruct (Hp _ Hcalled) as [_ Hno];
         rewrite (endswith_contains _ "_scaled" ".png" (Hinv x Hx)) in Hno;
         discriminate).
    + rewrite gcode_add_scale_bar_calls. cbn [calls init_state app].
      destruct (gcode_written_cases w path init_state)
        as [Hw|(stem & ext & img & Hp & Hlen & Hw)];
        rewrite Hw; cbn [written init_state map fst].
      * intros [].
      * intros [<-|[]]. split.
        -- apply endswith_iff. now eexists.
        -- intros [E|[]]. rewrite Hp in E.
           revert E. apply app_longer_neq. rewrite Hlen. discriminate.
    + cbn. intros [].
Qed.

(* ===================================================================== *)
(** ** Directories with nothing left to do                               *)
(* ===================================================================== *)

Lemma ix71_for_each_all_finished (w : World) (k : option string) :
  forall files st,
    (forall p, In p files -> Py.endswith p "_scaled.tif" = true) ->
    IX71.for_each_tif w files k st = (Ok tt, st).
Proof.
  induction files as [|f rest IH]; intros st Hall; [reflexivity|].
  cbn [IX71.for_each_tif]. unfold bind.
  rewrite (Hall f (or_introl eq_refl)). cbn [negb]. unfold ret.
  apply IH. intros p Hin. apply Hall. now right.
Qed.

Lemma gcode_for_each_all_marked (w : World) :
  forall files n st,
    (forall p, In p files -> Py.contains "_scaled" p = true) ->
    Gcode.for_each_png w files n st = (Ok n, st).
Proof.
  induction files as [|f rest IH]; intros n st Hall; [reflexivity|].
  cbn [Gcode.for_each_png]. rewrite (Hall f (or_introl eq_refl)).
  apply IH. intros p Hin. apply Hall. now right.
Qed.

(** X9.  A directory that lists only earlier outputs is left alone.  The
    scope walker, when every listed path ends with ["_scaled.tif"], calls
    nothing, prints nothing and writes nothing; the generic walker, when
    the listing is not empty and every listed path contains ["_scaled"],
    only prints that 0 images were processed. *)
Theorem finished_directories_are_left_alone :
  (forall (w : World) (directory_path : string) (k : option string) (st : state),
      (forall p, In p (glob_glob w (os_path_join w directory_path "*.tif")) ->
                 Py.endswith p "_scaled.tif" = true) ->
      IX71.process_directory w directory_path k st = (Ok tt, st)) /\
  (forall (w : World) (directory_path : string) (st : state),
      os_path_isdir w directory_path = true ->
      glob_glob w (os_path_join w directory_path "*.png") <> [] ->
      (forall p, In p (glob_glob w (os_path_join w directory_path "*.png")) ->
                 Py.contains "_scaled" p = true) ->
      Gcode.process_directory w directory_path st
      = (Ok tt, with_line st (Gcode.msg_complete 0))).
Proof.
  split.
  - intros w d k st Hall. now apply ix71_for_each_all_finished.
  - intros w d st Hdir Hsome Hall. unfold Gcode.process_directory.
    rewrite Hdir. cbn [negb].
    destruct (glob_glob w (os_path_join w d "*.png")) as [|f rest] eqn:Hglob;
      [now elim Hsome|].
    unfold bind. now rewrite (gcode_for_each_all_marked w (f :: rest) 0 st Hall).
Qed.

Lemma finished_directories_are_left_alone_witness :
  IX71.process_directory done_lab "done" None init_state = (Ok tt, init_state) /\
  Gcode.process_directory done_lab "done" init_state
  = (Ok tt, with_line init_state (Gcode.msg_complete 0)).
Proof.
  split.
  - apply (proj1 finished_directories_are_left_alone done_lab "done" None init_state).
    intros p [<-|[<-|[]]]; reflexivity.
  - apply (proj2 finished_directories_are_left_alone done_lab "done" init_state).
    + reflexivity.
    + discriminate.
    + intros p [<-|[<-|[]]]; reflexivity.
Defined.

(* ===================================================================== *)
(** ** Platforms without a font                                          *)
(* ===================================================================== *)

Lemma ix71_add_scale_bar_without_font (w : World) (p : string)
      (k : option string) (st : state) :
  font_path_for w = None ->
  written (snd (IX71.add_scale_bar w p k st)) = written st.
Proof.
  intros Hnone. rewrite ix71_add_scale_bar_unfold.
  destruct (exists_at w st p); [|reflexivity].
  destruct (Py.endswith p ".tif"); [|reflexivity].
  cbn [negb]. destruct (image_at w st p) as [img|]; [|reflexivity].
  destruct (negb (shape0 img =? 1440) || negb (shape1 img =? 1920));
    [reflexivity|].
  destruct (Py.truthy (effective_scope_type k p)); [|reflexivity].
  rewrite ix71_draw_and_save_unfold, Hnone.
  destruct (IX71.scale_bar_of _) as [[size label]|]; [|reflexivity].
  now destruct (conversion_error img).
Qed.

Lemma gcode_add_scale_bar_without_font (w : World) (p : string) (st : state) :
  font_path_for w = None ->
  written (snd (Gcode.add_scale_bar w p st)) = written st.
Proof.
  intros Hnone. rewrite gcode_add_scale_bar_unfold, Hnone.
  destruct (exists_at w st p); [|reflexivity].
  destruct (Py.endswith (Py.lower p) ".png"); [|reflexivity].
  cbn [negb]. destruct (image_at w st p) as [img|]; [|reflexivity].
  now destruct (conversion_error img).
Qed.

(** X10.  On a platform that is neither [darwin], [win32] nor [linux...] no
    run of either script writes a file, whatever it is started on.  The
    platform is looked at after the conversion to Pillow: for a file that
    passes the checks of the scope script and has a valid key, an 8-bit
    image of three or four channels gives the unsupported-system line and a
    normal return, and any other image gives the exception of the
    conversion, as it does on a supported platform. *)
Theorem unsupported_platform_writes_nothing (w : World) :
  font_path_for w = None ->
  (forall path k st, written (snd (IX71.main w path k st)) = written st) /\
  (forall path st, written (snd (Gcode.main w path st)) = written st) /\
  (forall p k st img,
      exists_at w st p = true -> Py.endswith p ".tif" = true ->
      image_at w st p = Some img ->
      shape0 img = 1440 -> shape1 img = 1920 ->
      In (effective_scope_type k p) scope_keys ->
      (eight_bit_colour img ->
       IX71.add_scale_bar w p k st
       = (Ok tt, with_line (entered st p) msg_unsupported_os)) /\
      (forall e, conversion_error img = Some e ->
                 IX71.add_scale_bar w p k st = (Raised e, entered st p))).
Proof.
  intros Hnone.
  split; [|split].
  - intros path k st.
    unfold IX71.main, IX71.process_directory.
    destruct (os_path_isdir w path);
      [|destruct (os_path_isfile w path);
        [now apply ix71_add_scale_bar_without_font | reflexivity]].
    generalize (glob_glob w (os_path_join w path "*.tif")). intros files.
    revert st. induction files as [|f rest IH]; intros st; [reflexivity|].
    cbn [IX71.for_each_tif]. unfold bind.
    destruct (Py.endswith f "_scaled.tif"); cbn [negb]; [apply IH|].
    pose proof (ix71_add_scale_bar_without_font w f k st Hnone) as Hw.
    destruct (IX71.add_scale_bar w f k st) as [[[]|e] st1]; cbn [snd] in *.
    + now rewrite IH.
    + exact Hw.
  - intros path st. unfold Gcode.main, Gcode.process_directory.
    destruct (os_path_isdir w path) eqn:Hdir; cbn [negb];
      [|destruct (os_path_isfile w path);
        [now apply gcode_add_scale_bar_without_font | reflexivity]].
    destruct (glob_glob w (os_path_join w path "*.png")) as [|f0 rest0];
      [reflexivity|].
    assert (Hloop : forall files n st0,
               written (snd (Gcode.for_each_png w files n st0)) = written st0).
    { induction files as [|f rest IH]; intros n st0; [reflexivity|].
      cbn [Gcode.for_each_png].
      destruct (Py.contains "_scaled" f); [apply IH|].
      unfold bind.
      pose proof (gcode_add_scale_bar_without_font w f st0 Hnone) as Hw.
      destruct (Gcode.add_scale_bar w f st0) as [[[]|e] st1]; cbn [snd] in *.
      - now rewrite IH.
      - exact Hw. }
    unfold bind. specialize (Hloop (f0 :: rest0) 0 st).
    destruct (Gcode.for_each_png w (f0 :: rest0) 0 st) as [[n|e] st1];
      exact Hloop.
  - intros p k st img Hex Hext Himg H0 H1 Hin.
    rewrite ix71_add_scale_bar_unfold, Hex, Hext, Himg. cbn [negb].
    rewrite (proj2 (size_test_false_iff img) (conj H0 H1)).
    rewrite (in_scope_keys_truthy _ Hin), ix71_draw_and_save_unfold, Hnone.
    apply scale_bar_of_some_iff in Hin. destruct Hin as (size & label & ->).
    split.
    + intros Hcol. now rewrite (proj2 (conversion_error_none_iff img) Hcol).
    + intros e ->. reflexivity.
Qed.

(** The captures directory on a FreeBSD machine: two valid captures, two
    unsupported-system lines, no file. *)
Lemma unsupported_platform_writes_nothing_witness :
  IX71.main bsd_lab "captures" None init_state
  = (Ok tt, {| stdout := [msg_unsupported_os; msg_unsupported_os];
               written := [];
               calls := ["captures/s_10X_1X.tif"; "captures/t_40X_1.6X.tif"] |}) /\
  written (snd (IX71.main bsd_lab "captures" None init_state)) = [].
Proof.
  split; [vm_compute; reflexivity|].
  apply (proj1 (unsupported_platform_writes_nothing bsd_lab eq_refl)
               "captures" None init_state).
Defined.

(* ===================================================================== *)
(** ** A damaged file in a generic batch                                 *)
(* ===================================================================== *)

(** The loop over a listing in two parts: when the first part returns,
    the second goes on from its count and state. *)
Lemma gcode_for_each_app (w : World) (l1 l2 : list string) :
  forall n st n1 st1,
    Gcode.for_each_png w l1 n st = (Ok n1, st1) ->
    Gcode.for_each_png w (l1 ++ l2) n st = Gcode.for_each_png w l2 n1 st1.
Proof.
  induction l1 as [|f rest IH]; intros n st n1 st1 H.
  - cbn in H. injection H as <- <-. reflexivity.
  - cbn [Gcode.for_each_png app] in *.
    destruct (Py.contains "_scaled" f); [now apply IH|].
    unfold bind in *.
    destruct (Gcode.add_scale_bar w f st) as [[[]|e] st0]; [now apply IH|].
    discriminate H.
Qed.

(** A loop of the generic walker that returns has called [add_scale_bar]
    on every unmarked path. *)
Lemma gcode_for_each_returned (w : World) (files : list string) (n : Z) :
  fst (Gcode.for_each_png w files 0 init_state) = Ok n ->
  calls (snd (Gcode.for_each_png w files 0 init_state)) = unmarked files.
Proof.
  rewrite (gcode_for_each_file_by_file w files 0 init_state (Forall_nil _)).
  cbv zeta. cbn [fst snd calls init_state app].
  destruct (first_raise (map (fun p => fst (gcode_alone w p)) (unmarked files)))
    as [[]|e] eqn:Hstatus; [|discriminate].
  intros _. now apply reached_all.
Qed.

(** X11.  In the generic walker a file that does not decode ends the batch: if
    the loop over the files listed before it returns, the walk raises
    [AttributeError] on entering the damaged file, the files listed after
    it are never passed to [add_scale_bar], and nothing more is printed, the
    count line included. *)
Theorem damaged_file_aborts_generic_walk
        (w : World) (directory_path : string)
        (before after : list string) (p : string) :
  os_path_isdir w directory_path = true ->
  glob_glob w (os_path_join w directory_path "*.png") = (before ++ p :: after)%list ->
  (exists n, fst (Gcode.for_each_png w before 0 init_state) = Ok n) ->
  Py.contains "_scaled" p = false ->
  os_path_exists w p = true ->
  Py.endswith (Py.lower p) ".png" = true ->
  decode w p = None ->
  Gcode.process_directory w directory_path init_state
  = (Raised (AttributeError "'NoneType' object has no attribute 'shape'"),
     entered (snd (Gcode.for_each_png w before 0 init_state)) p) /\
  calls (snd (Gcode.process_directory w directory_path init_state))
  = (unmarked before ++ [p])%list.
Proof.
  intros Hdir Hglob [n Hret] Hmark Hex Hext Hdec.
  pose proof (gcode_for_each_returned w before n Hret) as Hc.
  pose proof (png_outputs_are_marked _
                (gcode_for_each_keeps_outputs w before 0 init_state (Forall_nil _)))
    as Hinv.
  destruct (Gcode.for_each_png w before 0 init_state) as [r st1] eqn:Hloop.
  cbn [fst snd] in *. subst r.
  assert (Hrun : Gcode.process_directory w directory_path init_state
                 = (Raised (AttributeError "'NoneType' object has no attribute 'shape'"),
                    entered st1 p)).
  { unfold Gcode.process_directory. rewrite Hdir, Hglob. cbn [negb].
    destruct (before ++ p :: after)%list as [|f0 rest0] eqn:Hlist;
      [now destruct before|].
    rewrite <- Hlist. unfold bind.
    rewrite (gcode_for_each_app w before (p :: after) 0 init_state _ _ Hloop).
    cbn [Gcode.for_each_png]. rewrite Hmark. unfold bind.
    rewrite gcode_add_scale_bar_unfold.
    pose proof (lookup_written_unmarked st1 p Hinv Hmark) as Hnew.
    rewrite (exists_at_unwritten w st1 p Hnew), (image_at_unwritten w st1 p Hnew).
    now rewrite Hex, Hext, Hdec. }
  rewrite Hrun. split; [reflexivity|].
  cbn [snd entered calls]. rewrite Hc. reflexivity.
Qed.

(** The inbox with a damaged second file: the first file is annotated,
    the walk stops at the second, the third is never reached. *)
Lemma damaged_file_aborts_generic_walk_witness :
  Gcode.process_directory mixed_lab "inbox" init_state
  = (Raised (AttributeError "'NoneType' object has no attribute 'shape'"),
     entered (snd (Gcode.for_each_png mixed_lab ["inbox/a.png"] 0 init_state))
             "inbox/x.png") /\
  calls (snd (Gcode.process_directory mixed_lab "inbox" init_state))
  = (unmarked ["inbox/a.png"] ++ ["inbox/x.png"])%list.
Proof.
  apply (damaged_file_aborts_generic_walk
           mixed_lab "inbox" ["inbox/a.png"] ["inbox/z.png"] "inbox/x.png").
  - reflexivity.
  - reflexivity.
  - exists 1. vm_compute. reflexivity.
  - reflexivity.
  - reflexivity.
  - reflexivity.
  - reflexivity.
Defined.

(* ===================================================================== *)
(** ** Where the bar is, and its colour                                  *)
(* ===================================================================== *)

(** X12.  In the scope script every table key gives a bar between 159 and 270
    pixels long whose two corners, as handed to [cv2.rectangle], are pixels
    of the 1920x1440 image: from (1860 - length, 1360) to (1860, 1390).  In
    the generic script, which accepts any size, the two corners are pixels
    of the image exactly when it is at least 250 wide and 35 high. *)
Theorem bar_geometry :
  (forall (key : string) (size : Z) (label : string) (img : image),
      IX71.scale_bar_of key = Some (size, label) ->
      shape0 img = 1440 -> shape1 img = 1920 ->
      159 <= size <= 270 /\
      IX71.bar_position img size = (1860 - size, 1360) /\
      IX71.bar_corner (IX71.bar_position img size) size = (1860, 1390) /\
      inside img (IX71.bar_position img size) /\
      inside img (IX71.bar_corner (IX71.bar_position img size) size)) /\
  (forall (img : image),
      inside img (Gcode.bar_position img 240) /\
      inside img (Gcode.bar_corner (Gcode.bar_position img 240) 240) <->
      250 <= shape1 img /\ 35 <= shape0 img).
Proof.
  split.
  - intros key size label img Hbar H0 H1.
    assert (Hsize : 159 <= size <= 270).
    { assert (Hin : In key scope_keys) by (apply scale_bar_of_some_iff; eauto).
      unfold scope_keys in Hin.
      destruct Hin as [E|[E|[E|[E|[E|[E|[]]]]]]]; subst key;
        vm_compute in Hbar; injection Hbar as <- _; lia. }
    unfold inside, IX71.bar_corner, IX71.bar_position,
      IX71.scale_bar_location_x_offset, IX71.scale_bar_location_y_offset,
      IX71.scale_bar_thickness.
    cbn [fst snd]. rewrite H0, H1.
    repeat split; try lia; f_equal; lia.
  - intros img.
    unfold inside, Gcode.bar_corner, Gcode.bar_position,
      Gcode.scale_bar_location_x_offset, Gcode.scale_bar_location_y_offset,
      Gcode.scale_bar_thickness.
    cbn [fst snd]. lia.
Qed.

Lemma bar_geometry_witness :
  159 <= 211 <= 270 /\
  IX71.bar_position (blank 1440 1920) 211 = (1860 - 211, 1360) /\
  IX71.bar_corner (IX71.bar_position (blank 1440 1920) 211) 211 = (1860, 1390) /\
  inside (blank 1440 1920) (IX71.bar_position (blank 1440 1920) 211) /\
  inside (blank 1440 1920)
         (IX71.bar_corner (IX71.bar_position (blank 1440 1920) 211) 211).
Proof.
  apply (proj1 bar_geometry "10X_1.6X" 211 "100 μm" (blank 1440 1920)).
  - vm_compute. reflexivity.
  - reflexivity.
  - reflexivity.
Defined.

Lemma ix71_output_bar (w : World) (img : image) (size : Z)
      (label font_path : string) (region : Z -> Z -> bool) :
  let position := IX71.bar_position img size in
  let font := {| font_file := font_path; font_size := IX71.scale_bar_font_size |} in
  dtype img = uint8 ->
  (forall rgb x y c,
      region x y = false ->
      draw_text w rgb (IX71.text_position w position size label font)
                label font IX71.scale_bar_color y x c = px rgb y x c) ->
  forall x y c,
    0 <= c < 3 ->
    in_rect position (IX71.bar_corner position size) x y = true ->
    region x y = false ->
    px (ix71_output_image w img size label font_path) y x c = Int 255.
Proof.
  intros position font Hd Hdraw x y c Hc Hbar Hregion.
  unfold ix71_output_image, np_asarray.
  cbn [px swap_rb ImageDraw_text].
  fold position. fold font. rewrite (Hdraw _ x y _ Hregion).
  cbn [px swap_rb cv2_rectangle]. rewrite Hbar, Hd.
  replace (2 - (2 - c)) with c by lia.
  assert (E : c = 0 \/ c = 1 \/ c = 2) by lia.
  destruct E as [-> | [-> | ->]]; reflexivity.
Qed.

Lemma gcode_output_bar (w : World) (img : image) (font_path : string)
      (region : Z -> Z -> bool) :
  let size := Gcode.scale_pixel_1000_um * 10 in
  let position := Gcode.bar_position img size in
  let font := {| font_file := font_path; font_size := Gcode.scale_bar_font_size |} in
  dtype img = uint8 ->
  (forall rgb x y c,
      region x y = false ->
      draw_text w rgb (Gcode.text_position w position size "" font)
                "" font Gcode.scale_bar_color y x c = px rgb y x c) ->
  forall x y c,
    0 <= c < 3 ->
    in_rect position (Gcode.bar_corner position size) x y = true ->
    region x y = false ->
    px (gcode_output_image w img font_path) y x c = Int 0.
Proof.
  intros size position font Hd Hdraw x y c Hc Hbar Hregion.
  unfold gcode_output_image, np_asarray.
  cbn [px swap_rb ImageDraw_text].
  fold size. fold position. fold font. rewrite (Hdraw _ x y _ Hregion).
  cbn [px swap_rb cv2_rectangle]. rewrite Hbar, Hd.
  replace (2 - (2 - c)) with c by lia.
  assert (E : c = 0 \/ c = 1 \/ c = 2) by lia.
  destruct E as [-> | [-> | ->]]; reflexivity.
Qed.

(** X13.  In the image a script hands to [cv2.imwrite] for an 8-bit input of
    three or four channels, every sample of every pixel of the rectangle
    handed to [cv2.rectangle] that the text renderer leaves alone has the
    bar colour: 255, white, in the scope script and 0, black, in the
    generic one, whatever the input held there. *)
Theorem bar_is_drawn_in_its_colour :
  (forall (w : World) (p : string) (k : option string) (st : state)
          (img : image) (size : Z) (label font_path : string)
          (region : Z -> Z -> bool),
      exists_at w st p = true ->
      Py.endswith p ".tif" = true ->
      image_at w st p = Some img ->
      shape0 img = 1440 -> shape1 img = 1920 ->
      eight_bit_colour img ->
      Py.truthy (effective_scope_type k p) = true ->
      IX71.scale_bar_of (effective_scope_type k p) = Some (size, label) ->
      font_path_for w = Some font_path ->
      font_readable w font_path = true ->
      (forall rgb x y c,
          region x y = false ->
          draw_text w rgb
            (IX71.text_position
               w (IX71.bar_position img size) size label
               {| font_file := font_path; font_size := IX71.scale_bar_font_size |})
            label
            {| font_file := font_path; font_size := IX71.scale_bar_font_size |}
            IX71.scale_bar_color y x c = px rgb y x c) ->
      exists out,
        IX71.add_scale_bar w p k st
        = (Ok tt, finished w (entered st p)
                           (Py.drop_last 4 p ++ "_scaled.tif") out) /\
        forall x y c,
          0 <= c < 3 ->
          in_rect (IX71.bar_position img size)
                  (IX71.bar_corner (IX71.bar_position img size) size) x y = true ->
          region x y = false ->
          px out y x c = Int 255) /\
  (forall (w : World) (p : string) (st : state) (img : image)
          (font_path : string) (region : Z -> Z -> bool),
      exists_at w st p = true ->
      Py.endswith (Py.lower p) ".png" = true ->
      image_at w st p = Some img ->
      eight_bit_colour img ->
      font_path_for w = Some font_path ->
      font_readable w font_path = true ->
      (forall rgb x y c,
          region x y = false ->
          draw_text w rgb
            (Gcode.text_position
               w (Gcode.bar_position img 240) 240 ""
               {| font_file := font_path; font_size := Gcode.scale_bar_font_size |})
            ""
            {| font_file := font_path; font_size := Gcode.scale_bar_font_size |}
            Gcode.scale_bar_color y x c = px rgb y x c) ->
      exists out,
        Gcode.add_scale_bar w p st
        = (Ok tt, finished w (entered st p)
                           (Py.drop_last 4 p ++ "_scaled.png") out) /\
        forall x y c,
          0 <= c < 3 ->
          in_rect (Gcode.bar_position img 240)
                  (Gcode.bar_corner (Gcode.bar_position img 240) 240) x y = true ->
          region x y = false ->
          px out y x c = Int 0).
Proof.
  split.
  - intros w p k st img size label font_path region
           Hex Hext Himg H0 H1 Hcol Hkey Hbar Hfont Hread Hdraw.
    exists (ix71_output_image w img size label font_path). split.
    + rewrite ix71_add_scale_bar_unfold, Hex, Hext, Himg. cbn [negb].
      rewrite (proj2 (size_test_false_iff img) (conj H0 H1)), Hkey.
      rewrite ix71_draw_and_save_unfold, Hbar.
      now rewrite (proj2 (conversion_error_none_iff img) Hcol), Hfont, Hread.
    + intros x y c Hc Hin Hout.
      exact (ix71_output_bar w img size label font_path region
                             (proj2 Hcol) Hdraw x y c Hc Hin Hout).
  - intros w p st img font_path region Hex Hext Himg Hcol Hfont Hread Hdraw.
    exists (gcode_output_image w img font_path). split.
    + rewrite gcode_add_scale_bar_unfold, Hex, Hext, Himg.
      now rewrite (proj2 (conversion_error_none_iff img) Hcol), Hfont, Hread.
    + intros x y c Hc Hin Hout.
      exact (gcode_output_bar w img font_path region
                              (proj2 Hcol) Hdraw x y c Hc Hin Hout).
Qed.

(** The camera's patterned capture [b_10X_1X.tif]: the 198-pixel bar is
    white wherever the label's box does not cover it. *)
Lemma bar_is_drawn_in_its_colour_witness :
  exists out,
    IX71.add_scale_bar camera_lab "camera/b_10X_1X.tif" None init_state
    = (Ok tt, saved (entered init_state "camera/b_10X_1X.tif")
                    (Py.drop_last 4 "camera/b_10X_1X.tif" ++ "_scaled.tif") out) /\
    forall x y c,
      0 <= c < 3 ->
      in_rect (IX71.bar_position (gradient 1440 1920) 198)
              (IX71.bar_corner (IX71.bar_position (gradient 1440 1920) 198) 198)
              x y = true ->
      text_box
        (IX71.text_position
           camera_lab (IX71.bar_position (gradient 1440 1920) 198) 198 "150 μm"
           {| font_file := "/usr/share/fonts/truetype/liberation/LiberationSans-Regular.ttf";
              font_size := IX71.scale_bar_font_size |})
        "150 μm"
        {| font_file := "/usr/share/fonts/truetype/liberation/LiberationSans-Regular.ttf";
           font_size := IX71.scale_bar_font_size |}
        x y = false ->
      px out y x c = Int 255.
Proof.
  apply (proj1 bar_is_drawn_in_its_colour camera_lab "camera/b_10X_1X.tif" None
               init_state (gradient 1440 1920) 198 "150 μm"
               "/usr/share/fonts/truetype/liberation/LiberationSans-Regular.ttf").
  - reflexivity.
  - reflexivity.
  - reflexivity.
  - reflexivity.
  - reflexivity.
  - split; [now left | reflexivity].
  - reflexivity.
  - vm_compute. reflexivity.
  - reflexivity.
  - reflexivity.
  - intros rgb x y c H. now apply box_renderer_frame.
Defined.

(* ===================================================================== *)
(** ** What detection can return                                         *)
(* ===================================================================== *)

Lemma ci_prefix_split (key : string) :
  forall s,
    ci_prefix key s = true ->
    Py.lower (substring 0 (String.length key) s) = Py.lower key /\
    exists rest, s = substring 0 (String.length key) s ++ rest.
Proof.
  induction key as [|c key IH]; intros s H.
  - cbn [String.length]. rewrite substring_0_0. split; [reflexivity|].
    now exists s.
  - destruct s as [|a s]; [discriminate|].
    cbn [ci_prefix] in H. apply andb_true_iff in H. destruct H as [Hc Hrest].
    apply Ascii.eqb_eq in Hc. destruct (IH s Hrest) as (Hlow & rest & Hs).
    cbn [String.length substring Py.lower]. rewrite Hc, Hlow.
    split; [reflexivity|]. exists rest. cbn [append]. now rewrite <- Hs.
Qed.

Lemma occurrence_here_shape (s text : string) :
  occurrence_here s = Some text ->
  In (Py.lower text) (map Py.lower scope_keys) /\ exists rest, s = text ++ rest.
Proof.
  unfold occurrence_here.
  destruct (find (fun key => ci_prefix key s) keys_in_match_order) as [key|] eqn:Hfind;
    [|discriminate].
  intros H. injection H as <-.
  apply find_some in Hfind. destruct Hfind as [Hin Hpre].
  destruct (ci_prefix_split key s Hpre) as (Hlow & rest & Hs).
  split; [|now exists rest].
  rewrite Hlow. apply in_map.
  unfold keys_in_match_order in Hin. unfold scope_keys.
  cbn [In] in *. tauto.
Qed.

Lemma first_occurrence_shape (s text : string) :
  first_occurrence s = Some text ->
  In (Py.lower text) (map Py.lower scope_keys) /\
  exists before rest, s = before ++ text ++ rest.
Proof.
  induction s as [|c s IH]; cbn [first_occurrence].
  - destruct (occurrence_here "") eqn:E; [|discriminate].
    intros H. injection H as <-.
    destruct (occurrence_here_shape _ _ E) as (Hin & rest & Hs).
    split; [exact Hin|]. now exists "", rest.
  - destruct (occurrence_here (String c s)) eqn:E.
    + intros H. injection H as <-.
      destruct (occurrence_here_shape _ _ E) as (Hin & rest & Hs).
      split; [exact Hin|]. now exists "", rest.
    + intros H. destruct (IH H) as (Hin & before & rest & Hs).
      split; [exact Hin|]. exists (String c before), rest.
      cbn [append]. now rewrite <- Hs.
Qed.

(** X14.  Whatever the path, detection returns either the empty string or a
    stretch of the path that is, letter case apart, one of the six keys: it
    never invents text and never returns anything else. *)
Theorem detection_returns_a_key_up_to_case (image_path : string) :
  let found := IX71.detect_scope_type_from_filename image_path in
  found = "" \/
  (In (Py.lower found) (map Py.lower scope_keys) /\
   exists before rest, image_path = before ++ found ++ rest).
Proof.
  cbv zeta. unfold IX71.detect_scope_type_from_filename.
  rewrite search_pattern_is_first_occurrence.
  destruct (first_occurrence image_path) as [text|] eqn:E; [|now left].
  right. now apply first_occurrence_shape.
Qed.

Lemma lower_ascii_starts (c : ascii) :
  Ascii.eqb c "4" = false -> Ascii.eqb c "1" = false ->
  Ascii.eqb (Py.lower_ascii c) "4" = false /\
  Ascii.eqb (Py.lower_ascii c) "1" = false.
Proof.
  destruct c as [[] [] [] [] [] [] [] []]; vm_compute; intros; auto.
Qed.

Lemma occurrence_here_needs_start (c : ascii) (s : string) :
  Ascii.eqb c "4" = false -> Ascii.eqb c "1" = false ->
  occurrence_here (String c s) = None.
Proof.
  intros H4 H1. destruct (lower_ascii_starts c H4 H1) as [L4 L1].
  unfold occurrence_here, keys_in_match_order.
  cbn [find ci_prefix Py.lower_ascii].
  change (Py.lower_ascii "4") with "4"%char.
  change (Py.lower_ascii "1") with "1"%char.
  now rewrite L4, L1.
Qed.

Lemma occurrence_here_key (key rest : string) :
  In key scope_keys -> occurrence_here (key ++ rest) = Some key.
Proof.
  unfold scope_keys.
  intros [E|[E|[E|[E|[E|[E|[]]]]]]]; subst key;
    unfold occurrence_here, keys_in_match_order;
    cbn; rewrite ?substring_0_0; try reflexivity; now destruct rest.
Qed.

(** X15.  A path made of text without the digits 4 and 1, then a key spelled
    as the table spells it, then anything at all, is detected as that
    key. *)
Theorem detection_finds_key_after_plain_text (before key rest : string) :
  starts_no_key before = true ->
  In key scope_keys ->
  IX71.detect_scope_type_from_filename (before ++ key ++ rest) = key.
Proof.
  intros Hplain Hkey. unfold IX71.detect_scope_type_from_filename.
  rewrite search_pattern_is_first_occurrence.
  induction before as [|c before IH].
  - cbn [append]. destruct (key ++ rest) eqn:E;
      cbn [first_occurrence]; rewrite <- E, (occurrence_here_key key rest Hkey);
      reflexivity.
  - cbn [starts_no_key] in Hplain.
    apply andb_true_iff in Hplain. destruct Hplain as [Hc Hplain].
    apply andb_true_iff in Hc. destruct Hc as [H4 H1].
    apply negb_true_iff in H4. apply negb_true_iff in H1.
    cbn [append first_occurrence].
    rewrite (occurrence_here_needs_start c _ H4 H1). now apply IH.
Qed.

Lemma detection_finds_key_after_plain_text_witness :
  IX71.detect_scope_type_from_filename
    ("captures/sample_" ++ "40X_1.6X" ++ "_day3_10X_1X.tif") = "40X_1.6X".
Proof.
  apply (detection_finds_key_after_plain_text
           "captures/sample_" "40X_1.6X" "_day3_10X_1X.tif").
  - reflexivity.
  - unfold scope_keys. cbn. tauto.
Defined.

(* ===================================================================== *)
(** ** The log and the files                                             *)
(* ===================================================================== *)

Lemma substring_all (s : string) : substring 0 (String.length s) s = s.
Proof. induction s as [|c s IH]; cbn; [reflexivity | now rewrite IH]. Qed.

Lemma substring_app_tail (a b : string) :
  substring (String.length a) (String.length b) (a ++ b) = b.
Proof.
  induction a as [|c a IH]; cbn [String.length append substring].
  - apply substring_all.
  - exact IH.
Qed.

Lemma reported_app (a b : list string) :
  reported (a ++ b) = (reported a ++ reported b)%list.
Proof. apply flat_map_app. Qed.

Lemma reported_success (out : string) :
  reported ["Scale bar added to " ++ out] = [out].
Proof.
  unfold reported. cbn [flat_map]. rewrite prefix_app, app_nil_r.
  rewrite length_app.
  replace (String.length "Scale bar added to " + String.length out - 19)%nat
    with (String.length out) by (cbn [String.length]; lia).
  f_equal. exact (substring_app_tail "Scale bar added to " out).
Qed.

Lemma log_matches_with_line (w : World) (st : state) (line : string) :
  String.prefix "Scale bar added to " line = false ->
  log_matches_files w st -> log_matches_files w (with_line st line).
Proof.
  unfold log_matches_files, with_line. cbn [stdout written]. intros Hline H.
  assert (E : reported [line] = []).
  { unfold reported. cbn [flat_map]. now rewrite Hline. }
  rewrite reported_app, filter_app, <- H, E. cbn [filter].
  now rewrite app_nil_r.
Qed.

(** The last two lines of [add_scale_bar] keep the log and the files in
    step: the path is reported, and it is written when the disk takes it. *)
Lemma log_matches_finished (w : World) (st : state) (out : string) (img : image) :
  log_matches_files w st -> log_matches_files w (finished w st out img).
Proof.
  unfold log_matches_files, finished. intros H.
  destruct (imwrite_ok w out) eqn:Hdisk;
    cbn [saved with_line stdout written map rev fst];
    rewrite reported_app, reported_success, filter_app, <- H;
    cbn [filter]; rewrite Hdisk; [reflexivity | now rewrite app_nil_r].
Qed.

Lemma log_matches_entered (w : World) (st : state) (p : string) :
  log_matches_files w st -> log_matches_files w (entered st p).
Proof. exact (fun H => H). Qed.

Lemma ix71_add_scale_bar_log (w : World) (p : string) (k : option string)
      (st : state) :
  log_matches_files w st ->
  log_matches_files w (snd (IX71.add_scale_bar w p k st)).
Proof.
  intros H. apply (log_matches_entered w st p) in H.
  rewrite ix71_add_scale_bar_unfold.
  destruct (exists_at w st p); [|now apply log_matches_with_line].
  destruct (Py.endswith p ".tif"); [|now apply log_matches_with_line].
  cbn [negb]. destruct (image_at w st p) as [img|];
    [|now apply log_matches_with_line].
  destruct (negb (shape0 img =? 1440) || negb (shape1 img =? 1920));
    [now apply log_matches_with_line|].
  destruct (Py.truthy (effective_scope_type k p));
    [|now apply log_matches_with_line].
  rewrite ix71_draw_and_save_unfold.
  destruct (IX71.scale_bar_of _) as [[size label]|];
    [|now apply log_matches_with_line].
  destruct (conversion_error img); [exact H|].
  destruct (font_path_for w) as [fp|]; [|now apply log_matches_with_line].
  destruct (font_readable w fp); [|exact H].
  now apply log_matches_finished.
Qed.

Lemma gcode_add_scale_bar_log (w : World) (p : string) (st : state) :
  log_matches_files w st ->
  log_matches_files w (snd (Gcode.add_scale_bar w p st)).
Proof.
  intros H. apply (log_matches_entered w st p) in H.
  rewrite gcode_add_scale_bar_unfold.
  destruct (exists_at w st p); [|now apply log_matches_with_line].
  destruct (Py.endswith (Py.lower p) ".png"); [|now apply log_matches_with_line].
  cbn [negb]. destruct (image_at w st p) as [img|]; [|exact H].
  destruct (conversion_error img); [exact H|].
  destruct (font_path_for w) as [fp|]; [|now apply log_matches_with_line].
  destruct (font_readable w fp); [|exact H].
  now apply log_matches_finished.
Qed.

(** X16.  In every run of either script, from the command line to its end or
    to the exception that stops it, the files written are, in order, the
    paths named by the success lines that [cv2.imwrite] could write: every
    file written is reported, and a reported path is missing from the
    files exactly when the write failed, which the scripts do not look at.
    On a disk that takes no file a run reports its success and writes
    nothing. *)
Theorem written_files_are_the_reported_ones :
  (forall (w : World) (path : string) (k : option string),
      let st := snd (IX71.main w path k init_state) in
      rev (map fst (written st)) = filter (imwrite_ok w) (reported (stdout st))) /\
  (forall (w : World) (path : string),
      let st := snd (Gcode.main w path init_state) in
      rev (map fst (written st)) = filter (imwrite_ok w) (reported (stdout st))) /\
  (let st := snd (IX71.main (read_only camera_lab) "camera/b_10X_1X.tif" None
                            init_state) in
   reported (stdout st) = ["camera/b_10X_1X_scaled.tif"] /\ written st = []).
Proof.
  assert (H0 : forall w, log_matches_files w init_state) by reflexivity.
  split; [|split].
  - intros w path k. cbv zeta.
    change (log_matches_files w (snd (IX71.main w path k init_state))).
    specialize (H0 w). unfold IX71.main, IX71.process_directory.
    destruct (os_path_isdir w path);
      [|destruct (os_path_isfile w path);
        [now apply ix71_add_scale_bar_log | now apply log_matches_with_line]].
    generalize (glob_glob w (os_path_join w path "*.tif")). intros files.
    revert H0. generalize init_state.
    induction files as [|f rest IH]; intros st H; [exact H|].
    cbn [IX71.for_each_tif]. unfold bind.
    destruct (Py.endswith f "_scaled.tif"); cbn [negb]; [now apply IH|].
    pose proof (ix71_add_scale_bar_log w f k st H) as H1.
    destruct (IX71.add_scale_bar w f k st) as [[[]|e] st1]; cbn [snd] in *.
    + now apply IH.
    + exact H1.
  - intros w path. cbv zeta.
    change (log_matches_files w (snd (Gcode.main w path init_state))).
    specialize (H0 w). unfold Gcode.main, Gcode.process_directory.
    destruct (os_path_isdir w path) eqn:Hdir; cbn [negb];
      [|destruct (os_path_isfile w path);
        [now apply gcode_add_scale_bar_log | now apply log_matches_with_line]].
    destruct (glob_glob w (os_path_join w path "*.png")) as [|f0 rest0];
      [now apply log_matches_with_line|].
    assert (Hloop : forall files n st,
               log_matches_files w st ->
               log_matches_files w (snd (Gcode.for_each_png w files n st))).
    { induction files as [|f rest IH]; intros n st H; [exact H|].
      cbn [Gcode.for_each_png].
      destruct (Py.contains "_scaled" f); [now apply IH|].
      unfold bind.
      pose proof (gcode_add_scale_bar_log w f st H) as H1.
      destruct (Gcode.add_scale_bar w f st) as [[[]|e] st1]; cbn [snd] in *.
      - now apply IH.
      - exact H1. }
    unfold bind. specialize (Hloop (f0 :: rest0) 0 init_state H0).
    destruct (Gcode.for_each_png w (f0 :: rest0) 0 init_state) as [[n|e] st1];
      cbn [snd] in *; [|exact Hloop].
    now apply (log_matches_with_line w st1).
  - cbv zeta. split; vm_compute; reflexivity.
Qed.

(* ===================================================================== *)
(** ** What the generic script prints                                    *)
(* ===================================================================== *)

(** X17.  Every line a run of the generic script prints is one of: the
    not-exist line, a skipping line, the unsupported-system line, a success
    line, the no-PNG line, the count line or the not-a-path line.  The
    "is not a valid directory" error of [process_directory] is none of them:
    started from the command line, the script never prints it, since
    [process_directory] is only reached for a directory. *)
Theorem generic_script_never_reports_invalid_directory :
  (forall (w : World) (path : string),
      Forall gcode_line (stdout (snd (Gcode.main w path init_state)))) /\
  (forall (w : World) (path directory_path : string),
      ~ In (Gcode.msg_not_a_directory directory_path)
           (stdout (snd (Gcode.main w path init_state)))).
Proof.
  split; [exact gcode_main_lines|].
  intros w path d Hin.
  pose proof (gcode_main_lines w path) as Hlines. rewrite Forall_forall in Hlines.
  specialize (Hlines _ Hin). unfold gcode_line, Gcode.msg_not_a_directory in Hlines.
  destruct Hlines as [E|[[p E]|[E|[[o E]|[[x E]|[[n E]|E]]]]]];
    cbn in E; discriminate E.
Qed.

